(** * Long-term-rental cleaning pipeline (src/utils.py): model and properties

    The Python module is a column-oriented pandas script.  It is embedded
    here as follows.

    - A Python float is an IEEE-754 binary64 number, taken from the
      specification of floats of the Standard Library ([spec_float] at
      precision 53 and maximal exponent 1024).
    - A raising call is a value of [result]; [try/except] is a match on it.
    - A data frame is a row count and an ordered list of named columns,
      each column a list of scalar cells; a vectorised pandas operation is
      the cell-wise operation mapped over the column.
    - Text written by [print] is not part of the model. *)

From Stdlib Require Import ZArith List String Ascii Bool Lia.
From Stdlib Require Import Floats.SpecFloat.
From Stdlib Require Import DecimalString.
From Stdlib Require Import Sorting.Sorted.
Import ListNotations.

Local Open Scope string_scope.
Local Open Scope list_scope.
Local Open Scope Z_scope.

(* ================================================================= *)
(** ** Exceptions *)

(** The exceptions of Python the code can meet.  [NotModelled] is none of
    them: it marks an input on which the model leaves the outcome open (the
    code may return or raise there). *)
Inductive exn :=
| KeyError (key : string)
| ValueError
| TypeError
| AttributeError (attr : string)
| ZeroDivisionError
| OverflowError
| FileNotFoundError
| NotModelled (what : string).

Inductive result (A : Type) :=
| Ok (a : A)
| Raise (e : exn).

Arguments Ok {A} a.
Arguments Raise {A} e.

Definition bind {A B} (m : result A) (k : A -> result B) : result B :=
  match m with
  | Ok a => k a
  | Raise e => Raise e
  end.

Notation "x <- m ;; k" := (bind m (fun x => k))
  (at level 61, m at next level, right associativity).
Notation "m ;;; k" := (bind m (fun _ => k))
  (at level 61, right associativity).

Definition returns {A} (m : result A) : bool :=
  match m with Ok _ => true | Raise _ => false end.

Fixpoint mapM {A B} (f : A -> result B) (l : list A) : result (list B) :=
  match l with
  | [] => Ok []
  | a :: l' => b <- f a ;; bs <- mapM f l' ;; Ok (b :: bs)
  end.

Fixpoint zipM {A B C} (f : A -> B -> result C) (l : list A) (r : list B)
  : result (list C) :=
  match l, r with
  | a :: l', b :: r' => c <- f a b ;; cs <- zipM f l' r' ;; Ok (c :: cs)
  | _, _ => Ok []
  end.

(* ================================================================= *)
(** ** binary64 *)

(** A Python [float]. *)
Definition float : Type := spec_float.

Module F64.

Definition prec : Z := 53.
Definition emax : Z := 1024.

Definition valid (x : float) : bool := valid_binary prec emax x.

Definition sub : float -> float -> float := SFsub prec emax.
Definition mul : float -> float -> float := SFmul prec emax.
Definition div : float -> float -> float := SFdiv prec emax.
Definition eqb : float -> float -> bool := SFeqb.
Definition ltb : float -> float -> bool := SFltb.
Definition leb : float -> float -> bool := SFleb.

(** Conversion of an integer, rounding to nearest, ties to even. *)
Definition of_Z (z : Z) : float := binary_normalize prec emax z 0 false.

Definition nan : float := S754_nan.
Definition inf : float := S754_infinity false.
Definition neg_inf : float := S754_infinity true.

(** The value [sign * m * 10^e] of a decimal literal, correctly rounded. *)
Definition of_decimal (sign : bool) (m : Z) (e : Z) : float :=
  match m with
  | Zpos p =>
      match e with
      | Zneg k =>
          let '(mz, ez, lz) :=
            SFdiv_core_binary prec emax (Zpos p) 0 (Z.pow_pos 10 k) 0 in
          binary_round_aux prec emax sign mz ez lz
      | Z0 => binary_round prec emax sign p 0
      | Zpos k => binary_round prec emax sign (p * Pos.pow 10 k)%positive 0
      end
  | _ => S754_zero sign
  end.

(** Nearest integer, ties to even, of a finite float; [None] otherwise. *)
Definition round_half_even (x : float) : option Z :=
  match x with
  | S754_zero _ => Some 0
  | S754_finite s m e =>
      let a :=
        match e with
        | Zneg k =>
            let d := Z.pow_pos 2 k in
            let q := Zpos m / d in
            let r := Zpos m mod d in
            match Z.compare (2 * r) d with
            | Lt => q
            | Gt => q + 1
            | Eq => if Z.even q then q else q + 1
            end
        | _ => Zpos m * 2 ^ e
        end in
      Some (if s then - a else a)
  | _ => None
  end.

Definition sign_bit (x : float) : bool :=
  match x with
  | S754_zero s | S754_infinity s | S754_finite s _ _ => s
  | S754_nan => false
  end.


End F64.

(* ================================================================= *)
(** ** Python text and the builtins [float] and [int] on text *)

Definition text := list ascii.

Definition is_digit (c : ascii) : bool :=
  let n := N_of_ascii c in ((48 <=? n) && (n <=? 57))%N.

Definition digit_val (c : ascii) : Z := Z.of_N (N_of_ascii c) - 48.

(** [Py_ISSPACE]: space, tab, line feed, vertical tab, form feed, return. *)
Definition is_space (c : ascii) : bool :=
  let n := N_of_ascii c in ((n =? 32) || ((9 <=? n) && (n <=? 13)))%N.

Definition to_lower (c : ascii) : ascii :=
  let n := N_of_ascii c in
  if ((65 <=? n) && (n <=? 90))%N then ascii_of_N (n + 32) else c.

Fixpoint lstrip (s : text) : text :=
  match s with
  | c :: s' => if is_space c then lstrip s' else s
  | [] => []
  end.

Definition strip (s : text) : text := rev (lstrip (rev (lstrip s))).

Fixpoint span (p : ascii -> bool) (s : text) : text * text :=
  match s with
  | c :: s' => if p c then let '(a, b) := span p s' in (c :: a, b) else ([], s)
  | [] => ([], [])
  end.

Definition decimal_value (ds : text) : Z :=
  fold_left (fun acc c => 10 * acc + digit_val c) ds 0.

Definition text_eqb (a b : text) : bool :=
  String.eqb (string_of_list_ascii a) (string_of_list_ascii b).

Definition is_underscore (prev : option ascii) : bool :=
  match prev with
  | Some c => Ascii.eqb c "_"
  | None => false
  end.

(** Underscores of a numeric literal: each one must follow a digit and be
    followed by a digit.  [prev] is the previous character, if any. *)
Fixpoint drop_underscores (prev : option ascii) (s : text) : option text :=
  match s with
  | [] => if is_underscore prev then None else Some []
  | c :: s' =>
      if Ascii.eqb c "_" then
        match prev with
        | Some p => if is_digit p then drop_underscores (Some c) s' else None
        | None => None
        end
      else
        if is_underscore prev && negb (is_digit c) then None
        else option_map (cons c) (drop_underscores (Some c) s')
  end.

Definition take_sign (s : text) : bool * text :=
  match s with
  | c :: s' =>
      if Ascii.eqb c "-" then (true, s')
      else if Ascii.eqb c "+" then (false, s')
      else (false, s)
  | [] => (false, [])
  end.

(** An optional sign, then [inf], [infinity] or [nan] in any letter case. *)
Definition parse_inf_or_nan (s : text) : option float :=
  let '(neg, body) := take_sign s in
  let low := map to_lower body in
  if text_eqb low (list_ascii_of_string "inf")
     || text_eqb low (list_ascii_of_string "infinity")
  then Some (S754_infinity neg)
  else if text_eqb low (list_ascii_of_string "nan") then Some S754_nan
  else None.

(** A decimal literal: sign, integer digits, optional point and fraction
    digits (one of the two digit runs non-empty), optional exponent.  The
    result is the sign, the digits read as one integer and the power of ten. *)
Definition parse_decimal (s : text) : option (bool * Z * Z) :=
  let '(neg, s0) := take_sign s in
  let '(ip, s1) := span is_digit s0 in
  let '(fp, s2) :=
    match s1 with
    | "."%char :: r => span is_digit r
    | _ => ([], s1)
    end in
  match ip ++ fp with
  | [] => None
  | ds =>
      let m := decimal_value ds in
      let shift := Z.of_nat (List.length fp) in
      match s2 with
      | [] => Some (neg, m, - shift)
      | c :: r =>
          if Ascii.eqb (to_lower c) "e" then
            let '(eneg, r0) := take_sign r in
            let '(ed, r1) := span is_digit r0 in
            match ed, r1 with
            | _ :: _, [] =>
                let e := decimal_value ed in
                Some (neg, m, (if eneg then - e else e) - shift)
            | _, _ => None
            end
          else None
      end
  end.

(** A [str] is held as its UTF-8 bytes; this is text of ASCII characters
    only. *)
Definition is_ascii (s : text) : bool :=
  forallb (fun c => (N_of_ascii c <? 128)%N) s.

(** [float] on ASCII text. *)
Definition float_of_ascii (s : text) : result float :=
  match drop_underscores None (strip s) with
  | None => Raise ValueError
  | Some s =>
      match parse_inf_or_nan s with
      | Some f => Ok f
      | None =>
          match parse_decimal s with
          | Some (neg, m, e) => Ok (F64.of_decimal neg m e)
          | None => Raise ValueError
          end
      end
  end.

(** [float(x)] for a [str] argument.  In text with a character that is not
    ASCII Python also reads the decimal digits and the blanks of other
    scripts; such text is outside the model. *)
Definition py_float (x : string) : result float :=
  let s := list_ascii_of_string x in
  if is_ascii s then float_of_ascii s
  else Raise (NotModelled "float of text that is not ASCII").

(** The most digits [int] reads from text ([sys.int_max_str_digits], by
    default). *)
Definition max_str_digits : nat := 4300.

(** [int] on ASCII text, base 10. *)
Definition int_of_ascii (s : text) : result Z :=
  let '(neg, body) := take_sign (strip s) in
  match drop_underscores None body with
  | Some (c :: ds) =>
      if forallb is_digit (c :: ds)
      then
        if (List.length (c :: ds) <=? max_str_digits)%nat
        then Ok (if neg then - decimal_value (c :: ds) else decimal_value (c :: ds))
        else Raise ValueError
      else Raise ValueError
  | _ => Raise ValueError
  end.

(** [int(x)] for a [str] argument (base 10); text that is not ASCII is
    outside the model, as for [float]. *)
Definition py_int (x : string) : result Z :=
  let s := list_ascii_of_string x in
  if is_ascii s then int_of_ascii s
  else Raise (NotModelled "int of text that is not ASCII").

(** [str(z)] for a Python int. *)
Definition str_of_Z (z : Z) : string := NilZero.string_of_int (Z.to_int z).

(** [f"{x:.0f}"] for a float: no decimals, ties to even. *)
Definition format_0f (x : float) : string :=
  match x with
  | S754_nan => "nan"
  | S754_infinity s => if s then "-inf" else "inf"
  | _ =>
      match F64.round_half_even x with
      | Some n => ((if F64.sign_bit x then "-" else "") ++ str_of_Z (Z.abs n))%string
      | None => "nan"
      end
  end.

(* ================================================================= *)
(** ** The converters of [utils.py] *)

(** What a converter hands back: a Python int or a Python float. *)
Inductive pynum :=
| PyInt (z : Z)
| PyFloat (f : float).


(** The bare [except] catches whatever [int] raises.  Where the model of
    [int] has no answer, [int0] has none either: that outcome is passed on
    and is no exception of Python. *)
Definition int0 (x : string) : result pynum :=
  match py_int x with
  | Ok z => Ok (PyInt z)
  | Raise (NotModelled what) => Raise (NotModelled what)
  | Raise _ => Ok (PyInt 0)
  end.

Definition float0 (x : string) : result pynum :=
  match py_float x with
  | Ok f => Ok (PyFloat f)
  | Raise (NotModelled what) => Raise (NotModelled what)
  | Raise _ => Ok (PyInt 0)
  end.

(** [x.replace(c, "")] for a one-character [c]. *)
Definition remove_char (c : ascii) (x : string) : string :=
  string_of_list_ascii
    (filter (fun d => negb (Ascii.eqb d c)) (list_ascii_of_string x)).

Definition dollars (x : string) : result pynum :=
  let x := remove_char "," (remove_char "$" x) in
  float0 x.

(* ================================================================= *)
(** ** Cells, columns and data frames *)

(** A scalar held in a column: an int64, a float64, a [str], a [bool], a
    shape (given by its text), or [None], the missing value of a column of
    shapes. *)
Inductive value :=
| VInt (z : Z)
| VFloat (f : float)
| VStr (s : string)
| VBool (b : bool)
| VShape (wkt : string)
| VNone.

Definition Series := list value.

Record DataFrame := {
  nrows : nat;
  columns : list (string * Series)
}.

Fixpoint lookup (k : string) (cols : list (string * Series)) : option Series :=
  match cols with
  | [] => None
  | (k', s) :: r => if String.eqb k' k then Some s else lookup k r
  end.

Fixpoint assign (k : string) (s : Series) (cols : list (string * Series))
  : list (string * Series) :=
  match cols with
  | [] => [(k, s)]
  | (k', s') :: r => if String.eqb k' k then (k, s) :: r else (k', s') :: assign k s r
  end.

(** [k in df.columns] *)
Definition has_column (df : DataFrame) (k : string) : bool :=
  match lookup k (columns df) with Some _ => true | None => false end.

(** [df[k]] *)
Definition getitem (df : DataFrame) (k : string) : result Series :=
  match lookup k (columns df) with
  | Some s => Ok s
  | None => Raise (KeyError k)
  end.

(** [df[k] = s]: an existing column is overwritten in place, a new one is
    appended. *)
Definition setitem (df : DataFrame) (k : string) (s : Series) : DataFrame :=
  {| nrows := nrows df; columns := assign k s (columns df) |}.

(** [df[k] = c] for a scalar [c]. *)
Definition setitem_scalar (df : DataFrame) (k : string) (c : value) : DataFrame :=
  setitem df k (repeat c (nrows df)).

(** The cell of column [k] in row [i]. *)
Definition cell (df : DataFrame) (k : string) (i : nat) : option value :=
  match lookup k (columns df) with
  | Some s => nth_error s i
  | None => None
  end.

(* ----------------------------------------------------------------- *)
(** *** Cell-wise operations *)

Inductive num :=
| NInt (z : Z)
| NFloat (f : float).

(** Numeric reading of a cell; a bool counts as 0 or 1, text and [None]
    have none. *)
Definition num_of (v : value) : option num :=
  match v with
  | VInt z => Some (NInt z)
  | VFloat f => Some (NFloat f)
  | VBool b => Some (NInt (Z.b2z b))
  | VStr _ | VShape _ | VNone => None
  end.

(** The int64 that an integer wraps to: numpy's arithmetic on an int64
    column is modulo 2^64. *)
Definition wrap64 (z : Z) : Z := (z + 2 ^ 63) mod 2 ^ 64 - 2 ^ 63.

Definition to_f (n : num) : float :=
  match n with
  | NInt z => F64.of_Z z
  | NFloat f => f
  end.

Definition is_number (v : value) : bool :=
  match v with VInt _ | VFloat _ => true | _ => false end.

Definition v_sub (a b : value) : result value :=
  match a, b with
  | VBool _, VBool _ => Raise TypeError
  | _, _ =>
      match num_of a, num_of b with
      | Some (NInt x), Some (NInt y) => Ok (VInt (wrap64 (x - y)))
      | Some x, Some y => Ok (VFloat (F64.sub (to_f x) (to_f y)))
      | _, _ => Raise TypeError
      end
  end.

(** True division: always a float. *)
Definition v_div (a b : value) : result value :=
  match num_of a, num_of b with
  | Some x, Some y => Ok (VFloat (F64.div (to_f x) (to_f y)))
  | _, _ => Raise TypeError
  end.

Definition v_mul (k : Z) (a : value) : result value :=
  match num_of a with
  | Some (NInt x) => Ok (VInt (wrap64 (x * k)))
  | Some (NFloat f) => Ok (VFloat (F64.mul f (F64.of_Z k)))
  | None => Raise TypeError
  end.

Definition n_eq (n : num) (k : Z) : bool :=
  match n with NInt x => x =? k | NFloat f => F64.eqb f (F64.of_Z k) end.
Definition n_le (n : num) (k : Z) : bool :=
  match n with NInt x => x <=? k | NFloat f => F64.leb f (F64.of_Z k) end.
Definition n_lt (n : num) (k : Z) : bool :=
  match n with NInt x => x <? k | NFloat f => F64.ltb f (F64.of_Z k) end.
Definition n_ge (n : num) (k : Z) : bool :=
  match n with NInt x => k <=? x | NFloat f => F64.leb (F64.of_Z k) f end.
Definition n_gt (n : num) (k : Z) : bool :=
  match n with NInt x => k <? x | NFloat f => F64.ltb (F64.of_Z k) f end.

(** An ordering test of a cell against an int; text raises. *)
Definition v_cmp (test : num -> Z -> bool) (k : Z) (a : value) : result value :=
  match num_of a with
  | Some n => Ok (VBool (test n k))
  | None => Raise TypeError
  end.

(** [a == k] and [a != k] never raise; text is different from any int. *)
Definition eq_int (k : Z) (a : value) : bool :=
  match num_of a with Some n => n_eq n k | None => false end.
Definition v_eq (k : Z) (a : value) : value := VBool (eq_int k a).
Definition v_ne (k : Z) (a : value) : value := VBool (negb (eq_int k a)).

(** [a != t] for a str [t]. *)
Definition ne_str (t : string) (a : value) : bool :=
  match a with VStr s => negb (String.eqb s t) | _ => true end.
Definition v_ne_str (t : string) (a : value) : value := VBool (ne_str t a).

(** [&] and [|] on boolean cells. *)
Definition v_and (a b : value) : result value :=
  match a, b with
  | VBool x, VBool y => Ok (VBool (x && y))
  | _, _ => Raise TypeError
  end.
Definition v_or (a b : value) : result value :=
  match a, b with
  | VBool x, VBool y => Ok (VBool (x || y))
  | _, _ => Raise TypeError
  end.
Definition v_not (a : value) : result value :=
  match a with
  | VBool x => Ok (VBool (negb x))
  | _ => Raise TypeError
  end.

(** [.replace(old, new)] for ints [old] and [new]: a cell equal to [old]
    becomes [new] in the cell's own numeric type. *)
Definition v_replace_int (old new : Z) (a : value) : value :=
  match a with
  | VInt z => if z =? old then VInt new else a
  | VFloat f => if F64.eqb f (F64.of_Z old) then VFloat (F64.of_Z new) else a
  | _ => a
  end.

Definition v_replace_str (old new : string) (a : value) : value :=
  match a with
  | VStr s => if String.eqb s old then VStr new else a
  | _ => a
  end.

Definition is_infinite (f : float) : bool :=
  F64.eqb f F64.inf || F64.eqb f F64.neg_inf.

(** [.replace([np.inf, -np.inf], np.nan)] on one cell. *)
Definition v_replace_inf (a : value) : value :=
  match a with
  | VFloat f => if is_infinite f then VFloat F64.nan else a
  | _ => a
  end.

(** [.where(cond, other)]: the cell where [cond] holds, [other] elsewhere. *)
Definition v_where (other : Z) (a cond : value) : result value :=
  match cond with
  | VBool true => Ok a
  | VBool false =>
      Ok match a with
         | VFloat _ => VFloat (F64.of_Z other)
         | _ => VInt other
         end
  | _ => Raise TypeError
  end.

(** [.astype(str)]; the shortest-digits text of a float is not modelled. *)
Definition v_astype_str (a : value) : result value :=
  match a with
  | VInt z => Ok (VStr (str_of_Z z))
  | VStr s => Ok (VStr s)
  | VBool b => Ok (VStr (if b then "True" else "False"))
  | VShape wkt => Ok (VStr wkt)
  | VNone => Ok (VStr "None")
  | VFloat _ => Raise (NotModelled "str of a float")
  end.

(** [a + sep + b] on str cells. *)
Definition v_concat (sep : string) (a b : value) : result value :=
  match a, b with
  | VStr x, VStr y => Ok (VStr (x ++ sep ++ y)%string)
  | _, _ => Raise TypeError
  end.

(* ----------------------------------------------------------------- *)
(** *** The stages *)

Definition add_exempt (df : DataFrame) (stats : bool) : result DataFrame :=
  d1 <- getitem df "unitDesc2" ;;
  d2 <- getitem df "unitDesc2" ;;
  e <- zipM v_and (map (v_ne_str "None of the above") d1)
                  (map (v_ne_str "(Nothing Selected)") d2) ;;
  Ok (setitem df "exempt" e).

(** [df.replace([np.inf, -np.inf], np.nan)]: a new frame, every column. *)
Definition replace_inf (df : DataFrame) : DataFrame :=
  {| nrows := nrows df;
     columns := map (fun c => (fst c, map v_replace_inf (snd c))) (columns df) |}.

Definition add_increases (df : DataFrame) : result DataFrame :=
  cur <- getitem df "CurrentRent1" ;;
  base <- getitem df "BaseRent1" ;;
  x <- zipM v_sub cur base ;;
  let df := setitem df "Rent_Inc_base" x in
  inc <- getitem df "Rent_Inc_base" ;;
  base <- getitem df "BaseRent1" ;;
  q <- zipM v_div inc base ;;
  x <- mapM (v_mul 100) q ;;
  let df := setitem df "Rent_Inc_base_percent" x in
  cur <- getitem df "CurrentRent1" ;;
  prev <- getitem df "PreviousRent" ;;
  x <- zipM v_sub cur prev ;;
  let df := setitem df "Rent_Inc" x in
  inc <- getitem df "Rent_Inc" ;;
  bed <- getitem df "nbrBedRms1" ;;
  x <- zipM v_div inc (map (v_replace_int 0 1) bed) ;;
  let df := setitem df "Rent_Inc_per_BedRms" x in
  inc <- getitem df "Rent_Inc" ;;
  prev <- getitem df "PreviousRent" ;;
  q <- zipM v_div inc prev ;;
  x <- mapM (v_mul 100) q ;;
  let df := setitem df "Rent_Inc_percent" x in
  cur <- getitem df "CurrentRent1" ;;
  bed <- getitem df "nbrBedRms1" ;;
  x <- zipM v_div cur (map (v_replace_int 0 1) bed) ;;
  let df := setitem df "Rent_per_BedRms" x in
  Ok (replace_inf df).

Definition group_bedrooms (df : DataFrame) : result DataFrame :=
  bed <- getitem df "nbrBedRms1" ;;
  let df := setitem df "nbrBedRms_studio" (map (v_replace_int 0 1) bed) in
  bed <- getitem df "nbrBedRms1" ;;
  let df := setitem df "nbrBedRms_grouped" (map (v_replace_int 0 1) bed) in
  g <- getitem df "nbrBedRms_grouped" ;;
  g' <- getitem df "nbrBedRms_grouped" ;;
  c <- mapM (v_cmp n_lt 5) g' ;;
  x <- zipM (v_where 5) g c ;;
  let df := setitem df "nbrBedRms_grouped" x in
  g <- getitem df "nbrBedRms_grouped" ;;
  x <- mapM v_astype_str g ;;
  let df := setitem df "nbrBedRms_grouped" x in
  g <- getitem df "nbrBedRms_grouped" ;;
  let df := setitem df "nbrBedRms_grouped" (map (v_replace_str "5" "5+") g) in
  Ok df.

(** [(s <= lo) | (s >= hi)] *)
Definition outside (lo hi : Z) (s : Series) : result Series :=
  a <- mapM (v_cmp n_le lo) s ;;
  b <- mapM (v_cmp n_ge hi) s ;;
  zipM v_or a b.

Definition add_outlier_2022 (df : DataFrame) (stats : bool) : result DataFrame :=
  df <- (if negb (has_column df "Rent_Inc") then add_increases df else Ok df) ;;
  cur <- getitem df "CurrentRent1" ;;
  let df := setitem df "outlier_0_rent" (map (v_eq 0) cur) in
  cur <- getitem df "CurrentRent1" ;;
  x <- outside 100 6500 cur ;;
  let df := setitem df "outlier_rent" x in
  p <- getitem df "Rent_Inc_base_percent" ;;
  o <- outside (-10) 40 p ;;
  base <- getitem df "BaseRent1" ;;
  x <- zipM v_and o (map (v_ne 0) base) ;;
  let df := setitem df "outlier_inc_base" x in
  p <- getitem df "Rent_Inc_percent" ;;
  x <- outside (-10) 40 p ;;
  let df := setitem df "outlier_inc_prev" x in
  r <- getitem df "outlier_rent" ;;
  b <- getitem df "outlier_inc_base" ;;
  rb <- zipM v_or r b ;;
  p <- getitem df "outlier_inc_prev" ;;
  x <- zipM v_or rb p ;;
  let df := setitem df "outlier" x in
  Ok df.

Definition add_outlier_2023 (df : DataFrame) (stats : bool) : result DataFrame :=
  df <- (if negb (has_column df "Rent_Inc") then add_increases df else Ok df) ;;
  cur <- getitem df "CurrentRent1" ;;
  let df := setitem df "outlier_0_rent" (map (v_eq 0) cur) in
  cur <- getitem df "CurrentRent1" ;;
  pos <- mapM (v_cmp n_gt 0) cur ;;
  cur' <- getitem df "CurrentRent1" ;;
  low <- mapM (v_cmp n_le 250) cur' ;;
  band <- zipM v_and pos low ;;
  cur'' <- getitem df "CurrentRent1" ;;
  high <- mapM (v_cmp n_ge 4000) cur'' ;;
  x <- zipM v_or band high ;;
  let df := setitem df "outlier_rent" x in
  p <- getitem df "Rent_Inc_percent" ;;
  x <- outside (-15) 65 p ;;
  let df := setitem df "outlier_inc_prev" x in
  z <- getitem df "outlier_0_rent" ;;
  r <- getitem df "outlier_rent" ;;
  zr <- zipM v_or z r ;;
  p <- getitem df "outlier_inc_prev" ;;
  x <- zipM v_or zr p ;;
  let df := setitem df "outlier" x in
  Ok df.

(* ----------------------------------------------------------------- *)
(** *** The ward lookup and the join *)

(** A row of the parcel lookup: the two columns the join reads, and the
    shape every row of a lookup with geometry has. *)
Record parcel := {
  IAS_PARCEL_ID : string;
  Ward_GIS : Z;
  geometry : string
}.

(** [sort_values("Ward_GIS")]: ascending. *)
Fixpoint insert_by_ward (p : parcel) (l : list parcel) : list parcel :=
  match l with
  | [] => [p]
  | q :: r =>
      if Ward_GIS p <=? Ward_GIS q then p :: q :: r
      else q :: insert_by_ward p r
  end.

Definition sort_values (l : list parcel) : list parcel :=
  fold_right insert_by_ward [] l.

Definition has_parcel (k : string) (l : list parcel) : bool :=
  existsb (fun q => String.eqb (IAS_PARCEL_ID q) k) l.

(** [drop_duplicates("IAS_PARCEL_ID")]: the first row of each parcel is kept
    ([keep="first"] is the default), in order.  [seen] are the rows already
    kept. *)
Fixpoint drop_dup (seen : list parcel) (l : list parcel) : list parcel :=
  match l with
  | [] => []
  | p :: r =>
      if has_parcel (IAS_PARCEL_ID p) seen then drop_dup seen r
      else p :: drop_dup (p :: seen) r
  end.

Definition drop_duplicates (l : list parcel) : list parcel := drop_dup [] l.

Definition find_parcel (k : string) (l : list parcel) : option parcel :=
  find (fun q => String.eqb (IAS_PARCEL_ID q) k) l.

(** The match of one record's key in the lookup; a key that is not a str
    cannot be merged with the str keys of the lookup. *)
Definition match_key (parcels : list parcel) (key : value) : result (option parcel) :=
  match key with
  | VStr k => Ok (find_parcel k parcels)
  | _ => Raise ValueError
  end.

Definition is_some {A} (o : option A) : bool :=
  match o with Some _ => true | None => false end.

(** The lookup's columns in the merged frame: a record without a match gets
    NaN, which turns the ward column into floats, and no shape. *)
Definition left_columns (ms : list (option parcel)) : list (string * Series) :=
  let ids := map (fun m => match m with
                           | Some p => VStr (IAS_PARCEL_ID p)
                           | None => VFloat F64.nan
                           end) ms in
  let wards :=
    if forallb is_some ms
    then map (fun m => match m with
                       | Some p => VInt (Ward_GIS p)
                       | None => VFloat F64.nan
                       end) ms
    else map (fun m => match m with
                       | Some p => VFloat (F64.of_Z (Ward_GIS p))
                       | None => VFloat F64.nan
                       end) ms in
  let shapes := map (fun m => match m with
                              | Some p => VShape (geometry p)
                              | None => VNone
                              end) ms in
  [("IAS_PARCEL_ID", ids); ("Ward_GIS", wards); ("geometry", shapes)].

Definition names (cols : list (string * Series)) : list string := map fst cols.

Definition mem (k : string) (l : list string) : bool := existsb (String.eqb k) l.

Definition suffixed (sfx : string) (other : list string) (c : string * Series)
  : string * Series :=
  if mem (fst c) other then ((fst c ++ sfx)%string, snd c) else c.

(** [parcels.merge(df, right_on="PARCELNUMBER", left_on="IAS_PARCEL_ID",
    how="right")]: one row per record of [df], in the order of [df]; a
    column name present on both sides gets the suffix [_x] or [_y]. *)
Definition merge_right (parcels : list parcel) (df : DataFrame) : result DataFrame :=
  keys <- getitem df "PARCELNUMBER" ;;
  ms <- mapM (match_key parcels) keys ;;
  let l := left_columns ms in
  Ok {| nrows := nrows df;
        columns := map (suffixed "_x" (names (columns df))) l
                   ++ map (suffixed "_y" (names l)) (columns df) |}.

Definition rename (old new : string) (df : DataFrame) : DataFrame :=
  {| nrows := nrows df;
     columns := map (fun c => if String.eqb (fst c) old then (new, snd c) else c)
                    (columns df) |}.

Definition count_named (k : string) (df : DataFrame) : nat :=
  List.length (filter (fun c => String.eqb (fst c) k) (columns df)).

Definition v_format_0f (a : value) : result value :=
  match num_of a with
  | Some n => Ok (VStr (format_0f (to_f n)))
  | None => Raise TypeError
  end.

(** [parcels.sort_values("Ward_GIS")] on the frame that was read: a lookup
    without a row comes from a file without a feature and has no column of
    that name. *)
Definition sort_by_ward (parcels : list parcel) : result (list parcel) :=
  match parcels with
  | [] => Raise (KeyError "Ward_GIS")
  | _ => Ok (sort_values parcels)
  end.

(** The lines shared by [add_ward] and [add_ward_geo] once the lookup has
    been read. *)
Definition join_ward (parcels : list parcel) (df : DataFrame) : result DataFrame :=
  sorted <- sort_by_ward parcels ;;
  let parcels := drop_duplicates sorted in
  merge <- merge_right parcels df ;;
  let merge := rename "Ward_GIS" "WARD" merge in
  w <- getitem merge "WARD" ;;
  x <- (if (count_named "WARD" merge =? 1)%nat then mapM v_format_0f w
        else Raise TypeError) ;;
  Ok (setitem merge "WARD_str" x).

Definition STREET_LIST_CSV := "../../municipal-street-list/parcels_ward_gis.csv".
Definition STREET_LIST_GEOJSON := "../../municipal-street-list/parcels_ward_gis.geojson".

(** What the ward functions find outside the program. *)
Record environment := {
  geopandas_installed : bool;
  (** the rows of the GeoJSON lookup, [None] when it cannot be read *)
  street_list_geojson : option (list parcel)
}.

(** [pd.read_file]: the pandas module has no attribute of that name (the
    reader of that name belongs to geopandas), so the attribute access
    raises. *)
Definition pd_read_file (path : string) : result (list parcel) :=
  Raise (AttributeError "read_file").

(** [gpd.read_file(path).to_crs(3857)] *)
Definition gpd_read_file (env : environment) (path : string) : result (list parcel) :=
  match street_list_geojson env with
  | Some rows => Ok rows
  | None => Raise FileNotFoundError
  end.

Definition add_ward (df : DataFrame) : result DataFrame :=
  parcels <- pd_read_file STREET_LIST_CSV ;;
  join_ward parcels df.

Definition add_ward_geo (env : environment) (df : DataFrame) : result DataFrame :=
  if negb (geopandas_installed env) then add_ward df
  else
    parcels <- gpd_read_file env STREET_LIST_GEOJSON ;;
    join_ward parcels df.

(* ----------------------------------------------------------------- *)
(** *** Reading the file, the report and the entry point *)

Inductive converter := conv_int | conv_str | conv_dollars | conv_int0 | conv_float0.

Definition converters : list (string * converter) :=
  [ ("TAXYEAR1", conv_int);
    ("LICENSENUMBER", conv_str);
    ("ADDRESS", conv_str);
    ("PARCELNUMBER", conv_str);
    ("NumberOfRentalUnits", conv_int);
    ("SVALUE1", conv_str);
    ("UPCSQualifiedUnits", conv_int);
    ("HQSQualifiedUnits", conv_int);
    ("Textbox50", conv_int);
    ("FullySprinkledBuildingQualifiedUnits", conv_int);
    ("BLDiscountAverageUnit", conv_dollars);
    ("ROWNUMBER1", conv_int);
    ("unitNumber1", conv_str);
    ("BaseRent1", conv_dollars);
    ("PreviousRent", conv_dollars);
    ("CurrentRent1", conv_dollars);
    ("BankedRent1", conv_dollars);
    ("CurrentSecurityDeposit1", conv_dollars);
    ("OtherPayments1", conv_dollars);
    ("nbrBedRms1", conv_int0);
    ("nbrBthRms1", conv_float0);
    ("kitInc1", conv_str);
    ("unitDesc2", conv_str) ].

Definition is_pyfloat (n : pynum) : bool :=
  match n with PyFloat _ => true | PyInt _ => false end.

Definition pynum_float (n : pynum) : float :=
  match n with PyInt z => F64.of_Z z | PyFloat f => f end.

Definition in_int64 (z : Z) : bool := (- 2 ^ 63 <=? z) && (z <? 2 ^ 63).

(** pandas looks at the converted numbers one after the other
    ([lib.maybe_convert_objects]) and takes each int to a float on the way:
    an int too large for a float raises.  An int outside int64 makes a
    column of another type (uint64, or Python objects), which is not
    modelled. *)
Fixpoint scan_numbers (ns : list pynum) : result unit :=
  match ns with
  | [] => Ok tt
  | PyFloat _ :: r => scan_numbers r
  | PyInt z :: r =>
      if is_infinite (F64.of_Z z) then Raise OverflowError
      else if in_int64 z then scan_numbers r
      else Raise (NotModelled "a column with an int outside int64")
  end.

(** The column pandas builds from converted numbers: int64 when all of them
    are ints, float64 as soon as one is a float. *)
Definition numeric_column (ns : list pynum) : result Series :=
  scan_numbers ns ;;;
  Ok (if existsb is_pyfloat ns
      then map (fun n => VFloat (pynum_float n)) ns
      else map (fun n => match n with PyInt z => VInt z | PyFloat f => VFloat f end)
               ns).

Definition convert_column (c : converter) (cells : list string) : result Series :=
  match c with
  | conv_str => Ok (map VStr cells)
  | conv_int => zs <- mapM py_int cells ;; numeric_column (map PyInt zs)
  | conv_int0 => ns <- mapM int0 cells ;; numeric_column ns
  | conv_float0 => ns <- mapM float0 cells ;; numeric_column ns
  | conv_dollars => ns <- mapM dollars cells ;; numeric_column ns
  end.

(** A file of filings whose header is the one of the data files, the 23
    names of [converters] in their order: its rows, each a list of text
    cells. *)
Definition csv := list (list string).

(** A row the reader takes: it has a cell (a blank line is no row) and no
    more cells than the header has names. *)
Definition row_fits (r : list string) : bool :=
  negb (List.length r =? 0)%nat && (List.length r <=? List.length converters)%nat.

(** [pd.read_csv(file, converters=converters)] on such a file.  A row short
    of cells is read as if it ended in empty cells; what the reader makes of
    a row with more cells than the header depends on where the row stands
    and is not modelled. *)
Definition read_csv (rows : csv) : result DataFrame :=
  if forallb row_fits rows then
    cols <- mapM (fun jc : nat * (string * converter) =>
                    s <- convert_column (snd (snd jc))
                           (map (fun r => nth (fst jc) r "") rows) ;;
                    Ok (fst (snd jc), s))
                 (combine (seq 0 (List.length converters)) converters) ;;
    Ok {| nrows := List.length rows; columns := cols |}
  else Raise (NotModelled "a row with no cell or with more cells than the header").

Definition all_bool (s : Series) : bool :=
  forallb (fun v => match v with VBool _ => true | _ => false end) s.

Definition all_int (s : Series) : bool :=
  forallb (fun v => match v with VInt _ => true | _ => false end) s.

Definition all_float (s : Series) : bool :=
  forallb (fun v => match v with VFloat _ => true | _ => false end) s.

Definition all_str (s : Series) : bool :=
  forallb (fun v => match v with VStr _ => true | _ => false end) s.

(** [~s] on a column: [not] on a column of bools, the bitwise complement on
    a column of ints; a column of floats or of text has no [~].  A column
    that mixes kinds of cells is a column of Python objects, which is not
    modelled. *)
Definition invert (s : Series) : result Series :=
  if all_bool s then mapM v_not s
  else if all_int s
  then Ok (map (fun v => match v with VInt z => VInt (- z - 1) | _ => v end) s)
  else if all_float s || all_str s then Raise TypeError
  else Raise (NotModelled "~ on a column of objects").

(** [df[s]] for a column [s]: a column of bools selects rows; the cells of
    any other column are taken for column names, and a cell that names no
    column raises [KeyError]. *)
Definition select (df : DataFrame) (s : Series) : result unit :=
  if all_bool s then Ok tt
  else if all_int s || all_float s then Raise (KeyError "the values of the mask")
  else if all_str s then
    if forallb (fun v => match v with VStr k => has_column df k | _ => false end) s
    then Ok tt
    else Raise (KeyError "the values of the mask")
  else Raise (NotModelled "a mask of objects").

(** The report prints only; what can stop it is a missing column, a mask
    that cannot be inverted or selects no rows, or the division of two
    Python ints by [N = 0]. *)
Definition subset_stats (df : DataFrame) : result unit :=
  let N := nrows df in
  o <- getitem df "outlier" ;;
  m <- invert o ;;
  select df m ;;;
  (if (N =? 0)%nat then Raise ZeroDivisionError else Ok tt) ;;;
  inc <- getitem df "Rent_Inc" ;;
  c <- mapM (v_cmp n_gt 0) inc ;;
  select df c ;;;
  e <- getitem df "exempt" ;;
  select df e ;;;
  Ok tt.

(** The lines of [get_data] that follow the reading of the file, on the
    table that was read. *)
Definition get_data_on (env : environment) (df : DataFrame)
    (outlier_method : string) (ward geo : bool) : result DataFrame :=
  lic <- getitem df "LICENSENUMBER" ;;
  lic <- mapM v_astype_str lic ;;
  unit_no <- getitem df "unitNumber1" ;;
  unit_no <- mapM v_astype_str unit_no ;;
  id <- zipM (v_concat "-") lic unit_no ;;
  let df := setitem df "ID" id in
  df <- add_exempt df false ;;
  df <- add_increases df ;;
  df <- group_bedrooms df ;;
  df <- (if String.eqb outlier_method "2022" then add_outlier_2022 df true
         else if String.eqb outlier_method "2023" then add_outlier_2023 df true
         else Ok df) ;;
  df <- (if geo then add_ward_geo env df
         else if ward then add_ward df
         else Ok df) ;;
  let df := setitem_scalar df "Count" (VInt 1) in
  subset_stats df ;;;
  Ok df.

Definition get_data (env : environment) (file : option csv)
    (outlier_method : string) (ward geo : bool) : result DataFrame :=
  df <- match file with
        | Some rows => read_csv rows
        | None => Raise FileNotFoundError
        end ;;
  get_data_on env df outlier_method ward geo.

(* ================================================================= *)
(** * Vocabulary of the properties *)

(** ** Cell-wise operations with the raising case left out *)

Definition ok_or {A} (d : A) (r : result A) : A :=
  match r with Ok a => a | Raise _ => d end.

(** Cell-wise operations with the raising case defaulted: what [mapM] and
    [zipM] compute when no cell raises. *)
Definition map1 (f : value -> result value) (s : Series) : Series :=
  map (fun a => ok_or (VStr "") (f a)) s.

Definition zip2 (f : value -> value -> result value) (l r : Series) : Series :=
  map (fun p => ok_or (VStr "") (f (fst p) (snd p))) (combine l r).

(** ** Tables the rent stages accept *)

(** Column [k] is present, holds ints or floats, one per row. *)
Definition number_column (df : DataFrame) (k : string) : bool :=
  match lookup k (columns df) with
  | Some s => forallb is_number s && (List.length s =? nrows df)%nat
  | None => false
  end.

(** The columns [add_increases] reads. *)
Definition rent_table (df : DataFrame) : bool :=
  number_column df "CurrentRent1" && number_column df "BaseRent1"
  && number_column df "PreviousRent" && number_column df "nbrBedRms1".

(** The frame [add_increases] has built when it reaches its cleanup line. *)
Definition with_increases (df : DataFrame) (cur base prev bed : Series) : DataFrame :=
  let inc_base := zip2 v_sub cur base in
  let inc := zip2 v_sub cur prev in
  let den := map (v_replace_int 0 1) bed in
  setitem
    (setitem
      (setitem
        (setitem
          (setitem
            (setitem df "Rent_Inc_base" inc_base)
            "Rent_Inc_base_percent" (map1 (v_mul 100) (zip2 v_div inc_base base)))
          "Rent_Inc" inc)
        "Rent_Inc_per_BedRms" (zip2 v_div inc den))
      "Rent_Inc_percent" (map1 (v_mul 100) (zip2 v_div inc prev)))
    "Rent_per_BedRms" (zip2 v_div cur den).

Definition number (v : value) : Prop := is_number v = true.

(** The float a numeric cell stands for. *)
Definition fl (v : value) : float :=
  match num_of v with Some n => to_f n | None => F64.nan end.

(** ** The rent-change stage *)

(** The names of the six columns [add_increases] writes. *)
Definition increase_columns : list string :=
  [ "Rent_Inc_base"; "Rent_Inc_base_percent"; "Rent_Inc";
    "Rent_Inc_per_BedRms"; "Rent_Inc_percent"; "Rent_per_BedRms" ].

(** A two-row table: a studio, and a six-bedroom unit with no rents on file. *)
Definition sample_table : DataFrame :=
  {| nrows := 2;
     columns :=
       [ ("PARCELNUMBER", [VStr "P1"; VStr "P2"]);
         ("BaseRent1", [VFloat (F64.of_Z 1000); VFloat (F64.of_Z 0)]);
         ("PreviousRent", [VFloat (F64.of_Z 1100); VFloat (F64.of_Z 0)]);
         ("CurrentRent1", [VFloat (F64.of_Z 1200); VFloat (F64.of_Z 0)]);
         ("nbrBedRms1", [VInt 0; VInt 6]);
         ("unitDesc2", [VStr "None of the above"; VStr "Owner occupied"]) ] |}.

(** One row whose bedroom count is negative. *)
Definition negative_bedrooms_table : DataFrame :=
  {| nrows := 1;
     columns :=
       [ ("BaseRent1", [VFloat (F64.of_Z 800)]);
         ("PreviousRent", [VFloat (F64.of_Z 900)]);
         ("CurrentRent1", [VFloat (F64.of_Z 1000)]);
         ("nbrBedRms1", [VInt (-2)]) ] |}.

(** ** The outlier classifiers *)

(** The columns the classifiers read once the rent changes are present. *)
Definition rates_table (df : DataFrame) : bool :=
  number_column df "CurrentRent1" && number_column df "BaseRent1"
  && number_column df "Rent_Inc_base_percent" && number_column df "Rent_Inc_percent".

(** What a classifier accepts: the rent changes are already there, or the
    table is one [add_increases] accepts. *)
Definition outlier_input (df : DataFrame) : bool :=
  if has_column df "Rent_Inc" then rates_table df else rent_table df.

(** The percentage [add_increases] stores for a rent [cur] against the rent
    [ref]: [(cur - ref) / ref * 100], an infinity replaced by NaN. *)
Definition percent_change (cur ref : value) : value :=
  v_replace_inf
    (ok_or (VStr "")
       (v_mul 100
          (ok_or (VStr "") (v_div (ok_or (VStr "") (v_sub cur ref)) ref)))).

(** The cells of row [i] a classifier decides on, in terms of the table it
    is given: the two rents and the two percentages of the table when the
    rent changes are there, and otherwise what [add_increases] makes of the
    three rents of the row. *)
Definition classified (df : DataFrame) (i : nat) (cur base pb pp : value) : Prop :=
  if has_column df "Rent_Inc"
  then cell df "CurrentRent1" i = Some cur
       /\ cell df "BaseRent1" i = Some base
       /\ cell df "Rent_Inc_base_percent" i = Some pb
       /\ cell df "Rent_Inc_percent" i = Some pp
  else exists cur0 base0 prev0,
         cell df "CurrentRent1" i = Some cur0
         /\ cell df "BaseRent1" i = Some base0
         /\ cell df "PreviousRent" i = Some prev0
         /\ cur = v_replace_inf cur0
         /\ base = v_replace_inf base0
         /\ pb = percent_change cur0 base0
         /\ pp = percent_change cur0 prev0.

(** An ordering test on a cell, false on a cell that is not a number. *)
Definition holds (test : num -> Z -> bool) (k : Z) (v : value) : bool :=
  match num_of v with Some n => test n k | None => false end.

Definition boolean (v : value) : Prop :=
  match v with VBool _ => True | _ => False end.

Definition with_outliers_2022 (df : DataFrame) (cur base pb pp : Series) : DataFrame :=
  let r := zip2 v_or (map1 (v_cmp n_le 100) cur) (map1 (v_cmp n_ge 6500) cur) in
  let b := zip2 v_and
             (zip2 v_or (map1 (v_cmp n_le (-10)) pb) (map1 (v_cmp n_ge 40) pb))
             (map (v_ne 0) base) in
  let p := zip2 v_or (map1 (v_cmp n_le (-10)) pp) (map1 (v_cmp n_ge 40) pp) in
  setitem
    (setitem
      (setitem
        (setitem
          (setitem df "outlier_0_rent" (map (v_eq 0) cur))
          "outlier_rent" r)
        "outlier_inc_base" b)
      "outlier_inc_prev" p)
    "outlier" (zip2 v_or (zip2 v_or r b) p).

Definition with_outliers_2023 (df : DataFrame) (cur pp : Series) : DataFrame :=
  let z := map (v_eq 0) cur in
  let r := zip2 v_or
             (zip2 v_and (map1 (v_cmp n_gt 0) cur) (map1 (v_cmp n_le 250) cur))
             (map1 (v_cmp n_ge 4000) cur) in
  let p := zip2 v_or (map1 (v_cmp n_le (-15)) pp) (map1 (v_cmp n_ge 65) pp) in
  setitem
    (setitem
      (setitem
        (setitem df "outlier_0_rent" z)
        "outlier_rent" r)
      "outlier_inc_prev" p)
    "outlier" (zip2 v_or (zip2 v_or z r) p).

(** ** The exemption flag *)

Definition NONE_OF_THE_ABOVE := "None of the above".
Definition NOTHING_SELECTED := "(Nothing Selected)".

(** ** The bedroom groups *)

(** Column [k] is present and holds ints, one per row. *)
Definition int_column (df : DataFrame) (k : string) : bool :=
  match lookup k (columns df) with
  | Some s => forallb (fun v => match v with VInt _ => true | _ => false end) s
              && (List.length s =? nrows df)%nat
  | None => false
  end.

Definition integer (v : value) : Prop :=
  match v with VInt _ => True | _ => False end.

(** The values of [nbrBedRms_grouped] the specification lists. *)
Definition bedroom_categories : list string := ["1"; "2"; "3"; "4"; "5+"].

Definition with_bedroom_groups (df : DataFrame) (bed : Series) : DataFrame :=
  let g1 := map (v_replace_int 0 1) bed in
  let g2 := zip2 (v_where 5) g1 (map1 (v_cmp n_lt 5) g1) in
  let g3 := map1 v_astype_str g2 in
  setitem
    (setitem
      (setitem
        (setitem
          (setitem df "nbrBedRms_studio" (map (v_replace_int 0 1) bed))
          "nbrBedRms_grouped" g1)
        "nbrBedRms_grouped" g2)
      "nbrBedRms_grouped" g3)
    "nbrBedRms_grouped" (map (v_replace_str "5" "5+") g3).

Definition one_bedroom_column (counts : list Z) : DataFrame :=
  {| nrows := List.length counts;
     columns := [("nbrBedRms1", map VInt counts)] |}.

(** What one cell goes through. *)
Definition grouped (z : Z) : value :=
  v_replace_str "5" "5+"
    (ok_or (VStr "")
       (v_astype_str
          (ok_or (VStr "")
             (v_where 5 (v_replace_int 0 1 (VInt z))
                (ok_or (VStr "") (v_cmp n_lt 5 (v_replace_int 0 1 (VInt z)))))))).

(** ** The currency parser *)



(** ** The ward lookup *)

Definition by_ward (p q : parcel) : Prop := Ward_GIS p <= Ward_GIS q.

(** A lookup with two rows for one parcel, wards 3 and 7. *)
Definition two_wards : list parcel :=
  [ {| IAS_PARCEL_ID := "P1"; Ward_GIS := 3; geometry := "POINT (0 0)" |};
    {| IAS_PARCEL_ID := "P1"; Ward_GIS := 7; geometry := "POINT (0 0)" |} ].

Definition two_wards_env : environment :=
  {| geopandas_installed := true; street_list_geojson := Some two_wards |}.

(** ** What a stage leaves alone *)

(** [out] has the rows of [df], and each column outside [written] holds the
    cells it held in [df], passed through [f]. *)
Definition frame (written : list string) (f : value -> value)
    (df out : DataFrame) : Prop :=
  nrows out = nrows df
  /\ forall k, mem k written = false ->
       lookup k (columns out) = option_map (map f) (lookup k (columns df)).

Definition same (v : value) : value := v.

Definition exempt_columns : list string := ["exempt"].
Definition bedroom_columns : list string := ["nbrBedRms_studio"; "nbrBedRms_grouped"].
Definition outlier_columns_2022 : list string :=
  ["outlier_0_rent"; "outlier_rent"; "outlier_inc_base"; "outlier_inc_prev"; "outlier"].
Definition outlier_columns_2023 : list string :=
  ["outlier_0_rent"; "outlier_rent"; "outlier_inc_prev"; "outlier"].


(** The table has no column named like one of the lookup. *)
Definition no_lookup_names (df : DataFrame) : bool :=
  negb (has_column df "IAS_PARCEL_ID") && negb (has_column df "Ward_GIS")
  && negb (has_column df "geometry").




(** ** The entry point *)

(** The table [get_data] holds when it calls [subset_stats]: the lines that
    follow the reading of the file, without the last two. *)
Definition table_on (env : environment) (df : DataFrame)
    (outlier_method : string) (ward geo : bool) : result DataFrame :=
  lic <- getitem df "LICENSENUMBER" ;;
  lic <- mapM v_astype_str lic ;;
  unit_no <- getitem df "unitNumber1" ;;
  unit_no <- mapM v_astype_str unit_no ;;
  id <- zipM (v_concat "-") lic unit_no ;;
  let df := setitem df "ID" id in
  df <- add_exempt df false ;;
  df <- add_increases df ;;
  df <- group_bedrooms df ;;
  df <- (if String.eqb outlier_method "2022" then add_outlier_2022 df true
         else if String.eqb outlier_method "2023" then add_outlier_2023 df true
         else Ok df) ;;
  df <- (if geo then add_ward_geo env df
         else if ward then add_ward df
         else Ok df) ;;
  Ok (setitem_scalar df "Count" (VInt 1)).

Definition get_data_table (env : environment) (file : option csv)
    (outlier_method : string) (ward geo : bool) : result DataFrame :=
  df <- match file with
        | Some rows => read_csv rows
        | None => Raise FileNotFoundError
        end ;;
  table_on env df outlier_method ward geo.

(** A column as pandas holds numbers: int64 cells only, or floats only. *)
Definition all_int64 (s : Series) : bool :=
  forallb (fun v => match v with VInt z => in_int64 z | _ => false end) s.

Definition numeric_dtype (s : Series) : bool := all_int64 s || all_float s.

(** Column [k] is present and holds cells of the kind [p], one per row. *)
Definition dtype_column (df : DataFrame) (k : string) (p : Series -> bool) : bool :=
  match lookup k (columns df) with
  | Some s => p s && (List.length s =? nrows df)%nat
  | None => false
  end.

(** The columns the lines of [get_data] after the reading go through, with
    the kinds of cells the reader gives them in the data files: text from
    the converter [str], numbers from [dollars], ints from [int0]. *)
Definition pipeline_input (df : DataFrame) : bool :=
  dtype_column df "LICENSENUMBER" all_str
  && dtype_column df "unitNumber1" all_str
  && dtype_column df "unitDesc2" all_str
  && dtype_column df "BaseRent1" numeric_dtype
  && dtype_column df "PreviousRent" numeric_dtype
  && dtype_column df "CurrentRent1" numeric_dtype
  && dtype_column df "nbrBedRms1" all_int64.



(** The two-row table with the columns of the identifier. *)
Definition filed_table : DataFrame :=
  {| nrows := 2;
     columns :=
       [ ("LICENSENUMBER", [VStr "L1"; VStr "L2"]);
         ("PARCELNUMBER", [VStr "P1"; VStr "P2"]);
         ("unitNumber1", [VStr "A"; VStr "B"]);
         ("BaseRent1", [VFloat (F64.of_Z 1000); VFloat (F64.of_Z 0)]);
         ("PreviousRent", [VFloat (F64.of_Z 1100); VFloat (F64.of_Z 0)]);
         ("CurrentRent1", [VFloat (F64.of_Z 1200); VFloat (F64.of_Z 0)]);
         ("nbrBedRms1", [VInt 0; VInt 6]);
         ("unitDesc2", [VStr "None of the above"; VStr "Owner occupied"]) ] |}.



(** A file of one filing. *)
Definition sample_csv : csv :=
  [ [ "2023"; "L1"; "1 Main St"; "P1"; "2"; "s"; "0"; "0"; "0"; "0"; "$0.00";
      "1"; "A"; "$1,000.00"; "$1,100"; "$1,200"; ""; "$0"; "$0"; "2"; "1";
      "Y"; "None of the above" ] ].

(** A cell that holds text. *)
Definition text_cell (v : value) : Prop :=
  match v with VStr _ => True | _ => False end.

(** ** More of the code *)

(** A printable ASCII character, the blank left out. *)
Definition is_printable (c : ascii) : bool :=
  let n := N_of_ascii c in ((33 <=? n) && (n <=? 126))%N.

(** A printable character [int] has no use for: no digit, underscore or
    sign. *)
Definition foreign_char (c : ascii) : bool :=
  is_printable c
  && negb (is_digit c || is_space c || Ascii.eqb c "_" || Ascii.eqb c "-"
           || Ascii.eqb c "+").

(** Column [k] is present and holds booleans. *)
Definition bool_column (df : DataFrame) (k : string) : bool :=
  match lookup k (columns df) with
  | Some s => all_bool s
  | None => false
  end.

(** What [subset_stats] needs of a table. *)
Definition reportable (df : DataFrame) : bool :=
  bool_column df "outlier" && negb (nrows df =? 0)%nat
  && number_column df "Rent_Inc" && bool_column df "exempt".

(** The policy step of [get_data]. *)
Definition policy_step (outlier_method : string) (df : DataFrame) : result DataFrame :=
  if String.eqb outlier_method "2022" then add_outlier_2022 df true
  else if String.eqb outlier_method "2023" then add_outlier_2023 df true
  else Ok df.

(** The ward step of [get_data]. *)
Definition ward_step (env : environment) (ward geo : bool) (df : DataFrame)
  : result DataFrame :=
  if geo then add_ward_geo env df
  else if ward then add_ward df
  else Ok df.

(** A float the cleanup leaves as NaN: NaN, or an infinity. *)
Definition wild (f : float) : Prop := f = F64.nan \/ exists s, f = S754_infinity s.

(** A cell that holds such a float. *)
Definition spoiled (v : value) : Prop := exists f, v = VFloat f /\ wild f.

(** The columns [get_data] writes after it has read the file and built the
    identifier. *)
Definition pipeline_columns : list string :=
  exempt_columns ++ increase_columns ++ bedroom_columns
  ++ outlier_columns_2022 ++ ["Count"].

(* ================================================================= *)
(** * Properties *)

(** ** The builtins on sample text *)

Example float_tenth : py_float "0.1" = Ok (S754_finite false 7205759403792794 (-56)).
Proof. vm_compute. reflexivity. Qed.
Example float_sci : py_float " 1_0.5e-1 " = py_float "1.05".
Proof. vm_compute. reflexivity. Qed.
Example float_big : py_float "1e400" = Ok F64.inf.
Proof. vm_compute. reflexivity. Qed.
Example float_bad : py_float "1__0" = Raise ValueError /\ py_float "1e" = Raise ValueError
                    /\ py_float "." = Raise ValueError /\ py_float "-Infinity" = Ok F64.neg_inf.
Proof. vm_compute. repeat split. Qed.
Example dollars_1 : dollars "$1,234.50" = Ok (PyFloat (S754_finite false 5429388417957888 (-42))).
Proof. vm_compute. reflexivity. Qed.
Example fmt_1 : format_0f (F64.of_Z 7) = "7" /\ format_0f (F64.of_decimal true 25 (-1)) = "-2"
  /\ format_0f (F64.of_decimal false 35 (-1)) = "4" /\ format_0f (F64.of_decimal true 3 (-1)) = "-0".
Proof. vm_compute. repeat split. Qed.
Example int_1 : py_int " -1_000 " = Ok (-1000) /\ py_int "3.0" = Raise ValueError /\ py_int "" = Raise ValueError.
Proof. vm_compute. repeat split. Qed.

(** ** binary64 facts *)

Section Binary64.

Lemma div_eucl_pair a b : Z.div_eucl a b = (a / b, a mod b).
Proof. unfold Z.div, Z.modulo. destruct (Z.div_eucl a b); reflexivity. Qed.

(** A valid finite float is normal (53 digits) or sits on the least exponent. *)
Lemma valid_cases m e :
  bounded F64.prec F64.emax m e = true ->
  e <= 971 /\
  ((Zpos (digits2_pos m) = 53 /\ -1074 <= e)
   \/ (e = -1074 /\ Zpos (digits2_pos m) <= 53)).
Proof.
  unfold bounded, canonical_mantissa, fexp, emin, F64.prec, F64.emax.
  intros H. apply andb_prop in H. destruct H as [H1 H2].
  apply Z.eqb_eq in H1. apply Z.leb_le in H2. lia.
Qed.

Lemma core_div_one m e k :
  (k = 0 \/ k = 1) ->
  Z.min (fexp 53 1024 (Zpos (digits2_pos m) + e - (53 + -52))) (e - -52) = e - k ->
  SFdiv_core_binary 53 1024 (Zpos m) e 4503599627370496 (-52)
  = (Zpos m * 2 ^ k, e - k, loc_Exact).
Proof.
  intros Hk He. unfold SFdiv_core_binary.
  change (Zdigits2 (Zpos m)) with (Zpos (digits2_pos m)).
  change (Zdigits2 4503599627370496) with 53.
  rewrite He.
  replace (e - -52 - (e - k)) with (52 + k) by lia.
  assert (Hs : Z.shiftl (Z.pos m) (52 + k) = Zpos m * 2 ^ k * 4503599627370496).
  { rewrite Z.shiftl_mul_pow2 by lia. rewrite Z.pow_add_r by lia.
    change (2 ^ 52) with 4503599627370496. ring. }
  destruct (52 + k) eqn:E; try lia.
  rewrite Hs, div_eucl_pair.
  rewrite Z.div_mul by lia. rewrite Z.mod_mul by lia. reflexivity.
Qed.

Lemma round_canonical s m e :
  fexp 53 1024 (Zpos (digits2_pos m) + e) = e -> e <= 971 ->
  binary_round_aux 53 1024 s (Zpos m) e loc_Exact = S754_finite s m e.
Proof.
  intros Hf He. unfold binary_round_aux, shr_fexp.
  change (Zdigits2 (Zpos m)) with (Zpos (digits2_pos m)).
  rewrite Hf, Z.sub_diag.
  cbv [shr shr_record_of_loc shr_m loc_of_shr_record round_nearest_even].
  change (Zdigits2 (Zpos m)) with (Zpos (digits2_pos m)).
  rewrite Hf, Z.sub_diag.
  replace (e <=? 1024 - 53) with true by (symmetry; apply Z.leb_le; lia).
  reflexivity.
Qed.

Lemma round_canonical_double s m e :
  fexp 53 1024 (Zpos (digits2_pos m) + e) = e -> e <= 971 ->
  binary_round_aux 53 1024 s (Zpos (xO m)) (e - 1) loc_Exact = S754_finite s m e.
Proof.
  intros Hf He. unfold binary_round_aux, shr_fexp.
  change (Zdigits2 (Zpos (xO m))) with (Zpos (Pos.succ (digits2_pos m))).
  replace (Zpos (Pos.succ (digits2_pos m)) + (e - 1))
    with (Zpos (digits2_pos m) + e) by lia.
  rewrite Hf. replace (e - (e - 1)) with 1 by lia.
  cbv [shr shr_record_of_loc shr_m loc_of_shr_record round_nearest_even
       iter_pos shr_1 orb].
  replace (e - 1 + 1) with e by lia.
  change (Zdigits2 (Zpos m)) with (Zpos (digits2_pos m)).
  rewrite Hf, Z.sub_diag.
  replace (e <=? 1024 - 53) with true by (symmetry; apply Z.leb_le; lia).
  reflexivity.
Qed.

(** Dividing a binary64 number by 1.0 gives the number back, bit for bit. *)
Lemma div_one x : F64.valid x = true -> F64.div x (F64.of_Z 1) = x.
Proof.
  change (F64.of_Z 1) with (S754_finite false 4503599627370496 (-52)).
  unfold F64.valid, F64.div.
  destruct x as [s|s| |s m e]; intros H;
    try reflexivity; try (destruct s; reflexivity).
  cbn [valid_binary] in H.
  apply valid_cases in H. destruct H as [Hmax H].
  set (d := Zpos (digits2_pos m)) in *.
  assert (Hf : fexp 53 1024 (d + e) = e) by (unfold fexp, emin; lia).
  assert (Hk : exists k, (k = 0 \/ k = 1) /\
     Z.min (fexp 53 1024 (d + e - (53 + -52))) (e - -52) = e - k).
  { unfold fexp, emin. destruct (Z.eq_dec e (-1074)).
    - exists 0. split; [auto|]. lia.
    - destruct H as [[Hd He]|[He _]]; [|lia]. exists 1. split; [auto|]. lia. }
  destruct Hk as (k & Hk & He).
  unfold SFdiv, F64.prec, F64.emax. rewrite (core_div_one m e k Hk He).
  replace (xorb s false) with s by (destruct s; reflexivity).
  destruct Hk; subst k.
  - rewrite Z.mul_1_r, Z.sub_0_r. apply round_canonical; assumption.
  - replace (Zpos m * 2 ^ 1) with (Zpos (xO m)) by lia.
    apply round_canonical_double; assumption.
Qed.

Lemma is_infinite_spec f :
  is_infinite f = true <-> exists s, f = S754_infinity s.
Proof.
  split.
  - destruct f as [s|s| |s m e]; try (destruct s); cbn; intros H;
      try discriminate; eauto.
  - intros [s ->]. destruct s; reflexivity.
Qed.

Lemma eqb_zero_spec f :
  F64.eqb f (F64.of_Z 0) = true <-> exists s, f = S754_zero s.
Proof.
  split.
  - destruct f as [s|s| |s m e]; try (destruct s); cbn; intros H;
      try discriminate; eauto.
  - intros [s ->]. reflexivity.
Qed.

(** Anything divided by a zero is an infinity or NaN. *)
Lemma div_by_zero x s :
  F64.div x (S754_zero s) = S754_nan
  \/ exists t, F64.div x (S754_zero s) = S754_infinity t.
Proof. destruct x; cbn; eauto. Qed.

Lemma mul_inf_hundred t :
  exists u, F64.mul (S754_infinity t) (F64.of_Z 100) = S754_infinity u.
Proof. cbn. eauto. Qed.

End Binary64.

Section Store.

Lemma mapM_ok f s :
  (forall a, In a s -> returns (f a) = true) -> mapM f s = Ok (map1 f s).
Proof.
  induction s as [|a s IH]; intros H; [reflexivity|].
  cbn [mapM map1 map]. specialize (H a (or_introl eq_refl)) as Ha.
  destruct (f a) as [b|e]; [|discriminate]. cbn [bind ok_or].
  rewrite IH by (intros; apply H; right; assumption). reflexivity.
Qed.

Lemma zipM_ok f l r :
  (forall a b, In (a, b) (combine l r) -> returns (f a b) = true) ->
  zipM f l r = Ok (zip2 f l r).
Proof.
  revert r. induction l as [|a l IH]; intros [|b r] H; try reflexivity.
  cbn [zipM zip2 combine map fst snd].
  specialize (H a b (or_introl eq_refl)) as Hab.
  destruct (f a b) as [c|e]; [|discriminate]. cbn [bind ok_or].
  rewrite IH by (intros; apply H; right; assumption). reflexivity.
Qed.

Lemma zipM_ok_forall (P Q : value -> Prop) f l r :
  Forall P l -> Forall Q r ->
  (forall a b, P a -> Q b -> returns (f a b) = true) ->
  zipM f l r = Ok (zip2 f l r).
Proof.
  intros Hl Hr H. apply zipM_ok. intros a b Hin.
  apply H.
  - rewrite Forall_forall in Hl. apply Hl. eapply in_combine_l; eassumption.
  - rewrite Forall_forall in Hr. apply Hr. eapply in_combine_r; eassumption.
Qed.

Lemma mapM_ok_forall (P : value -> Prop) f s :
  Forall P s -> (forall a, P a -> returns (f a) = true) ->
  mapM f s = Ok (map1 f s).
Proof.
  intros Hs H. apply mapM_ok. intros a Hin. apply H.
  rewrite Forall_forall in Hs. auto.
Qed.

Lemma Forall_map1 (P Q : value -> Prop) f s :
  Forall P s -> (forall a, P a -> Q (ok_or (VStr "") (f a))) ->
  Forall Q (map1 f s).
Proof.
  intros Hs H. unfold map1. apply Forall_map.
  eapply Forall_impl; [|exact Hs]. exact H.
Qed.

Lemma Forall_zip2 (P Q R : value -> Prop) f l r :
  Forall P l -> Forall Q r ->
  (forall a b, P a -> Q b -> R (ok_or (VStr "") (f a b))) ->
  Forall R (zip2 f l r).
Proof.
  intros Hl Hr H. unfold zip2. apply Forall_map. apply Forall_forall.
  intros [a b] Hin. cbn [fst snd]. apply H.
  - rewrite Forall_forall in Hl. apply Hl. eapply in_combine_l; eassumption.
  - rewrite Forall_forall in Hr. apply Hr. eapply in_combine_r; eassumption.
Qed.

Lemma length_map1 f s : List.length (map1 f s) = List.length s.
Proof. apply length_map. Qed.

Lemma length_zip2 f l r :
  List.length l = List.length r -> List.length (zip2 f l r) = List.length l.
Proof.
  intros H. unfold zip2. rewrite length_map, length_combine, <- H.
  apply Nat.min_id.
Qed.

Lemma nth_error_combine {A B} (l : list A) (r : list B) i :
  nth_error (combine l r) i =
  match nth_error l i, nth_error r i with
  | Some a, Some b => Some (a, b)
  | _, _ => None
  end.
Proof.
  revert r i. induction l as [|a l IH]; intros [|b r] [|i]; cbn; try reflexivity.
  - destruct (nth_error l i); reflexivity.
  - apply IH.
Qed.

Lemma nth_error_map1 f s i :
  nth_error (map1 f s) i = option_map (fun a => ok_or (VStr "") (f a)) (nth_error s i).
Proof. unfold map1. apply nth_error_map. Qed.

Lemma nth_error_zip2 f l r i :
  nth_error (zip2 f l r) i =
  match nth_error l i, nth_error r i with
  | Some a, Some b => Some (ok_or (VStr "") (f a b))
  | _, _ => None
  end.
Proof.
  unfold zip2. rewrite nth_error_map, nth_error_combine.
  destruct (nth_error l i), (nth_error r i); reflexivity.
Qed.

Lemma lookup_assign k s cols k' :
  lookup k' (assign k s cols) =
  if String.eqb k k' then Some s else lookup k' cols.
Proof.
  induction cols as [|[k0 s0] cols IH]; cbn [assign lookup].
  - destruct (String.eqb k k'); reflexivity.
  - destruct (String.eqb k0 k) eqn:E0.
    + apply String.eqb_eq in E0. subst k0. cbn [lookup].
      destruct (String.eqb k k'); reflexivity.
    + cbn [lookup]. destruct (String.eqb k0 k') eqn:E1.
      * apply String.eqb_eq in E1. subst k0.
        rewrite String.eqb_sym, E0. reflexivity.
      * exact IH.
Qed.

Lemma getitem_setitem df k s k' :
  getitem (setitem df k s) k' =
  if String.eqb k k' then Ok s else getitem df k'.
Proof.
  unfold getitem, setitem. cbn [columns]. rewrite lookup_assign.
  destruct (String.eqb k k'); reflexivity.
Qed.

Lemma cell_setitem df k s k' i :
  cell (setitem df k s) k' i =
  if String.eqb k k' then nth_error s i else cell df k' i.
Proof.
  unfold cell, setitem. cbn [columns]. rewrite lookup_assign.
  destruct (String.eqb k k'); reflexivity.
Qed.

Lemma has_column_setitem df k s k' :
  has_column (setitem df k s) k' = String.eqb k k' || has_column df k'.
Proof.
  unfold has_column, setitem. cbn [columns]. rewrite lookup_assign.
  destruct (String.eqb k k'); reflexivity.
Qed.

Lemma lookup_map_snd (g : Series -> Series) cols k :
  lookup k (map (fun c => (fst c, g (snd c))) cols) = option_map g (lookup k cols).
Proof.
  induction cols as [|[k0 s0] cols IH]; [reflexivity|].
  cbn [map lookup fst snd]. destruct (String.eqb k0 k); [reflexivity|exact IH].
Qed.

Lemma cell_replace_inf df k i :
  cell (replace_inf df) k i = option_map v_replace_inf (cell df k i).
Proof.
  unfold cell, replace_inf. cbn [columns]. rewrite lookup_map_snd.
  destruct (lookup k (columns df)); cbn [option_map]; [|reflexivity].
  apply nth_error_map.
Qed.

Lemma names_assign k s cols :
  names (assign k s cols) = if mem k (names cols) then names cols else names cols ++ [k].
Proof.
  induction cols as [|[k0 s0] cols IH]; [reflexivity|].
  cbn [assign names map fst mem existsb] in *.
  rewrite (String.eqb_sym k k0).
  destruct (String.eqb k0 k) eqn:E; cbn [orb map fst].
  - apply String.eqb_eq in E. subst. reflexivity.
  - fold (names cols) in *. fold (mem k (names cols)) in *.
    fold (names (assign k s cols)). rewrite IH.
    destruct (mem k (names cols)); reflexivity.
Qed.

Lemma lookup_names k cols :
  lookup k cols = None <-> mem k (names cols) = false.
Proof.
  induction cols as [|[k0 s0] cols IH]; cbn [lookup names map fst mem existsb].
  - tauto.
  - rewrite (String.eqb_sym k k0). destruct (String.eqb k0 k); cbn [orb].
    + split; discriminate.
    + exact IH.
Qed.

End Store.

(** Evaluates the comparisons of literal column names. *)
Ltac str_eqb :=
  repeat match goal with
    | |- context [String.eqb ?a ?b] =>
        let r := eval vm_compute in (String.eqb a b) in
        change (String.eqb a b) with r
    end;
  cbv iota.

Ltac str_eqb_in H :=
  repeat match type of H with
    | context [String.eqb ?a ?b] =>
        let r := eval vm_compute in (String.eqb a b) in
        change (String.eqb a b) with r in H
    end;
  cbv iota in H.

Section Numbers.

Lemma number_column_spec df k :
  number_column df k = true ->
  exists s, lookup k (columns df) = Some s /\ Forall number s
            /\ List.length s = nrows df.
Proof.
  unfold number_column. destruct (lookup k (columns df)) as [s|]; [|discriminate].
  intros H. apply andb_prop in H. destruct H as [H1 H2].
  exists s. repeat split.
  - apply Forall_forall. rewrite forallb_forall in H1. exact H1.
  - apply Nat.eqb_eq. exact H2.
Qed.

Lemma number_column_intro df k s :
  lookup k (columns df) = Some s -> Forall number s ->
  List.length s = nrows df -> number_column df k = true.
Proof.
  intros Hl Hs Hn. unfold number_column. rewrite Hl.
  apply andb_true_intro. split.
  - apply forallb_forall. rewrite Forall_forall in Hs. exact Hs.
  - apply Nat.eqb_eq. exact Hn.
Qed.

Lemma getitem_lookup df k s : lookup k (columns df) = Some s -> getitem df k = Ok s.
Proof. unfold getitem. intros ->. reflexivity. Qed.

Lemma cell_lookup df k s i :
  lookup k (columns df) = Some s -> cell df k i = nth_error s i.
Proof. unfold cell. intros ->. reflexivity. Qed.

Lemma sub_number a b : number a -> number b -> returns (v_sub a b) = true.
Proof. unfold number. destruct a, b; intros; try discriminate; reflexivity. Qed.

Lemma sub_is_number a b : number a -> number b -> number (ok_or (VStr "") (v_sub a b)).
Proof. unfold number. destruct a, b; intros; try discriminate; reflexivity. Qed.

Lemma div_number a b : number a -> number b -> returns (v_div a b) = true.
Proof. unfold number. destruct a, b; intros; try discriminate; reflexivity. Qed.

Lemma div_is_number a b : number a -> number b -> number (ok_or (VStr "") (v_div a b)).
Proof. unfold number. destruct a, b; intros; try discriminate; reflexivity. Qed.

Lemma mul_number k a : number a -> returns (v_mul k a) = true.
Proof. unfold number. destruct a; intros; try discriminate; reflexivity. Qed.

Lemma mul_is_number k a : number a -> number (ok_or (VStr "") (v_mul k a)).
Proof. unfold number. destruct a; intros; try discriminate; reflexivity. Qed.

Lemma replace_int_number o n a : number a -> number (v_replace_int o n a).
Proof.
  unfold number. destruct a; cbn [v_replace_int is_number]; intros H; try discriminate.
  - destruct (z =? o); reflexivity.
  - destruct (F64.eqb f (F64.of_Z o)); reflexivity.
Qed.

Lemma replace_inf_number a : number a -> number (v_replace_inf a).
Proof.
  unfold number. destruct a; cbn [v_replace_inf is_number]; intros H; try discriminate;
    try reflexivity.
  destruct (is_infinite f); reflexivity.
Qed.

Lemma cmp_number t k a : number a -> returns (v_cmp t k a) = true.
Proof. unfold number. destruct a; intros; try discriminate; reflexivity. Qed.

Lemma Forall_replace_int o n s :
  Forall number s -> Forall number (map (v_replace_int o n) s).
Proof.
  intros H. apply Forall_map. eapply Forall_impl; [|exact H].
  intros a. apply replace_int_number.
Qed.

(** Under the stated typing of its four input columns the stage returns,
    and what it returns is the cleanup of [with_increases]. *)
Lemma add_increases_eq df cur base prev bed :
  lookup "CurrentRent1" (columns df) = Some cur ->
  lookup "BaseRent1" (columns df) = Some base ->
  lookup "PreviousRent" (columns df) = Some prev ->
  lookup "nbrBedRms1" (columns df) = Some bed ->
  Forall number cur -> Forall number base ->
  Forall number prev -> Forall number bed ->
  add_increases df = Ok (replace_inf (with_increases df cur base prev bed)).
Proof.
  intros Lc Lb Lp Ld Nc Nb Np Nd.
  pose proof (getitem_lookup _ _ _ Lc) as Gc.
  pose proof (getitem_lookup _ _ _ Lb) as Gb.
  pose proof (getitem_lookup _ _ _ Lp) as Gp.
  pose proof (getitem_lookup _ _ _ Ld) as Gd.
  assert (Nib : Forall number (zip2 v_sub cur base))
    by (eapply Forall_zip2; eauto using sub_is_number).
  assert (Ni : Forall number (zip2 v_sub cur prev))
    by (eapply Forall_zip2; eauto using sub_is_number).
  assert (Nden : Forall number (map (v_replace_int 0 1) bed))
    by (apply Forall_replace_int; assumption).
  assert (Nqb : Forall number (zip2 v_div (zip2 v_sub cur base) base))
    by (eapply Forall_zip2; eauto using div_is_number).
  assert (Nqp : Forall number (zip2 v_div (zip2 v_sub cur prev) prev))
    by (eapply Forall_zip2; eauto using div_is_number).
  unfold add_increases, with_increases.
  rewrite Gc, Gb. cbn [bind].
  rewrite (zipM_ok_forall number number v_sub cur base) by auto using sub_number.
  cbn [bind].
  rewrite !getitem_setitem. str_eqb. rewrite Gb. cbn [bind].
  rewrite (zipM_ok_forall number number v_div _ base) by auto using div_number.
  cbn [bind].
  rewrite (mapM_ok_forall number (v_mul 100)) by auto using mul_number.
  cbn [bind].
  rewrite !getitem_setitem. str_eqb. rewrite Gc, Gp. cbn [bind].
  rewrite (zipM_ok_forall number number v_sub cur prev) by auto using sub_number.
  cbn [bind].
  rewrite !getitem_setitem. str_eqb. rewrite Gd. cbn [bind].
  rewrite (zipM_ok_forall number number v_div _ (map (v_replace_int 0 1) bed))
    by auto using div_number.
  cbn [bind].
  rewrite !getitem_setitem. str_eqb. rewrite Gp. cbn [bind].
  rewrite (zipM_ok_forall number number v_div _ prev) by auto using div_number.
  cbn [bind].
  rewrite (mapM_ok_forall number (v_mul 100)) by auto using mul_number.
  cbn [bind].
  rewrite !getitem_setitem. str_eqb. rewrite Gc, Gd. cbn [bind].
  rewrite (zipM_ok_forall number number v_div cur (map (v_replace_int 0 1) bed))
    by auto using div_number.
  cbn [bind]. reflexivity.
Qed.

End Numbers.

Section RentChange.

Lemma v_div_fl a b :
  number a -> number b -> v_div a b = Ok (VFloat (F64.div (fl a) (fl b))).
Proof. unfold number. destruct a, b; intros; try discriminate; reflexivity. Qed.

Lemma v_sub_ok a b :
  number a -> number b -> exists c, v_sub a b = Ok c /\ number c.
Proof.
  unfold number. destruct a, b; intros; try discriminate; eexists; split;
    reflexivity.
Qed.

Lemma nth_error_number s i v : Forall number s -> nth_error s i = Some v -> number v.
Proof.
  intros H Hn. rewrite Forall_forall in H. apply H.
  eapply nth_error_In; eassumption.
Qed.

Lemma nth_error_same_length {A B} (l : list A) (r : list B) i a :
  List.length l = List.length r -> nth_error l i = Some a ->
  exists b, nth_error r i = Some b.
Proof.
  intros Hlen Hn.
  assert (Hi : (i < List.length r)%nat).
  { rewrite <- Hlen. apply nth_error_Some. congruence. }
  destruct (nth_error r i) as [b|] eqn:E; [eauto|].
  apply nth_error_None in E. lia.
Qed.

Lemma cell_with_increases_other df cur base prev bed k i :
  mem k increase_columns = false ->
  cell (with_increases df cur base prev bed) k i = cell df k i.
Proof.
  intros H. unfold mem, increase_columns in H. cbn [existsb] in H.
  repeat (apply orb_false_elim in H; destruct H as [?E H]).
  unfold with_increases. rewrite !cell_setitem.
  repeat match goal with
    | E : String.eqb k ?a = false |- _ => rewrite (String.eqb_sym a k), E; clear E
    end.
  reflexivity.
Qed.

Lemma replace_inf_float_finite v f :
  v_replace_inf v = VFloat f -> f <> F64.inf /\ f <> F64.neg_inf.
Proof.
  destruct v as [z|g|s|b|w|]; cbn [v_replace_inf]; try discriminate.
  destruct (is_infinite g) eqn:E; intros H; inversion H; subst.
  - split; discriminate.
  - split; intros ->; discriminate.
Qed.

Lemma clean_div_zero x s :
  v_replace_inf (VFloat (F64.mul (F64.div x (S754_zero s)) (F64.of_Z 100)))
  = VFloat F64.nan.
Proof.
  destruct (div_by_zero x s) as [H|[t H]]; rewrite H.
  - reflexivity.
  - destruct (mul_inf_hundred t) as [u ->]. destruct u; reflexivity.
Qed.

Lemma eq_int_zero_cases b :
  number b -> eq_int 0 b = true ->
  b = VInt 0 \/ exists s, b = VFloat (S754_zero s).
Proof.
  unfold number. destruct b as [z|g|s|b|w|]; cbn [is_number]; try discriminate;
    intros _; unfold eq_int; cbn [num_of n_eq]; intros H.
  - left. apply Z.eqb_eq in H. congruence.
  - right. apply eqb_zero_spec in H. destruct H as [s ->]. eauto.
Qed.

(** A percentage taken over a zero denominator is NaN after the cleanup. *)
Lemma percent_of_zero c b :
  number c -> number b -> eq_int 0 b = true ->
  v_replace_inf
    (ok_or (VStr "") (v_mul 100 (ok_or (VStr "")
       (v_div (ok_or (VStr "") (v_sub c b)) b))))
  = VFloat F64.nan.
Proof.
  intros Nc Nb Hz.
  destruct (v_sub_ok c b Nc Nb) as (d & -> & Nd). cbn [ok_or].
  rewrite (v_div_fl d b Nd Nb). cbn [ok_or v_mul num_of].
  destruct (eq_int_zero_cases b Nb Hz) as [->|[s ->]].
  - change (fl (VInt 0)) with (S754_zero false). apply clean_div_zero.
  - change (fl (VFloat (S754_zero s))) with (S754_zero s). apply clean_div_zero.
Qed.

End RentChange.

(** C3.  On a table whose four rent columns are numeric, [add_increases]
    returns a table in which no cell of any column is plus or minus infinity.
    The cleanup covers the whole table: a cell of a column the stage does not
    write is the input cell with an infinity replaced by NaN (and is
    otherwise unchanged), and a percentage whose denominator (base rent,
    previous rent) is zero is NaN. *)
Theorem add_increases_no_infinity (df : DataFrame) :
  rent_table df = true ->
  exists out,
    add_increases df = Ok out
    /\ (forall k i f, cell out k i = Some (VFloat f) ->
          f <> F64.inf /\ f <> F64.neg_inf)
    /\ (forall k i v, mem k increase_columns = false ->
          cell df k i = Some v -> cell out k i = Some (v_replace_inf v))
    /\ (forall k i s, mem k increase_columns = false ->
          cell df k i = Some (VFloat (S754_infinity s)) ->
          cell out k i = Some (VFloat F64.nan))
    /\ (forall i base, cell df "BaseRent1" i = Some base -> eq_int 0 base = true ->
          cell out "Rent_Inc_base_percent" i = Some (VFloat F64.nan))
    /\ (forall i prev, cell df "PreviousRent" i = Some prev -> eq_int 0 prev = true ->
          cell out "Rent_Inc_percent" i = Some (VFloat F64.nan)).
Proof.
  intros H. unfold rent_table in H.
  repeat (apply andb_prop in H; destruct H as [H ?Hc]).
  destruct (number_column_spec _ _ H) as (cur & Lc & Nc & Ec).
  destruct (number_column_spec _ _ Hc1) as (base & Lb & Nb & Eb).
  destruct (number_column_spec _ _ Hc0) as (prev & Lp & Np & Ep).
  destruct (number_column_spec _ _ Hc) as (bed & Ld & Nd & Ed).
  exists (replace_inf (with_increases df cur base prev bed)).
  split; [apply add_increases_eq; assumption|].
  assert (Hother : forall k i v, mem k increase_columns = false ->
            cell df k i = Some v ->
            cell (replace_inf (with_increases df cur base prev bed)) k i
            = Some (v_replace_inf v)).
  { intros k i v Hk Hv.
    rewrite cell_replace_inf, cell_with_increases_other, Hv by assumption.
    reflexivity. }
  repeat split.
  - rewrite cell_replace_inf in H0.
    destruct (cell (with_increases df cur base prev bed) k i) as [v|];
      [|discriminate].
    cbn [option_map] in H0. inversion H0 as [Hv].
    apply (replace_inf_float_finite v f Hv).
  - rewrite cell_replace_inf in H0.
    destruct (cell (with_increases df cur base prev bed) k i) as [v|];
      [|discriminate].
    cbn [option_map] in H0. inversion H0 as [Hv].
    apply (replace_inf_float_finite v f Hv).
  - exact Hother.
  - intros k i s Hk Hv. rewrite (Hother k i _ Hk Hv). destruct s; reflexivity.
  - intros i b Hb Hz. rewrite (cell_lookup _ _ _ i Lb) in Hb.
    destruct (nth_error_same_length base cur i b) as [c Hcur];
      [congruence|assumption|].
    rewrite cell_replace_inf. unfold with_increases.
    rewrite !cell_setitem. str_eqb.
    rewrite nth_error_map1, !nth_error_zip2, Hcur, Hb. cbn [option_map].
    f_equal. apply percent_of_zero; eauto using nth_error_number.
  - intros i p Hp Hz. rewrite (cell_lookup _ _ _ i Lp) in Hp.
    destruct (nth_error_same_length prev cur i p) as [c Hcur];
      [congruence|assumption|].
    rewrite cell_replace_inf. unfold with_increases.
    rewrite !cell_setitem. str_eqb.
    rewrite nth_error_map1, !nth_error_zip2, Hcur, Hp. cbn [option_map].
    f_equal. apply percent_of_zero; eauto using nth_error_number.
Qed.

Lemma add_increases_no_infinity_witness :
  rent_table sample_table = true
  /\ exists out, add_increases sample_table = Ok out
       /\ cell out "Rent_Inc_base_percent" 1%nat = Some (VFloat F64.nan).
Proof.
  split; [reflexivity|].
  destruct (add_increases_no_infinity sample_table eq_refl)
    as (out & Hout & _ & _ & _ & Hbase & _).
  exists out. split; [exact Hout|].
  apply (Hbase 1%nat (VFloat (F64.of_Z 0))); reflexivity.
Defined.

Section PerBedroom.

Lemma denominator_not_zero bed :
  number bed -> eq_int 0 (v_replace_int 0 1 bed) = false.
Proof.
  unfold number. destruct bed as [z|f|s|b|w|]; cbn [is_number]; try discriminate;
    intros _; cbn [v_replace_int].
  - destruct (z =? 0) eqn:E; [reflexivity|]. exact E.
  - destruct (F64.eqb f (F64.of_Z 0)) eqn:E; [reflexivity|]. exact E.
Qed.

Lemma denominator_of_studio bed :
  number bed -> eq_int 0 bed = true -> fl (v_replace_int 0 1 bed) = F64.of_Z 1.
Proof.
  unfold number. destruct bed as [z|f|s|b|w|]; cbn [is_number]; try discriminate;
    intros _; unfold eq_int; cbn [num_of n_eq v_replace_int]; intros ->;
    reflexivity.
Qed.

Lemma denominator_max z : 0 <= z -> v_replace_int 0 1 (VInt z) = VInt (Z.max z 1).
Proof.
  intros H. cbn [v_replace_int]. destruct (z =? 0) eqn:E.
  - apply Z.eqb_eq in E. subst. reflexivity.
  - apply Z.eqb_neq in E. f_equal. lia.
Qed.

End PerBedroom.

(** C4, as the code has it.  For every record the stage stores
    [Rent_Inc_per_BedRms = Rent_Inc / d] and [Rent_per_BedRms =
    CurrentRent1 / d] (each followed by the cleanup of infinities), where the
    denominator [d] is the bedroom count with 0 replaced by 1.  [d] is never
    zero, and it is [max(bedrooms, 1)] for every count that is not negative.
    For a studio (count 0) the rent per bedroom is the current rent itself. *)
Theorem per_bedroom_columns (df : DataFrame) :
  rent_table df = true ->
  exists out,
    add_increases df = Ok out
    /\ forall i cur prev bed,
         cell df "CurrentRent1" i = Some cur ->
         cell df "PreviousRent" i = Some prev ->
         cell df "nbrBedRms1" i = Some bed ->
         let den := v_replace_int 0 1 bed in
         eq_int 0 den = false
         /\ (forall z, bed = VInt z -> 0 <= z -> den = VInt (Z.max z 1))
         /\ (exists inc,
               v_sub cur prev = Ok inc
               /\ cell out "Rent_Inc_per_BedRms" i
                  = Some (v_replace_inf (VFloat (F64.div (fl inc) (fl den)))))
         /\ cell out "Rent_per_BedRms" i
            = Some (v_replace_inf (VFloat (F64.div (fl cur) (fl den))))
         /\ (eq_int 0 bed = true -> F64.valid (fl cur) = true ->
             cell out "Rent_per_BedRms" i = Some (v_replace_inf (VFloat (fl cur))))
         /\ (eq_int 0 bed = true ->
             forall f, cur = VFloat f -> F64.valid f = true ->
             cell out "Rent_per_BedRms" i = cell out "CurrentRent1" i).
Proof.
  intros H. unfold rent_table in H.
  repeat (apply andb_prop in H; destruct H as [H ?Hc]).
  destruct (number_column_spec _ _ H) as (cur & Lc & Nc & Ec).
  destruct (number_column_spec _ _ Hc1) as (base & Lb & Nb & Eb).
  destruct (number_column_spec _ _ Hc0) as (prev & Lp & Np & Ep).
  destruct (number_column_spec _ _ Hc) as (bed & Ld & Nd & Ed).
  exists (replace_inf (with_increases df cur base prev bed)).
  split; [apply add_increases_eq; assumption|].
  intros i c p b Hcur Hprev Hbed den.
  rewrite (cell_lookup _ _ _ i Lc) in Hcur.
  rewrite (cell_lookup _ _ _ i Lp) in Hprev.
  rewrite (cell_lookup _ _ _ i Ld) in Hbed.
  assert (Cn : number c) by eauto using nth_error_number.
  assert (Pn : number p) by eauto using nth_error_number.
  assert (Bn : number b) by eauto using nth_error_number.
  assert (Dn : number den) by (apply replace_int_number; assumption).
  assert (Hper : cell (replace_inf (with_increases df cur base prev bed))
                   "Rent_per_BedRms" i
                 = Some (v_replace_inf (VFloat (F64.div (fl c) (fl den))))).
  { rewrite cell_replace_inf. unfold with_increases.
    rewrite !cell_setitem. str_eqb.
    rewrite nth_error_zip2, nth_error_map, Hcur, Hbed. cbn [option_map].
    fold den. rewrite (v_div_fl c den Cn Dn). reflexivity. }
  split; [apply denominator_not_zero; assumption|].
  split; [intros z -> Hz; apply denominator_max; assumption|].
  split.
  { destruct (v_sub_ok c p Cn Pn) as (inc & Hinc & In).
    exists inc. split; [exact Hinc|].
    rewrite cell_replace_inf. unfold with_increases.
    rewrite !cell_setitem. str_eqb.
    rewrite !nth_error_zip2, nth_error_map, Hcur, Hprev, Hbed. cbn [option_map].
    fold den. rewrite Hinc. cbn [ok_or].
    rewrite (v_div_fl inc den In Dn). reflexivity. }
  split; [exact Hper|].
  split.
  { intros Hz Hv. rewrite Hper. unfold den.
    rewrite (denominator_of_studio b Bn Hz), (div_one _ Hv). reflexivity. }
  intros Hz f -> Hv. rewrite Hper. unfold den.
  rewrite (denominator_of_studio b Bn Hz).
  change (fl (VFloat f)) with f. rewrite (div_one _ Hv).
  rewrite cell_replace_inf, cell_with_increases_other by reflexivity.
  rewrite (cell_lookup _ _ _ i Lc), Hcur. reflexivity.
Qed.

Lemma per_bedroom_columns_witness :
  rent_table sample_table = true
  /\ exists out, add_increases sample_table = Ok out
       /\ cell out "Rent_per_BedRms" 0%nat = cell out "CurrentRent1" 0%nat.
Proof.
  split; [reflexivity|].
  destruct (per_bedroom_columns sample_table eq_refl) as (out & Hout & Hrows).
  exists out. split; [exact Hout|].
  destruct (Hrows 0%nat (VFloat (F64.of_Z 1200)) (VFloat (F64.of_Z 1100)) (VInt 0)
              eq_refl eq_refl eq_refl) as (_ & _ & _ & _ & _ & Hstudio).
  apply (Hstudio eq_refl (F64.of_Z 1200) eq_refl). reflexivity.
Defined.

(** C4 as the specification words it fails: with [-2] bedrooms the code
    divides the rent increase 100 by [-2], where [max(bedrooms, 1)] is 1. *)
Lemma per_bedroom_max_counterexample :
  exists out,
    add_increases negative_bedrooms_table = Ok out
    /\ cell negative_bedrooms_table "nbrBedRms1" 0%nat = Some (VInt (-2))
    /\ cell out "Rent_Inc" 0%nat = Some (VFloat (F64.of_Z 100))
    /\ cell out "Rent_Inc_per_BedRms" 0%nat = Some (VFloat (F64.of_Z (-50)))
    /\ cell out "Rent_Inc_per_BedRms" 0%nat
       <> Some (VFloat (F64.div (F64.of_Z 100) (F64.of_Z (Z.max (-2) 1))))
    /\ cell out "CurrentRent1" 0%nat = Some (VFloat (F64.of_Z 1000))
    /\ cell out "Rent_per_BedRms" 0%nat = Some (VFloat (F64.of_Z (-500)))
    /\ cell out "Rent_per_BedRms" 0%nat
       <> Some (VFloat (F64.div (F64.of_Z 1000) (F64.of_Z (Z.max (-2) 1)))).
Proof.
  eexists. split; [vm_compute; reflexivity|].
  repeat split; try (vm_compute; reflexivity); vm_compute; discriminate.
Qed.

Section Outliers.

Lemma cmp_holds t k a : number a -> v_cmp t k a = Ok (VBool (holds t k a)).
Proof. unfold number. destruct a; intros; try discriminate; reflexivity. Qed.

Lemma cmp_boolean t k a : number a -> boolean (ok_or (VStr "") (v_cmp t k a)).
Proof. intros H. rewrite cmp_holds by assumption. exact I. Qed.

Lemma or_returns a b : boolean a -> boolean b -> returns (v_or a b) = true.
Proof. destruct a, b; cbn; intros; try contradiction; reflexivity. Qed.

Lemma or_boolean a b : boolean a -> boolean b -> boolean (ok_or (VStr "") (v_or a b)).
Proof. destruct a, b; cbn; intros; try contradiction; exact I. Qed.

Lemma and_returns a b : boolean a -> boolean b -> returns (v_and a b) = true.
Proof. destruct a, b; cbn; intros; try contradiction; reflexivity. Qed.

Lemma and_boolean a b : boolean a -> boolean b -> boolean (ok_or (VStr "") (v_and a b)).
Proof. destruct a, b; cbn; intros; try contradiction; exact I. Qed.

Lemma Forall_cmp t k s : Forall number s -> Forall boolean (map1 (v_cmp t k) s).
Proof. intros H. eapply Forall_map1; eauto using cmp_boolean. Qed.

Lemma Forall_map_boolean (g : value -> value) s :
  (forall a, boolean (g a)) -> Forall boolean (map g s).
Proof. intros H. apply Forall_map. apply Forall_forall. intros; apply H. Qed.

Lemma outside_eq lo hi s :
  Forall number s ->
  outside lo hi s
  = Ok (zip2 v_or (map1 (v_cmp n_le lo) s) (map1 (v_cmp n_ge hi) s)).
Proof.
  intros H. unfold outside.
  rewrite (mapM_ok_forall number (v_cmp n_le lo)) by auto using cmp_number.
  cbn [bind].
  rewrite (mapM_ok_forall number (v_cmp n_ge hi)) by auto using cmp_number.
  cbn [bind].
  apply (zipM_ok_forall boolean boolean); auto using Forall_cmp, or_returns.
Qed.

Lemma Forall_outside lo hi s :
  Forall number s ->
  Forall boolean (zip2 v_or (map1 (v_cmp n_le lo) s) (map1 (v_cmp n_ge hi) s)).
Proof.
  intros H. eapply Forall_zip2; eauto using Forall_cmp, or_boolean.
Qed.

(** The body of [add_outlier_2022] after its first line. *)
Lemma add_outlier_2022_eq df stats cur base pb pp :
  has_column df "Rent_Inc" = true ->
  lookup "CurrentRent1" (columns df) = Some cur ->
  lookup "BaseRent1" (columns df) = Some base ->
  lookup "Rent_Inc_base_percent" (columns df) = Some pb ->
  lookup "Rent_Inc_percent" (columns df) = Some pp ->
  Forall number cur -> Forall number pb -> Forall number pp ->
  add_outlier_2022 df stats = Ok (with_outliers_2022 df cur base pb pp).
Proof.
  intros Hh Lc Lb Lpb Lpp Nc Npb Npp.
  pose proof (getitem_lookup _ _ _ Lc) as Gc.
  pose proof (getitem_lookup _ _ _ Lb) as Gb.
  pose proof (getitem_lookup _ _ _ Lpb) as Gpb.
  pose proof (getitem_lookup _ _ _ Lpp) as Gpp.
  pose proof (Forall_outside 100 6500 cur Nc) as Br.
  pose proof (Forall_outside (-10) 40 pb Npb) as Bo.
  pose proof (Forall_outside (-10) 40 pp Npp) as Bp.
  assert (Bne : Forall boolean (map (v_ne 0) base))
    by (apply Forall_map_boolean; intros; exact I).
  assert (Bb : Forall boolean
            (zip2 v_and
               (zip2 v_or (map1 (v_cmp n_le (-10)) pb) (map1 (v_cmp n_ge 40) pb))
               (map (v_ne 0) base)))
    by (eapply Forall_zip2; eauto using and_boolean).
  unfold add_outlier_2022, with_outliers_2022.
  rewrite Hh. cbn [negb bind].
  rewrite Gc. cbn [bind].
  rewrite ?getitem_setitem. str_eqb. rewrite Gc. cbn [bind].
  rewrite outside_eq by assumption. cbn [bind].
  rewrite ?getitem_setitem. str_eqb. rewrite Gpb. cbn [bind].
  rewrite outside_eq by assumption. cbn [bind].
  rewrite ?getitem_setitem. str_eqb. rewrite Gb. cbn [bind].
  rewrite (zipM_ok_forall boolean boolean v_and) by auto using and_returns.
  cbn [bind].
  rewrite ?getitem_setitem. str_eqb. rewrite Gpp. cbn [bind].
  rewrite outside_eq by assumption. cbn [bind].
  rewrite ?getitem_setitem. str_eqb. cbn [bind].
  rewrite (zipM_ok_forall boolean boolean v_or) by auto using or_returns.
  cbn [bind].
  rewrite ?getitem_setitem. str_eqb. cbn [bind].
  rewrite (zipM_ok_forall boolean boolean v_or);
    [reflexivity| |assumption|auto using or_returns].
  eapply Forall_zip2; eauto using or_boolean.
Qed.

Lemma add_outlier_2023_eq df stats cur pp :
  has_column df "Rent_Inc" = true ->
  lookup "CurrentRent1" (columns df) = Some cur ->
  lookup "Rent_Inc_percent" (columns df) = Some pp ->
  Forall number cur -> Forall number pp ->
  add_outlier_2023 df stats = Ok (with_outliers_2023 df cur pp).
Proof.
  intros Hh Lc Lpp Nc Npp.
  pose proof (getitem_lookup _ _ _ Lc) as Gc.
  pose proof (getitem_lookup _ _ _ Lpp) as Gpp.
  pose proof (Forall_outside (-15) 65 pp Npp) as Bp.
  assert (Bz : Forall boolean (map (v_eq 0) cur))
    by (apply Forall_map_boolean; intros; exact I).
  assert (Bband : Forall boolean
            (zip2 v_and (map1 (v_cmp n_gt 0) cur) (map1 (v_cmp n_le 250) cur)))
    by (eapply Forall_zip2; eauto using Forall_cmp, and_boolean).
  assert (Br : Forall boolean
            (zip2 v_or
               (zip2 v_and (map1 (v_cmp n_gt 0) cur) (map1 (v_cmp n_le 250) cur))
               (map1 (v_cmp n_ge 4000) cur)))
    by (eapply Forall_zip2; eauto using Forall_cmp, or_boolean).
  unfold add_outlier_2023, with_outliers_2023.
  rewrite Hh. cbn [negb bind].
  rewrite Gc. cbn [bind].
  rewrite ?getitem_setitem. str_eqb. rewrite Gc. cbn [bind].
  rewrite (mapM_ok_forall number (v_cmp n_gt 0)) by auto using cmp_number.
  cbn [bind].
  rewrite (mapM_ok_forall number (v_cmp n_le 250)) by auto using cmp_number.
  cbn [bind].
  rewrite (zipM_ok_forall boolean boolean v_and)
    by auto using Forall_cmp, and_returns.
  cbn [bind].
  rewrite (mapM_ok_forall number (v_cmp n_ge 4000)) by auto using cmp_number.
  cbn [bind].
  rewrite (zipM_ok_forall boolean boolean v_or)
    by auto using Forall_cmp, or_returns.
  cbn [bind].
  rewrite ?getitem_setitem. str_eqb. rewrite Gpp. cbn [bind].
  rewrite outside_eq by assumption. cbn [bind].
  rewrite ?getitem_setitem. str_eqb. cbn [bind].
  rewrite (zipM_ok_forall boolean boolean v_or) by auto using or_returns.
  cbn [bind].
  rewrite ?getitem_setitem. str_eqb. cbn [bind].
  rewrite (zipM_ok_forall boolean boolean v_or);
    [reflexivity| |assumption|auto using or_returns].
  eapply Forall_zip2; eauto using or_boolean.
Qed.

End Outliers.

Section Prepared.

Lemma number_column_setitem df k s k' :
  number_column (setitem df k s) k' =
  if String.eqb k k'
  then forallb is_number s && (List.length s =? nrows df)%nat
  else number_column df k'.
Proof.
  unfold number_column, setitem. cbn [columns nrows]. rewrite lookup_assign.
  destruct (String.eqb k k'); reflexivity.
Qed.

Lemma number_series s n :
  Forall number s -> List.length s = n ->
  forallb is_number s && (List.length s =? n)%nat = true.
Proof.
  intros Hs Hn. apply andb_true_intro. split.
  - apply forallb_forall. rewrite Forall_forall in Hs. exact Hs.
  - apply Nat.eqb_eq. exact Hn.
Qed.

Lemma number_column_replace_inf df k :
  number_column df k = true -> number_column (replace_inf df) k = true.
Proof.
  intros H. destruct (number_column_spec _ _ H) as (s & L & N & E).
  apply (number_column_intro _ _ (map v_replace_inf s)).
  - unfold replace_inf. cbn [columns]. rewrite lookup_map_snd, L. reflexivity.
  - apply Forall_map. eapply Forall_impl; [|exact N].
    intros a. apply replace_inf_number.
  - rewrite length_map. exact E.
Qed.

Lemma has_column_replace_inf df k :
  has_column (replace_inf df) k = has_column df k.
Proof.
  unfold has_column, replace_inf. cbn [columns]. rewrite lookup_map_snd.
  destruct (lookup k (columns df)); reflexivity.
Qed.

Lemma Forall_percent a b :
  Forall number a -> Forall number b ->
  Forall number (map1 (v_mul 100) (zip2 v_div a b)).
Proof.
  intros Ha Hb. eapply Forall_map1; [|intros x Hx; apply mul_is_number; exact Hx].
  eapply Forall_zip2; eauto using div_is_number.
Qed.

(** After its first line a classifier holds a table with the rent changes. *)
Lemma outlier_prepare df :
  outlier_input df = true ->
  exists df1,
    (if negb (has_column df "Rent_Inc") then add_increases df else Ok df) = Ok df1
    /\ has_column df1 "Rent_Inc" = true
    /\ rates_table df1 = true
    /\ nrows df1 = nrows df.
Proof.
  unfold outlier_input. destruct (has_column df "Rent_Inc") eqn:Hh; intros H.
  - exists df. cbn [negb]. auto.
  - cbn [negb]. pose proof H as Hrt. unfold rent_table in H.
    repeat (apply andb_prop in H; destruct H as [H ?Hc]).
    destruct (number_column_spec _ _ H) as (cur & Lc & Nc & Ec).
    destruct (number_column_spec _ _ Hc1) as (base & Lb & Nb & Eb).
    destruct (number_column_spec _ _ Hc0) as (prev & Lp & Np & Ep).
    destruct (number_column_spec _ _ Hc) as (bed & Ld & Nd & Ed).
    exists (replace_inf (with_increases df cur base prev bed)).
    split; [apply add_increases_eq; assumption|].
    assert (Nib : Forall number (zip2 v_sub cur base))
      by (eapply Forall_zip2; eauto using sub_is_number).
    assert (Ni : Forall number (zip2 v_sub cur prev))
      by (eapply Forall_zip2; eauto using sub_is_number).
    split; [|split; [|reflexivity]].
    + rewrite has_column_replace_inf. unfold with_increases.
      rewrite !has_column_setitem. str_eqb. reflexivity.
    + unfold rates_table.
      rewrite !number_column_replace_inf; [reflexivity| | | |];
        unfold with_increases; rewrite !number_column_setitem; str_eqb;
        cbn [setitem nrows]; try assumption.
      * apply number_series; [apply Forall_percent; assumption|].
        rewrite length_map1, !length_zip2; rewrite ?length_zip2; congruence.
      * apply number_series; [apply Forall_percent; assumption|].
        rewrite length_map1, !length_zip2; rewrite ?length_zip2; congruence.
Qed.

Lemma add_outlier_2022_prepared df df1 stats :
  (if negb (has_column df "Rent_Inc") then add_increases df else Ok df) = Ok df1 ->
  has_column df1 "Rent_Inc" = true ->
  add_outlier_2022 df stats = add_outlier_2022 df1 stats.
Proof.
  intros H Hh. unfold add_outlier_2022. rewrite H, Hh. reflexivity.
Qed.

Lemma add_outlier_2023_prepared df df1 stats :
  (if negb (has_column df "Rent_Inc") then add_increases df else Ok df) = Ok df1 ->
  has_column df1 "Rent_Inc" = true ->
  add_outlier_2023 df stats = add_outlier_2023 df1 stats.
Proof.
  intros H Hh. unfold add_outlier_2023. rewrite H, Hh. reflexivity.
Qed.

Lemma nth_error_in_range {A} (l : list A) i :
  (i < List.length l)%nat -> exists a, nth_error l i = Some a.
Proof.
  intros H. destruct (nth_error l i) as [a|] eqn:E; [eauto|].
  apply nth_error_None in E. lia.
Qed.

(** A zero rent is below any positive bound. *)
Lemma zero_rent_is_low cur : eq_int 0 cur = true -> holds n_le 100 cur = true.
Proof.
  unfold eq_int, holds. destruct (num_of cur) as [[z|f]|]; cbn [n_eq n_le];
    try discriminate.
  - intros H. apply Z.eqb_eq in H. subst. reflexivity.
  - intros H. apply eqb_zero_spec in H. destruct H as [s ->]. reflexivity.
Qed.

(** A zero rent is neither positive nor 4000 or more. *)
Lemma holds_zero v :
  eq_int 0 v = true -> holds n_gt 0 v = false /\ holds n_ge 4000 v = false.
Proof.
  unfold eq_int, holds. destruct (num_of v) as [[z|f]|]; cbn [n_eq n_gt n_ge];
    try discriminate.
  - intros H. apply Z.eqb_eq in H. subst. split; reflexivity.
  - intros H. apply eqb_zero_spec in H. destruct H as [s ->]. split; reflexivity.
Qed.

Lemma eq_int_zero_replace_inf v : eq_int 0 (v_replace_inf v) = eq_int 0 v.
Proof.
  destruct v as [z|f|s|b|w|]; try reflexivity.
  destruct f as [s|s| |s m e]; try destruct s; reflexivity.
Qed.

(** The cells a classifier reads after its first line, in terms of the
    table it was given. *)
Lemma prepared_cells df df1 i cur base pb pp :
  outlier_input df = true ->
  (if negb (has_column df "Rent_Inc") then add_increases df else Ok df) = Ok df1 ->
  cell df1 "CurrentRent1" i = Some cur ->
  cell df1 "BaseRent1" i = Some base ->
  cell df1 "Rent_Inc_base_percent" i = Some pb ->
  cell df1 "Rent_Inc_percent" i = Some pp ->
  classified df i cur base pb pp.
Proof.
  unfold outlier_input, classified.
  destruct (has_column df "Rent_Inc"); cbn [negb]; intros H Hp Hc Hb Hpb Hpp.
  - inversion Hp. subst df1. auto.
  - unfold rent_table in H.
    repeat (apply andb_prop in H; destruct H as [H ?Hn]).
    destruct (number_column_spec _ _ H) as (cur0 & Lc & Nc & Ec).
    destruct (number_column_spec _ _ Hn1) as (base0 & Lb & Nb & Eb).
    destruct (number_column_spec _ _ Hn0) as (prev0 & Lp & Np & Ep).
    destruct (number_column_spec _ _ Hn) as (bed0 & Ld & Nd & Ed).
    rewrite (add_increases_eq df cur0 base0 prev0 bed0) in Hp by assumption.
    inversion Hp. subst df1. clear Hp.
    rewrite cell_replace_inf in Hc, Hb, Hpb, Hpp.
    unfold with_increases in Hc, Hb, Hpb, Hpp.
    rewrite !cell_setitem in Hc, Hb, Hpb, Hpp.
    str_eqb_in Hc. str_eqb_in Hb. str_eqb_in Hpb. str_eqb_in Hpp.
    rewrite (cell_lookup _ _ _ i Lc) in Hc. rewrite (cell_lookup _ _ _ i Lb) in Hb.
    rewrite nth_error_map1, !nth_error_zip2 in Hpb, Hpp.
    rewrite (cell_lookup _ _ _ i Lc), (cell_lookup _ _ _ i Lb),
      (cell_lookup _ _ _ i Lp).
    destruct (nth_error cur0 i) as [c0|]; [|discriminate Hc].
    destruct (nth_error base0 i) as [b0|]; [|discriminate Hb].
    destruct (nth_error prev0 i) as [p0|]; [|discriminate Hpp].
    cbn [option_map] in Hc, Hb, Hpb, Hpp.
    inversion Hc. inversion Hb. inversion Hpb. inversion Hpp.
    exists c0, b0, p0. repeat split; reflexivity.
Qed.

(** The classifier sees a zero rent where the table has one. *)
Lemma classified_zero df i cur base pb pp rent :
  classified df i cur base pb pp ->
  cell df "CurrentRent1" i = Some rent -> eq_int 0 rent = true ->
  eq_int 0 cur = true.
Proof.
  unfold classified. destruct (has_column df "Rent_Inc").
  - intros (Hc & _) Hr Hz. congruence.
  - intros (c0 & b0 & p0 & Hc & _ & _ & -> & _) Hr Hz.
    rewrite eq_int_zero_replace_inf. congruence.
Qed.

End Prepared.

Ltac eval_cells :=
  rewrite ?cell_setitem; str_eqb;
  repeat (rewrite ?nth_error_zip2, ?nth_error_map1, ?nth_error_map).

(** C1.  Policy A: [add_outlier_2022] returns, and every row of the table
    it was given is classified on its own rents: on the current rent, the
    base rent and the two percentages of the row, as the table has them or,
    when the rent changes are absent, as [add_increases] computes them from
    the three rents of the row.  In the result the aggregate flag of the row
    is [outlier_rent OR outlier_inc_base OR outlier_inc_prev]; the zero-rent
    flag is stored next to the three but is no disjunct.  A record whose
    current rent is 0 in the table given carries [outlier_0_rent],
    [outlier_rent] (0 <= 100) and through it the aggregate. *)
Theorem outlier_2022_aggregate (df : DataFrame) (stats : bool) :
  outlier_input df = true ->
  exists out,
    add_outlier_2022 df stats = Ok out
    /\ nrows out = nrows df
    /\ forall i, (i < nrows df)%nat ->
       (exists cur base pb pp,
         classified df i cur base pb pp
         /\ cell out "CurrentRent1" i = Some cur
         /\ cell out "BaseRent1" i = Some base
         /\ cell out "Rent_Inc_base_percent" i = Some pb
         /\ cell out "Rent_Inc_percent" i = Some pp
         /\ let z := eq_int 0 cur in
            let r := holds n_le 100 cur || holds n_ge 6500 cur in
            let b := (holds n_le (-10) pb || holds n_ge 40 pb)
                     && negb (eq_int 0 base) in
            let p := holds n_le (-10) pp || holds n_ge 40 pp in
            cell out "outlier_0_rent" i = Some (VBool z)
            /\ cell out "outlier_rent" i = Some (VBool r)
            /\ cell out "outlier_inc_base" i = Some (VBool b)
            /\ cell out "outlier_inc_prev" i = Some (VBool p)
            /\ cell out "outlier" i = Some (VBool (r || b || p))
            /\ (z = true -> r = true /\ r || b || p = true))
       /\ (forall rent,
             cell df "CurrentRent1" i = Some rent -> eq_int 0 rent = true ->
             cell out "outlier_0_rent" i = Some (VBool true)
             /\ cell out "outlier_rent" i = Some (VBool true)
             /\ cell out "outlier" i = Some (VBool true)).
Proof.
  intros H. destruct (outlier_prepare df H) as (df1 & Hprep & Hh & Hr & Hn).
  unfold rates_table in Hr.
  repeat (apply andb_prop in Hr; destruct Hr as [Hr ?Hc]).
  destruct (number_column_spec _ _ Hr) as (cur & Lc & Nc & Ec).
  destruct (number_column_spec _ _ Hc1) as (base & Lb & Nb & Eb).
  destruct (number_column_spec _ _ Hc0) as (pb & Lpb & Npb & Epb).
  destruct (number_column_spec _ _ Hc) as (pp & Lpp & Npp & Epp).
  exists (with_outliers_2022 df1 cur base pb pp).
  split.
  { rewrite (add_outlier_2022_prepared df df1 stats Hprep Hh).
    apply add_outlier_2022_eq; assumption. }
  split; [exact Hn|].
  intros i Hi. rewrite <- Hn in Hi.
  destruct (nth_error_in_range cur i) as [c Hc']; [congruence|].
  destruct (nth_error_in_range base i) as [ba Hba]; [congruence|].
  destruct (nth_error_in_range pb i) as [b' Hpb]; [congruence|].
  destruct (nth_error_in_range pp i) as [p' Hpp]; [congruence|].
  assert (Cn : number c) by eauto using nth_error_number.
  assert (PBn : number b') by eauto using nth_error_number.
  assert (PPn : number p') by eauto using nth_error_number.
  assert (Hcl : classified df i c ba b' p').
  { apply (prepared_cells df df1 i c ba b' p' H Hprep);
      [rewrite (cell_lookup _ _ _ i Lc)|rewrite (cell_lookup _ _ _ i Lb)
      |rewrite (cell_lookup _ _ _ i Lpb)|rewrite (cell_lookup _ _ _ i Lpp)];
      assumption. }
  split.
  - exists c, ba, b', p'. split; [exact Hcl|].
    unfold with_outliers_2022. eval_cells.
    rewrite !(cell_lookup _ _ _ i Lc), !(cell_lookup _ _ _ i Lb),
      !(cell_lookup _ _ _ i Lpb), !(cell_lookup _ _ _ i Lpp).
    rewrite Hc', Hba, Hpb, Hpp. cbn [option_map].
    rewrite !cmp_holds by assumption. cbn [ok_or v_or v_and v_ne v_eq].
    repeat split; try reflexivity.
    + apply orb_true_intro. left. apply zero_rent_is_low. assumption.
    + rewrite (zero_rent_is_low c) by assumption. reflexivity.
  - intros rent Hrent Hz.
    pose proof (classified_zero df i c ba b' p' rent Hcl Hrent Hz) as Hz'.
    unfold with_outliers_2022. eval_cells.
    rewrite Hc', Hba, Hpb, Hpp. cbn [option_map].
    rewrite !cmp_holds by assumption. cbn [ok_or v_or v_and v_ne v_eq].
    unfold v_eq. rewrite Hz', (zero_rent_is_low c Hz'). repeat split; reflexivity.
Qed.

(** An input with the rent changes absent: the classifier computes them.
    The second record was filed with a current rent of 0. *)
Lemma outlier_2022_aggregate_witness :
  outlier_input sample_table = true
  /\ cell sample_table "CurrentRent1" 1%nat = Some (VFloat (F64.of_Z 0))
  /\ exists out, add_outlier_2022 sample_table true = Ok out
       /\ nrows out = nrows sample_table
       /\ cell out "outlier_0_rent" 1%nat = Some (VBool true)
       /\ cell out "outlier_rent" 1%nat = Some (VBool true)
       /\ cell out "outlier" 1%nat = Some (VBool true).
Proof.
  split; [reflexivity|]. split; [reflexivity|].
  destruct (outlier_2022_aggregate sample_table true eq_refl)
    as (out & Hout & Hn & Hrows).
  exists out. split; [exact Hout|]. split; [exact Hn|].
  exact (proj2 (Hrows 1%nat (Nat.lt_succ_diag_r 1)) (VFloat (F64.of_Z 0))
           eq_refl eq_refl).
Defined.

(** C2.  Policy B: [add_outlier_2023] returns, and every row of the table
    it was given is classified on its own rents: on the current rent and the
    percentage over the previous rent of the row, as the table has them or,
    when the rent changes are absent, as [add_increases] computes them from
    the rents of the row.  In the result [outlier_0_rent] is [rent == 0],
    [outlier_rent] is [(rent > 0 AND rent <= 250) OR rent >= 4000],
    [outlier_inc_prev] is [percent <= -15 OR percent >= 65], and the
    aggregate is the disjunction of these three, the zero-rent flag
    included.  A record whose current rent is 0 in the table given carries
    [outlier_0_rent] and the aggregate, and not [outlier_rent]. *)
Theorem outlier_2023_flags (df : DataFrame) (stats : bool) :
  outlier_input df = true ->
  exists out,
    add_outlier_2023 df stats = Ok out
    /\ nrows out = nrows df
    /\ forall i, (i < nrows df)%nat ->
       (exists cur base pb pp,
         classified df i cur base pb pp
         /\ cell out "CurrentRent1" i = Some cur
         /\ cell out "Rent_Inc_percent" i = Some pp
         /\ let z := eq_int 0 cur in
            let r := (holds n_gt 0 cur && holds n_le 250 cur)
                     || holds n_ge 4000 cur in
            let p := holds n_le (-15) pp || holds n_ge 65 pp in
            cell out "outlier_0_rent" i = Some (VBool z)
            /\ cell out "outlier_rent" i = Some (VBool r)
            /\ cell out "outlier_inc_prev" i = Some (VBool p)
            /\ cell out "outlier" i = Some (VBool (z || r || p)))
       /\ (forall rent,
             cell df "CurrentRent1" i = Some rent -> eq_int 0 rent = true ->
             cell out "outlier_0_rent" i = Some (VBool true)
             /\ cell out "outlier_rent" i = Some (VBool false)
             /\ cell out "outlier" i = Some (VBool true)).
Proof.
  intros H. destruct (outlier_prepare df H) as (df1 & Hprep & Hh & Hr & Hn).
  unfold rates_table in Hr.
  repeat (apply andb_prop in Hr; destruct Hr as [Hr ?Hc]).
  destruct (number_column_spec _ _ Hr) as (cur & Lc & Nc & Ec).
  destruct (number_column_spec _ _ Hc1) as (base & Lb & Nb & Eb).
  destruct (number_column_spec _ _ Hc0) as (pb & Lpb & Npb & Epb).
  destruct (number_column_spec _ _ Hc) as (pp & Lpp & Npp & Epp).
  exists (with_outliers_2023 df1 cur pp).
  split.
  { rewrite (add_outlier_2023_prepared df df1 stats Hprep Hh).
    apply add_outlier_2023_eq; assumption. }
  split; [exact Hn|].
  intros i Hi. rewrite <- Hn in Hi.
  destruct (nth_error_in_range cur i) as [c Hc']; [congruence|].
  destruct (nth_error_in_range base i) as [ba Hba]; [congruence|].
  destruct (nth_error_in_range pb i) as [b' Hpb]; [congruence|].
  destruct (nth_error_in_range pp i) as [p' Hpp]; [congruence|].
  assert (Cn : number c) by eauto using nth_error_number.
  assert (PPn : number p') by eauto using nth_error_number.
  assert (Hcl : classified df i c ba b' p').
  { apply (prepared_cells df df1 i c ba b' p' H Hprep);
      [rewrite (cell_lookup _ _ _ i Lc)|rewrite (cell_lookup _ _ _ i Lb)
      |rewrite (cell_lookup _ _ _ i Lpb)|rewrite (cell_lookup _ _ _ i Lpp)];
      assumption. }
  split.
  - exists c, ba, b', p'. split; [exact Hcl|].
    unfold with_outliers_2023. eval_cells.
    rewrite !(cell_lookup _ _ _ i Lc), !(cell_lookup _ _ _ i Lpp).
    rewrite Hc', Hpp. cbn [option_map].
    rewrite !cmp_holds by assumption. cbn [ok_or v_or v_and v_ne v_eq].
    repeat split; reflexivity.
  - intros rent Hrent Hz.
    pose proof (classified_zero df i c ba b' p' rent Hcl Hrent Hz) as Hz'.
    destruct (holds_zero c Hz') as [Hg Hh4].
    unfold with_outliers_2023. eval_cells.
    rewrite Hc', Hpp. cbn [option_map].
    rewrite !cmp_holds by assumption. cbn [ok_or v_or v_and v_ne v_eq].
    unfold v_eq. rewrite Hz', Hg, Hh4. repeat split; reflexivity.
Qed.

(** An input with the rent changes absent: the classifier computes them.
    The second record was filed with a current rent of 0. *)
Lemma outlier_2023_flags_witness :
  outlier_input sample_table = true
  /\ cell sample_table "CurrentRent1" 1%nat = Some (VFloat (F64.of_Z 0))
  /\ exists out, add_outlier_2023 sample_table true = Ok out
       /\ nrows out = nrows sample_table
       /\ cell out "outlier_0_rent" 1%nat = Some (VBool true)
       /\ cell out "outlier_rent" 1%nat = Some (VBool false)
       /\ cell out "outlier" 1%nat = Some (VBool true).
Proof.
  split; [reflexivity|]. split; [reflexivity|].
  destruct (outlier_2023_flags sample_table true eq_refl)
    as (out & Hout & Hn & Hrows).
  exists out. split; [exact Hout|]. split; [exact Hn|].
  exact (proj2 (Hrows 1%nat (Nat.lt_succ_diag_r 1)) (VFloat (F64.of_Z 0))
           eq_refl eq_refl).
Defined.

Section Exempt.

Lemma Forall_ne_str t s : Forall boolean (map (v_ne_str t) s).
Proof. apply Forall_map_boolean. intros; exact I. Qed.

Lemma add_exempt_eq df stats d :
  lookup "unitDesc2" (columns df) = Some d ->
  add_exempt df stats
  = Ok (setitem df "exempt"
          (zip2 v_and (map (v_ne_str NONE_OF_THE_ABOVE) d)
                      (map (v_ne_str NOTHING_SELECTED) d))).
Proof.
  intros L. unfold add_exempt. rewrite (getitem_lookup _ _ _ L). cbn [bind].
  rewrite (zipM_ok_forall boolean boolean v_and)
    by auto using Forall_ne_str, and_returns.
  reflexivity.
Qed.

Lemma ne_str_spec t s : ne_str t (VStr s) = true <-> s <> t.
Proof.
  cbn [ne_str]. rewrite negb_true_iff. split.
  - intros H ->. rewrite String.eqb_refl in H. discriminate.
  - intros H. apply String.eqb_neq. exact H.
Qed.

End Exempt.

(** C7.  On a table that has the description column, [add_exempt] returns,
    keeps the rows, and in every row sets [exempt] to true exactly when the
    description is neither "None of the above" nor "(Nothing Selected)"; any
    other text, whatever it is, gives true. *)
Theorem exempt_flag (df : DataFrame) (stats : bool) :
  has_column df "unitDesc2" = true ->
  exists out,
    add_exempt df stats = Ok out
    /\ nrows out = nrows df
    /\ forall i d,
         cell df "unitDesc2" i = Some (VStr d) ->
         exists e,
           cell out "exempt" i = Some (VBool e)
           /\ (e = true <-> d <> "None of the above" /\ d <> "(Nothing Selected)").
Proof.
  unfold has_column. destruct (lookup "unitDesc2" (columns df)) as [col|] eqn:L;
    [intros _|discriminate].
  eexists. split; [apply (add_exempt_eq df stats col L)|].
  split; [reflexivity|].
  intros i d Hd. rewrite (cell_lookup _ _ _ i L) in Hd.
  exists (ne_str NONE_OF_THE_ABOVE (VStr d) && ne_str NOTHING_SELECTED (VStr d)).
  split.
  - eval_cells. rewrite Hd. reflexivity.
  - rewrite andb_true_iff, !ne_str_spec. reflexivity.
Qed.

Lemma exempt_flag_witness :
  has_column sample_table "unitDesc2" = true
  /\ exists out, add_exempt sample_table false = Ok out
       /\ cell out "exempt" 0%nat = Some (VBool false)
       /\ cell out "exempt" 1%nat = Some (VBool true).
Proof.
  split; [reflexivity|].
  destruct (exempt_flag sample_table false eq_refl) as (out & Hout & _ & Hrows).
  exists out. split; [exact Hout|].
  destruct (Hrows 0%nat "None of the above" eq_refl) as (e0 & C0 & [I0 _]).
  destruct (Hrows 1%nat "Owner occupied" eq_refl) as (e1 & C1 & [_ I1]).
  split.
  - rewrite C0. destruct e0; [|reflexivity].
    destruct (I0 eq_refl) as [Hne _]. contradiction Hne. reflexivity.
  - rewrite C1. rewrite I1; [reflexivity|]. split; discriminate.
Defined.

Section Bedrooms.

Lemma int_column_spec df k :
  int_column df k = true ->
  exists s, lookup k (columns df) = Some s /\ Forall integer s.
Proof.
  unfold int_column. destruct (lookup k (columns df)) as [s|]; [|discriminate].
  intros H. apply andb_prop in H. destruct H as [H _].
  exists s. split; [reflexivity|].
  apply Forall_forall. rewrite forallb_forall in H.
  intros v Hv. specialize (H v Hv). destruct v; try discriminate. exact I.
Qed.

Lemma integer_number v : integer v -> number v.
Proof. destruct v; cbn; intros; try contradiction; reflexivity. Qed.

Lemma replace_int_integer o n v : integer v -> integer (v_replace_int o n v).
Proof.
  destruct v; cbn [integer v_replace_int]; try contradiction. intros _.
  destruct (z =? o); exact I.
Qed.

Lemma where_returns o a c : boolean c -> returns (v_where o a c) = true.
Proof. destruct c as [| | |[|]| |]; cbn; intros; try contradiction; reflexivity. Qed.

Lemma where_integer o a c :
  integer a -> boolean c -> integer (ok_or (VStr "") (v_where o a c)).
Proof.
  destruct c as [| | |[|]| |]; cbn [boolean]; try contradiction.
  - intros H _. exact H.
  - destruct a; cbn; try contradiction. intros _ _. exact I.
Qed.

Lemma astype_str_integer v : integer v -> returns (v_astype_str v) = true.
Proof. destruct v; cbn; intros; try contradiction; reflexivity. Qed.

Lemma group_bedrooms_eq df bed :
  lookup "nbrBedRms1" (columns df) = Some bed ->
  Forall integer bed ->
  group_bedrooms df = Ok (with_bedroom_groups df bed).
Proof.
  intros L Hb.
  assert (I1 : Forall integer (map (v_replace_int 0 1) bed)).
  { apply Forall_map. eapply Forall_impl; [|exact Hb].
    intros a. apply replace_int_integer. }
  assert (N1 : Forall number (map (v_replace_int 0 1) bed))
    by (eapply Forall_impl; [|exact I1]; apply integer_number).
  assert (I2 : Forall integer
            (zip2 (v_where 5) (map (v_replace_int 0 1) bed)
               (map1 (v_cmp n_lt 5) (map (v_replace_int 0 1) bed))))
    by (apply (Forall_zip2 integer boolean integer);
        auto using Forall_cmp, where_integer).
  unfold group_bedrooms, with_bedroom_groups.
  rewrite (getitem_lookup _ _ _ L). cbn [bind].
  rewrite ?getitem_setitem. str_eqb. rewrite (getitem_lookup _ _ _ L). cbn [bind].
  rewrite ?getitem_setitem. str_eqb. cbn [bind].
  rewrite (mapM_ok_forall number (v_cmp n_lt 5)) by auto using cmp_number.
  cbn [bind].
  rewrite (zipM_ok_forall integer boolean (v_where 5))
    by (auto using Forall_cmp; intros; apply where_returns; assumption).
  cbn [bind].
  rewrite ?getitem_setitem. str_eqb. cbn [bind].
  rewrite (mapM_ok_forall integer v_astype_str) by auto using astype_str_integer.
  cbn [bind].
  rewrite ?getitem_setitem. str_eqb. cbn [bind]. reflexivity.
Qed.

(** The text of a negative int starts with a minus sign. *)
Lemma str_of_negative p : exists t, str_of_Z (Zneg p) = String "-" t.
Proof. unfold str_of_Z. cbn. eauto. Qed.

Lemma grouped_small z : 1 <= z <= 4 -> grouped z = VStr (str_of_Z z).
Proof.
  intros H.
  assert (C : z = 1 \/ z = 2 \/ z = 3 \/ z = 4) by lia.
  destruct C as [->|[->|[->| ->]]]; reflexivity.
Qed.

Lemma grouped_large z : 5 <= z -> grouped z = VStr "5+".
Proof.
  intros H. unfold grouped. cbn [v_replace_int].
  replace (z =? 0) with false by (symmetry; apply Z.eqb_neq; lia).
  cbn [v_cmp num_of n_lt ok_or].
  replace (z <? 5) with false by (symmetry; apply Z.ltb_ge; lia).
  reflexivity.
Qed.

Lemma grouped_negative z : z < 0 -> grouped z = VStr (str_of_Z z).
Proof.
  intros H. unfold grouped. cbn [v_replace_int].
  replace (z =? 0) with false by (symmetry; apply Z.eqb_neq; lia).
  cbn [v_cmp num_of n_lt ok_or].
  replace (z <? 5) with true by (symmetry; apply Z.ltb_lt; lia).
  cbn [v_where ok_or v_astype_str v_replace_str].
  destruct z as [|p|p]; try lia.
  destruct (str_of_negative p) as [t ->]. reflexivity.
Qed.

End Bedrooms.

(** C8, as the code has it.  On a table whose bedroom column holds ints,
    [group_bedrooms] returns and, in every row: a count of 0 gives "1", a
    count from 1 to 4 gives its own decimal text, a count of 5 or more gives
    "5+", so that every count that is not negative lands in the five
    categories; a negative count is passed through as its own text. *)
Theorem bedroom_groups (df : DataFrame) :
  int_column df "nbrBedRms1" = true ->
  exists out,
    group_bedrooms df = Ok out
    /\ nrows out = nrows df
    /\ forall i z,
         cell df "nbrBedRms1" i = Some (VInt z) ->
         exists g,
           cell out "nbrBedRms_grouped" i = Some (VStr g)
           /\ (z = 0 -> g = "1")
           /\ (1 <= z <= 4 -> g = str_of_Z z)
           /\ (5 <= z -> g = "5+")
           /\ (0 <= z -> In g bedroom_categories)
           /\ (z < 0 -> g = str_of_Z z).
Proof.
  intros H. destruct (int_column_spec _ _ H) as (bed & L & Hb).
  exists (with_bedroom_groups df bed).
  split; [apply group_bedrooms_eq; assumption|].
  split; [reflexivity|].
  intros i z Hz. rewrite (cell_lookup _ _ _ i L) in Hz.
  assert (Hcell : cell (with_bedroom_groups df bed) "nbrBedRms_grouped" i
                  = Some (grouped z)).
  { unfold with_bedroom_groups. eval_cells. rewrite Hz. reflexivity. }
  rewrite Hcell.
  destruct (Z.lt_trichotomy z 0) as [Hneg|[->|Hpos]].
  - exists (str_of_Z z). rewrite grouped_negative by assumption.
    repeat split; intros; try lia; reflexivity.
  - exists "1". repeat split; intros; try lia; try reflexivity.
    left. reflexivity.
  - destruct (Z_lt_le_dec z 5) as [Hs|Hl].
    + exists (str_of_Z z). rewrite grouped_small by lia.
      repeat split; intros; try lia; try reflexivity.
      assert (C : z = 1 \/ z = 2 \/ z = 3 \/ z = 4) by lia.
      destruct C as [->|[->|[->| ->]]]; cbn; auto.
    + exists "5+". rewrite grouped_large by assumption.
      repeat split; intros; try lia; try reflexivity.
      cbn. auto 6.
Qed.

(** The four counts the specification names. *)
Lemma bedroom_groups_witness :
  int_column (one_bedroom_column [0; 3; 5; 12]) "nbrBedRms1" = true
  /\ exists out,
       group_bedrooms (one_bedroom_column [0; 3; 5; 12]) = Ok out
       /\ cell out "nbrBedRms_grouped" 0%nat = Some (VStr "1")
       /\ cell out "nbrBedRms_grouped" 1%nat = Some (VStr "3")
       /\ cell out "nbrBedRms_grouped" 2%nat = Some (VStr "5+")
       /\ cell out "nbrBedRms_grouped" 3%nat = Some (VStr "5+").
Proof.
  split; [reflexivity|].
  destruct (bedroom_groups (one_bedroom_column [0; 3; 5; 12]) eq_refl)
    as (out & Hout & _ & Hrows).
  exists out. split; [exact Hout|].
  destruct (Hrows 0%nat 0 eq_refl) as (g0 & C0 & Z0 & _).
  destruct (Hrows 1%nat 3 eq_refl) as (g1 & C1 & _ & S1 & _).
  destruct (Hrows 2%nat 5 eq_refl) as (g2 & C2 & _ & _ & L2 & _).
  destruct (Hrows 3%nat 12 eq_refl) as (g3 & C3 & _ & _ & L3 & _).
  rewrite C0, C1, C2, C3, (Z0 eq_refl), S1, L2, L3 by lia.
  repeat split; reflexivity.
Defined.

(** C8 as the specification words it fails: a count of [-2] is grouped as
    "-2", which is none of the five categories. *)
Lemma bedroom_groups_counterexample :
  exists out,
    group_bedrooms (one_bedroom_column [-2]) = Ok out
    /\ cell out "nbrBedRms_grouped" 0%nat = Some (VStr "-2")
    /\ ~ In "-2" bedroom_categories.
Proof.
  eexists. split; [vm_compute; reflexivity|].
  split; [vm_compute; reflexivity|].
  cbn. intros H. repeat (destruct H as [H|H]; [discriminate|]). exact H.
Qed.

Section Currency.

Lemma digit_differs c d : is_digit c = true -> is_digit d = false -> Ascii.eqb c d = false.
Proof.
  intros Hc Hd. apply Ascii.eqb_neq. intros ->. congruence.
Qed.

Lemma digit_not_space c : is_digit c = true -> is_space c = false.
Proof.
  unfold is_digit, is_space. intros H.
  apply andb_prop in H. destruct H as [H1 H2].
  apply N.leb_le in H1. apply N.leb_le in H2.
  apply orb_false_intro.
  - apply N.eqb_neq. lia.
  - apply andb_false_intro2. apply N.leb_gt. lia.
Qed.


Lemma lstrip_digits t : forallb is_digit t = true -> lstrip t = t.
Proof.
  destruct t as [|c t]; [reflexivity|]. cbn [forallb lstrip]. intros H.
  apply andb_prop in H. destruct H as [H _].
  rewrite (digit_not_space c H). reflexivity.
Qed.

Lemma forallb_rev {A} (p : A -> bool) l : forallb p (rev l) = forallb p l.
Proof.
  induction l as [|a l IH]; [reflexivity|].
  cbn [rev forallb]. rewrite forallb_app, IH. cbn [forallb].
  rewrite andb_true_r. apply andb_comm.
Qed.

Lemma strip_digits t : forallb is_digit t = true -> strip t = t.
Proof.
  intros H. unfold strip. rewrite (lstrip_digits t H).
  rewrite lstrip_digits by (rewrite forallb_rev; exact H).
  apply rev_involutive.
Qed.

Lemma drop_underscores_digits t prev :
  forallb is_digit t = true -> is_underscore prev = false ->
  drop_underscores prev t = Some t.
Proof.
  revert prev. induction t as [|c t IH]; intros prev H Hp.
  - cbn [drop_underscores]. rewrite Hp. reflexivity.
  - cbn [forallb] in H. apply andb_prop in H. destruct H as [Hc Ht].
    cbn [drop_underscores].
    rewrite (digit_differs c "_" Hc eq_refl), Hp. cbn [andb].
    rewrite IH; [reflexivity|assumption|].
    cbn [is_underscore]. apply (digit_differs c "_" Hc eq_refl).
Qed.

Lemma take_sign_digit c t : is_digit c = true -> take_sign (c :: t) = (false, c :: t).
Proof.
  intros H. cbn [take_sign].
  rewrite (digit_differs c "-" H eq_refl), (digit_differs c "+" H eq_refl).
  reflexivity.
Qed.









Lemma digit_ascii c : is_digit c = true -> (N_of_ascii c <? 128)%N = true.
Proof.
  unfold is_digit. intros H. apply andb_prop in H. destruct H as [_ H].
  apply N.leb_le in H. apply N.ltb_lt. lia.
Qed.

Lemma digits_ascii t : forallb is_digit t = true -> is_ascii t = true.
Proof.
  unfold is_ascii. induction t as [|c t IH]; [reflexivity|].
  cbn [forallb]. intros H. apply andb_prop in H. destruct H as [Hc Ht].
  rewrite (digit_ascii c Hc), (IH Ht). reflexivity.
Qed.









Lemma iter_xO_digits p k :
  Zpos (digits2_pos (Pos.iter xO p k)) = Zpos (digits2_pos p) + Zpos k.
Proof.
  induction k using Pos.peano_ind.
  - cbn. lia.
  - rewrite Pos.iter_succ. cbn [digits2_pos]. lia.
Qed.

Lemma iter_xO_value p k : Zpos (Pos.iter xO p k) = Zpos p * Z.pow_pos 2 k.
Proof.
  change (Z.pow_pos 2 k) with (2 ^ Zpos k).
  induction k using Pos.peano_ind.
  - cbn. lia.
  - rewrite Pos.iter_succ, Pos2Z.inj_succ, Z.pow_succ_r by lia.
    rewrite Pos2Z.inj_xO, IHk. ring.
Qed.

Lemma digits_lower_bound p : 2 ^ (Zpos (digits2_pos p) - 1) <= Zpos p.
Proof.
  induction p as [p IH|p IH|]; cbn [digits2_pos].
  - rewrite Pos2Z.inj_succ.
    replace (Z.succ (Zpos (digits2_pos p)) - 1)
      with (Z.succ (Zpos (digits2_pos p) - 1)) by lia.
    rewrite Z.pow_succ_r by lia. lia.
  - rewrite Pos2Z.inj_succ.
    replace (Z.succ (Zpos (digits2_pos p)) - 1)
      with (Z.succ (Zpos (digits2_pos p) - 1)) by lia.
    rewrite Z.pow_succ_r by lia. lia.
  - cbn. lia.
Qed.

Lemma digits_small p : Zpos p < 2 ^ 53 -> Zpos (digits2_pos p) <= 53.
Proof.
  intros H. pose proof (digits_lower_bound p) as L.
  assert (Hlt : 2 ^ (Zpos (digits2_pos p) - 1) < 2 ^ 53) by lia.
  apply Z.pow_lt_mono_r_iff in Hlt; lia.
Qed.

(** Below 2^53 the conversion of an int shifts its digits and loses none. *)
Lemma of_Z_small p :
  Zpos p < 2 ^ 53 ->
  exists m e,
    F64.of_Z (Zpos p) = S754_finite false m e
    /\ e <= 0 /\ Zpos m = Zpos p * 2 ^ (- e).
Proof.
  intros H. pose proof (digits_small p H) as Hd.
  unfold F64.of_Z, binary_normalize, binary_round, F64.prec, F64.emax.
  set (d := Zpos (digits2_pos p)) in *.
  assert (Hf : fexp 53 1024 (d + 0) = d - 53) by (unfold fexp, emin; lia).
  rewrite Hf. unfold shl_align.
  destruct (d - 53 - 0) eqn:E; try lia.
  - exists p, 0. split; [|split; [lia|cbn; lia]].
    apply round_canonical; [|lia]. fold d. rewrite Hf. lia.
  - exists (Pos.iter xO p p0), (d - 53). split; [|split; [lia|]].
    + apply round_canonical; [|lia]. rewrite iter_xO_digits. fold d.
      unfold fexp, emin. lia.
    + rewrite iter_xO_value. change (Z.pow_pos 2 p0) with (2 ^ Zpos p0).
      f_equal. f_equal. lia.
Qed.


End Currency.




Section Lookup.

Lemma in_insert_by_ward p x l : In p (insert_by_ward x l) <-> p = x \/ In p l.
Proof.
  induction l as [|q l IH]; cbn [insert_by_ward In].
  - intuition congruence.
  - destruct (Ward_GIS x <=? Ward_GIS q); cbn [In]; rewrite ?IH;
      intuition congruence.
Qed.

Lemma in_sort_values p l : In p (sort_values l) <-> In p l.
Proof.
  unfold sort_values. induction l as [|x l IH]; cbn [fold_right In].
  - tauto.
  - rewrite in_insert_by_ward, IH. intuition congruence.
Qed.

Lemma insert_sorted x l :
  StronglySorted by_ward l -> StronglySorted by_ward (insert_by_ward x l).
Proof.
  induction 1 as [|q l Hs IH Hq]; cbn [insert_by_ward].
  - constructor; constructor.
  - destruct (Ward_GIS x <=? Ward_GIS q) eqn:E.
    + apply Z.leb_le in E. constructor; [constructor; assumption|].
      constructor; [exact E|].
      eapply Forall_impl; [|exact Hq]. unfold by_ward. intros; lia.
    + apply Z.leb_gt in E. constructor; [exact IH|].
      apply Forall_forall. intros p Hp. apply in_insert_by_ward in Hp.
      destruct Hp as [->|Hp].
      * unfold by_ward. lia.
      * rewrite Forall_forall in Hq. apply Hq. exact Hp.
Qed.

Lemma sort_values_sorted l : StronglySorted by_ward (sort_values l).
Proof.
  unfold sort_values. induction l as [|x l IH]; cbn [fold_right].
  - constructor.
  - apply insert_sorted. exact IH.
Qed.

Lemma has_parcel_spec k l :
  has_parcel k l = true <-> exists q, In q l /\ IAS_PARCEL_ID q = k.
Proof.
  unfold has_parcel. rewrite existsb_exists. split.
  - intros (q & Hq & E). apply String.eqb_eq in E. eauto.
  - intros (q & Hq & E). exists q. split; [exact Hq|]. apply String.eqb_eq. exact E.
Qed.

Lemma drop_dup_in q seen l :
  In q (drop_dup seen l) -> In q l /\ has_parcel (IAS_PARCEL_ID q) seen = false.
Proof.
  revert seen. induction l as [|x l IH]; intros seen; cbn [drop_dup In]; [tauto|].
  destruct (has_parcel (IAS_PARCEL_ID x) seen) eqn:E.
  - intros H. destruct (IH _ H). tauto.
  - cbn [In]. intros [->|H]; [tauto|].
    destruct (IH _ H) as [Hin Hs]. split; [tauto|].
    cbn [has_parcel existsb] in Hs. apply orb_false_elim in Hs. tauto.
Qed.

Lemma drop_dup_nodup seen l : NoDup (map IAS_PARCEL_ID (drop_dup seen l)).
Proof.
  revert seen. induction l as [|x l IH]; intros seen; cbn [drop_dup map].
  - constructor.
  - destruct (has_parcel (IAS_PARCEL_ID x) seen); [apply IH|].
    cbn [map]. constructor; [|apply IH].
    intros Hin. apply in_map_iff in Hin. destruct Hin as (q & E & Hq).
    apply drop_dup_in in Hq. destruct Hq as [_ Hs].
    cbn [has_parcel existsb] in Hs. apply orb_false_elim in Hs.
    destruct Hs as [Hs _]. rewrite E, String.eqb_refl in Hs. discriminate.
Qed.

Lemma drop_dup_first q seen l :
  StronglySorted by_ward l -> In q (drop_dup seen l) ->
  forall p, In p l -> IAS_PARCEL_ID p = IAS_PARCEL_ID q -> Ward_GIS q <= Ward_GIS p.
Proof.
  intros Hs. revert seen. induction Hs as [|x l Hs IH Hx]; intros seen;
    cbn [drop_dup In]; [tauto|].
  destruct (has_parcel (IAS_PARCEL_ID x) seen) eqn:E.
  - intros Hq p [->|Hp] Hid.
    + apply drop_dup_in in Hq. destruct Hq as [_ Hq]. congruence.
    + eapply IH; eassumption.
  - cbn [In]. intros [->|Hq] p [->|Hp] Hid.
    + lia.
    + rewrite Forall_forall in Hx. apply Hx. exact Hp.
    + apply drop_dup_in in Hq. destruct Hq as [_ Hq].
      cbn [has_parcel existsb] in Hq. apply orb_false_elim in Hq.
      destruct Hq as [Hq _]. rewrite Hid, String.eqb_refl in Hq. discriminate.
    + eapply IH; eassumption.
Qed.

Lemma drop_dup_complete p seen l :
  In p l -> has_parcel (IAS_PARCEL_ID p) seen = false ->
  exists q, In q (drop_dup seen l) /\ IAS_PARCEL_ID q = IAS_PARCEL_ID p.
Proof.
  revert seen. induction l as [|x l IH]; intros seen; cbn [drop_dup In]; [tauto|].
  intros Hp Hs. destruct (has_parcel (IAS_PARCEL_ID x) seen) eqn:E.
  - destruct Hp as [->|Hp]; [congruence|]. apply IH; assumption.
  - destruct (String.eqb (IAS_PARCEL_ID x) (IAS_PARCEL_ID p)) eqn:Ex.
    + apply String.eqb_eq in Ex. exists x. split; [left; reflexivity|exact Ex].
    + destruct Hp as [->|Hp]; [rewrite String.eqb_refl in Ex; discriminate|].
      destruct (IH (x :: seen) Hp) as (q & Hq & Hid).
      * cbn [has_parcel existsb]. rewrite Ex. exact Hs.
      * exists q. split; [right; exact Hq|exact Hid].
Qed.

Lemma find_parcel_in k l q : find_parcel k l = Some q -> In q l /\ IAS_PARCEL_ID q = k.
Proof.
  unfold find_parcel. intros H. apply find_some in H. destruct H as [Hin E].
  apply String.eqb_eq in E. tauto.
Qed.

End Lookup.

(** C5, as the code has it.  The lookup is sorted by ward in ascending order
    and the first row of each parcel is kept.  So each parcel of the lookup
    is kept exactly once, and the row kept for it carries the lowest ward
    listed for that parcel - the row a record is then joined with. *)
Theorem ward_lookup_keeps_lowest (parcels : list parcel) :
  let kept := drop_duplicates (sort_values parcels) in
  NoDup (map IAS_PARCEL_ID kept)
  /\ (forall p, In p parcels ->
        exists q, In q kept /\ IAS_PARCEL_ID q = IAS_PARCEL_ID p)
  /\ (forall q, In q kept ->
        In q parcels
        /\ forall p, In p parcels -> IAS_PARCEL_ID p = IAS_PARCEL_ID q ->
                     Ward_GIS q <= Ward_GIS p)
  /\ (forall k q, find_parcel k kept = Some q ->
        IAS_PARCEL_ID q = k
        /\ forall p, In p parcels -> IAS_PARCEL_ID p = k -> Ward_GIS q <= Ward_GIS p).
Proof.
  intros kept. unfold kept, drop_duplicates.
  assert (Hmin : forall q, In q (drop_dup [] (sort_values parcels)) ->
            In q parcels
            /\ forall p, In p parcels -> IAS_PARCEL_ID p = IAS_PARCEL_ID q ->
                         Ward_GIS q <= Ward_GIS p).
  { intros q Hq. split.
    - apply in_sort_values. apply (drop_dup_in q [] _ Hq).
    - intros p Hp Hid.
      apply (drop_dup_first q [] (sort_values parcels)
               (sort_values_sorted parcels) Hq p); [|exact Hid].
      apply in_sort_values. exact Hp. }
  split; [apply drop_dup_nodup|].
  split.
  { intros p Hp. apply drop_dup_complete; [|reflexivity].
    apply in_sort_values. exact Hp. }
  split; [exact Hmin|].
  intros k q Hf. apply find_parcel_in in Hf. destruct Hf as [Hin Hid].
  split; [exact Hid|].
  intros p Hp Hk. apply (proj2 (Hmin q Hin) p Hp). congruence.
Qed.

(** C5 as the specification words it fails: of two rows for one parcel with
    wards 3 and 7 the row with ward 3 is kept, in either order of the file,
    and ward 3 is what the join gives the parcel's record. *)
Lemma ward_lookup_counterexample :
  drop_duplicates (sort_values two_wards)
  = [ {| IAS_PARCEL_ID := "P1"; Ward_GIS := 3; geometry := "POINT (0 0)" |} ]
  /\ drop_duplicates (sort_values (rev two_wards))
     = [ {| IAS_PARCEL_ID := "P1"; Ward_GIS := 3; geometry := "POINT (0 0)" |} ]
  /\ ~ In {| IAS_PARCEL_ID := "P1"; Ward_GIS := 7; geometry := "POINT (0 0)" |}
          (drop_duplicates (sort_values two_wards))
  /\ exists out,
       add_ward_geo two_wards_env sample_table = Ok out
       /\ cell out "PARCELNUMBER" 0%nat = Some (VStr "P1")
       /\ cell out "WARD_str" 0%nat = Some (VStr "3").
Proof.
  split; [reflexivity|]. split; [reflexivity|]. split.
  - cbn. intros [H|[]]. discriminate.
  - eexists. split; [vm_compute; reflexivity|].
    split; vm_compute; reflexivity.
Qed.

Lemma ward_lookup_keeps_lowest_witness :
  In {| IAS_PARCEL_ID := "P1"; Ward_GIS := 3; geometry := "POINT (0 0)" |}
     (drop_duplicates (sort_values two_wards))
  /\ Ward_GIS {| IAS_PARCEL_ID := "P1"; Ward_GIS := 3; geometry := "POINT (0 0)" |}
     <= Ward_GIS {| IAS_PARCEL_ID := "P1"; Ward_GIS := 7; geometry := "POINT (0 0)" |}.
Proof.
  destruct (ward_lookup_keeps_lowest two_wards) as (_ & _ & Hmin & _).
  assert (Hin : In {| IAS_PARCEL_ID := "P1"; Ward_GIS := 3; geometry := "POINT (0 0)" |}
                   (drop_duplicates (sort_values two_wards)))
    by (left; reflexivity).
  split; [exact Hin|].
  apply (proj2 (Hmin _ Hin)); [right; left; reflexivity|reflexivity].
Defined.

Section Frames.

Lemma bind_ok {A B} (m : result A) (k : A -> result B) b :
  bind m k = Ok b -> exists a, m = Ok a /\ k a = Ok b.
Proof. destruct m as [a|e]; cbn [bind]; [eauto|discriminate]. Qed.

Lemma map_same s : map same s = s.
Proof. apply map_id. Qed.

Lemma option_map_same (o : option Series) : option_map (map same) o = o.
Proof. destruct o; cbn [option_map]; [rewrite map_same|]; reflexivity. Qed.

Lemma lookup_setitem_other df w s k :
  String.eqb k w = false ->
  lookup k (columns (setitem df w s)) = lookup k (columns df).
Proof.
  intros H. cbn [setitem columns]. rewrite lookup_assign, String.eqb_sym, H.
  reflexivity.
Qed.

Lemma frame_cell written f df out k i :
  frame written f df out -> mem k written = false ->
  cell out k i = option_map f (cell df k i).
Proof.
  intros [_ H] Hk. unfold cell. rewrite (H k Hk).
  destruct (lookup k (columns df)); cbn [option_map]; [|reflexivity].
  apply nth_error_map.
Qed.

Lemma frame_has_column written f df out k :
  frame written f df out -> mem k written = false ->
  has_column out k = has_column df k.
Proof.
  intros [_ H] Hk. unfold has_column. rewrite (H k Hk).
  destruct (lookup k (columns df)); reflexivity.
Qed.

End Frames.

(** Splits a hypothesis [H : (x <- m ;; k) = Ok out] into the steps that
    returned. *)
Ltac invert_binds H :=
  repeat (cbv beta zeta in H;
          apply bind_ok in H;
          let x := fresh "x" in
          let E := fresh "E" in
          destruct H as (x & E & H));
  cbv beta zeta in H.

(** Reduces [mem k l = false] for a literal list to its comparisons. *)
Ltac split_mem H :=
  unfold mem in H; cbn [existsb] in H;
  repeat (apply orb_false_elim in H;
          let E := fresh "Ek" in destruct H as [E H]).

Ltac skip_written :=
  repeat (rewrite lookup_setitem_other by assumption).

Section StageFrames.

Lemma add_exempt_frame df stats out :
  add_exempt df stats = Ok out -> frame exempt_columns same df out.
Proof.
  unfold add_exempt. intros H. invert_binds H. inversion H. subst out.
  split; [reflexivity|]. intros k Hk. split_mem Hk.
  skip_written. rewrite option_map_same. reflexivity.
Qed.

Lemma replace_inf_lookup df k :
  lookup k (columns (replace_inf df))
  = option_map (map v_replace_inf) (lookup k (columns df)).
Proof. unfold replace_inf. cbn [columns]. apply lookup_map_snd. Qed.

Lemma add_increases_frame df out :
  add_increases df = Ok out -> frame increase_columns v_replace_inf df out.
Proof.
  unfold add_increases. intros H. invert_binds H. inversion H. subst out.
  split; [reflexivity|]. intros k Hk. unfold increase_columns in Hk. split_mem Hk.
  rewrite replace_inf_lookup. skip_written. reflexivity.
Qed.

Lemma group_bedrooms_frame df out :
  group_bedrooms df = Ok out -> frame bedroom_columns same df out.
Proof.
  unfold group_bedrooms. intros H. invert_binds H. inversion H. subst out.
  split; [reflexivity|]. intros k Hk. unfold bedroom_columns in Hk. split_mem Hk.
  skip_written. rewrite option_map_same. reflexivity.
Qed.

(** The part of a classifier after its first line leaves the other columns
    as they are. *)
Lemma add_outlier_2022_frame_prepared df stats out :
  has_column df "Rent_Inc" = true ->
  add_outlier_2022 df stats = Ok out -> frame outlier_columns_2022 same df out.
Proof.
  unfold add_outlier_2022. intros Hh H. rewrite Hh in H. cbn [negb] in H.
  invert_binds H. inversion H. subst out. inversion E. subst x.
  split; [reflexivity|]. intros k Hk. unfold outlier_columns_2022 in Hk.
  split_mem Hk. skip_written. rewrite option_map_same. reflexivity.
Qed.

Lemma add_outlier_2023_frame_prepared df stats out :
  has_column df "Rent_Inc" = true ->
  add_outlier_2023 df stats = Ok out -> frame outlier_columns_2023 same df out.
Proof.
  unfold add_outlier_2023. intros Hh H. rewrite Hh in H. cbn [negb] in H.
  invert_binds H. inversion H. subst out. inversion E. subst x.
  split; [reflexivity|]. intros k Hk. unfold outlier_columns_2023 in Hk.
  split_mem Hk. skip_written. rewrite option_map_same. reflexivity.
Qed.

End StageFrames.

Section JoinFrames.

Lemma add_increases_has_rent_inc df out :
  add_increases df = Ok out -> has_column out "Rent_Inc" = true.
Proof.
  unfold add_increases. intros H. invert_binds H. inversion H. subst out.
  rewrite has_column_replace_inf, !has_column_setitem. str_eqb. reflexivity.
Qed.

Lemma frame_compose w1 w2 f df mid out :
  frame w1 f df mid -> frame w2 same mid out -> frame (w1 ++ w2) f df out.
Proof.
  intros [N1 F1] [N2 F2]. split; [congruence|].
  intros k Hk. unfold mem in Hk. rewrite existsb_app in Hk.
  apply orb_false_elim in Hk. destruct Hk as [K1 K2].
  rewrite (F2 k K2), option_map_same. apply F1. exact K1.
Qed.

Lemma add_outlier_2022_frame df stats out :
  add_outlier_2022 df stats = Ok out ->
  if has_column df "Rent_Inc"
  then frame outlier_columns_2022 same df out
  else frame (increase_columns ++ outlier_columns_2022) v_replace_inf df out.
Proof.
  intros H. destruct (has_column df "Rent_Inc") eqn:Hh.
  - eapply add_outlier_2022_frame_prepared; eassumption.
  - pose proof H as H'. unfold add_outlier_2022 in H'. rewrite Hh in H'.
    cbn [negb] in H'. apply bind_ok in H'. destruct H' as (df1 & E1 & _).
    pose proof (add_increases_has_rent_inc df df1 E1) as Hh1.
    rewrite (add_outlier_2022_prepared df df1 stats) in H
      by (rewrite ?Hh; cbn [negb]; assumption).
    eapply frame_compose.
    + apply add_increases_frame. exact E1.
    + eapply add_outlier_2022_frame_prepared; eassumption.
Qed.

Lemma add_outlier_2023_frame df stats out :
  add_outlier_2023 df stats = Ok out ->
  if has_column df "Rent_Inc"
  then frame outlier_columns_2023 same df out
  else frame (increase_columns ++ outlier_columns_2023) v_replace_inf df out.
Proof.
  intros H. destruct (has_column df "Rent_Inc") eqn:Hh.
  - eapply add_outlier_2023_frame_prepared; eassumption.
  - pose proof H as H'. unfold add_outlier_2023 in H'. rewrite Hh in H'.
    cbn [negb] in H'. apply bind_ok in H'. destruct H' as (df1 & E1 & _).
    pose proof (add_increases_has_rent_inc df df1 E1) as Hh1.
    rewrite (add_outlier_2023_prepared df df1 stats) in H
      by (rewrite ?Hh; cbn [negb]; assumption).
    eapply frame_compose.
    + apply add_increases_frame. exact E1.
    + eapply add_outlier_2023_frame_prepared; eassumption.
Qed.

Lemma has_column_names df k : has_column df k = mem k (names (columns df)).
Proof.
  unfold has_column. destruct (lookup k (columns df)) eqn:E.
  - destruct (mem k (names (columns df))) eqn:M; [reflexivity|].
    apply lookup_names in M. congruence.
  - apply lookup_names in E. congruence.
Qed.

Lemma suffixed_absent sfx other cols :
  (forall c, In c cols -> mem (fst c) other = false) ->
  map (suffixed sfx other) cols = cols.
Proof.
  intros H. rewrite <- (map_id cols) at 2. apply map_ext_in.
  intros c Hc. unfold suffixed. rewrite (H c Hc). reflexivity.
Qed.

Lemma mem_names_in k cols c :
  mem k (names cols) = false -> In c cols -> String.eqb k (fst c) = false.
Proof.
  unfold mem, names. intros H Hc.
  destruct (String.eqb k (fst c)) eqn:E; [|reflexivity].
  assert (Hx : existsb (String.eqb k) (map fst cols) = true).
  { apply existsb_exists. exists (fst c). split; [|exact E].
    apply in_map. exact Hc. }
  congruence.
Qed.



Lemma sort_by_ward_ok parcels sorted :
  sort_by_ward parcels = Ok sorted ->
  sorted = sort_values parcels /\ parcels <> [].
Proof.
  unfold sort_by_ward. destruct parcels; [discriminate|].
  intros H. inversion H. split; [reflexivity|discriminate].
Qed.

(** Without a clash of names the merged frame is the lookup's columns
    followed by the columns of [df]. *)
Lemma merge_right_plain parcels df merged :
  no_lookup_names df = true ->
  merge_right parcels df = Ok merged ->
  exists ms,
    (exists keys, getitem df "PARCELNUMBER" = Ok keys
                  /\ mapM (match_key parcels) keys = Ok ms)
    /\ merged = {| nrows := nrows df;
                   columns := left_columns ms ++ columns df |}.
Proof.
  unfold no_lookup_names. intros Hn H.
  apply andb_prop in Hn. destruct Hn as [Hn H3].
  apply andb_prop in Hn. destruct Hn as [H1 H2].
  apply negb_true_iff in H1. apply negb_true_iff in H2.
  apply negb_true_iff in H3.
  rewrite has_column_names in H1, H2, H3.
  unfold merge_right in H. invert_binds H.
  exists x0. split; [eauto|].
  apply (f_equal (ok_or df)) in H. cbn [ok_or] in H. subst merged.
  f_equal. f_equal.
  - apply suffixed_absent. intros c Hc. unfold left_columns in Hc.
    destruct Hc as [<-|[<-|[<-|[]]]]; cbn [fst]; assumption.
  - apply suffixed_absent. intros c Hc. unfold left_columns.
    cbn [names map fst mem existsb].
    rewrite (String.eqb_sym (fst c)), (mem_names_in _ _ c H1 Hc).
    rewrite (String.eqb_sym (fst c)), (mem_names_in _ _ c H2 Hc).
    rewrite (String.eqb_sym (fst c)), (mem_names_in _ _ c H3 Hc).
    reflexivity.
Qed.

(** The steps of a join that returned. *)
Lemma join_ward_steps parcels df out :
  join_ward parcels df = Ok out ->
  parcels <> []
  /\ exists merged w x,
       merge_right (drop_duplicates (sort_values parcels)) df = Ok merged
       /\ getitem (rename "Ward_GIS" "WARD" merged) "WARD" = Ok w
       /\ (if (count_named "WARD" (rename "Ward_GIS" "WARD" merged) =? 1)%nat
           then mapM v_format_0f w else Raise TypeError) = Ok x
       /\ out = setitem (rename "Ward_GIS" "WARD" merged) "WARD_str" x.
Proof.
  unfold join_ward. intros H.
  apply bind_ok in H. destruct H as (sorted & Es & H).
  apply sort_by_ward_ok in Es. destruct Es as [-> Hne].
  cbv beta zeta in H.
  apply bind_ok in H. destruct H as (merged & Em & H). cbv beta zeta in H.
  apply bind_ok in H. destruct H as (w & Ew & H).
  apply bind_ok in H. destruct H as (x & Ex & H). inversion H.
  split; [exact Hne|]. exists merged, w, x. auto.
Qed.

Lemma join_ward_rows parcels df out :
  join_ward parcels df = Ok out -> nrows out = nrows df.
Proof.
  intros H. destruct (join_ward_steps _ _ _ H) as (_ & merged & w & x & E & _ & _ & ->).
  unfold merge_right in E. invert_binds E. inversion E. subst merged.
  reflexivity.
Qed.


Lemma mapM_nth {A B} (f : A -> result B) l r i a :
  mapM f l = Ok r -> nth_error l i = Some a ->
  exists b, f a = Ok b /\ nth_error r i = Some b.
Proof.
  revert r i. induction l as [|x l IH]; intros r i H Hn.
  - destruct i; discriminate.
  - cbn [mapM] in H. apply bind_ok in H. destruct H as (b & Eb & H).
    apply bind_ok in H. destruct H as (bs & Ebs & H). inversion H. subst r.
    destruct i as [|i]; cbn [nth_error] in *.
    + inversion Hn. subst x. eauto.
    + apply (IH bs i Ebs Hn).
Qed.



Lemma add_ward_raises df : add_ward df = Raise (AttributeError "read_file").
Proof. reflexivity. Qed.

Lemma add_ward_geo_join env df out :
  add_ward_geo env df = Ok out ->
  exists parcels,
    street_list_geojson env = Some parcels /\ join_ward parcels df = Ok out.
Proof.
  unfold add_ward_geo. destruct (geopandas_installed env); cbn [negb].
  - unfold gpd_read_file. destruct (street_list_geojson env) as [parcels|];
      cbn [bind]; [eauto|discriminate].
  - rewrite add_ward_raises. discriminate.
Qed.

End JoinFrames.

Section JoinReturns.





End JoinReturns.

Section StageReturns.




Lemma add_outlier_2022_returns df stats :
  outlier_input df = true -> returns (add_outlier_2022 df stats) = true.
Proof.
  intros H. destruct (outlier_prepare df H) as (df1 & Hprep & Hh & Hr & _).
  unfold rates_table in Hr.
  repeat (apply andb_prop in Hr; destruct Hr as [Hr ?Hc]).
  destruct (number_column_spec _ _ Hr) as (cur & Lc & Nc & _).
  destruct (number_column_spec _ _ Hc1) as (base & Lb & Nb & _).
  destruct (number_column_spec _ _ Hc0) as (pb & Lpb & Npb & _).
  destruct (number_column_spec _ _ Hc) as (pp & Lpp & Npp & _).
  rewrite (add_outlier_2022_prepared df df1 stats Hprep Hh).
  rewrite (add_outlier_2022_eq df1 stats cur base pb pp) by assumption.
  reflexivity.
Qed.

Lemma add_outlier_2023_returns df stats :
  outlier_input df = true -> returns (add_outlier_2023 df stats) = true.
Proof.
  intros H. destruct (outlier_prepare df H) as (df1 & Hprep & Hh & Hr & _).
  unfold rates_table in Hr.
  repeat (apply andb_prop in Hr; destruct Hr as [Hr ?Hc]).
  destruct (number_column_spec _ _ Hr) as (cur & Lc & Nc & _).
  destruct (number_column_spec _ _ Hc) as (pp & Lpp & Npp & _).
  rewrite (add_outlier_2023_prepared df df1 stats Hprep Hh).
  rewrite (add_outlier_2023_eq df1 stats cur pp) by assumption.
  reflexivity.
Qed.

End StageReturns.




Section EntryPoint.

Lemma get_data_on_split env df m ward geo :
  get_data_on env df m ward geo
  = (t <- table_on env df m ward geo ;; subset_stats t ;;; Ok t).
Proof.
  unfold get_data_on, table_on.
  repeat match goal with
    | |- bind ?m _ = bind (bind ?m _) _ => destruct m; cbn [bind]; [|reflexivity]
    end.
  reflexivity.
Qed.

Lemma get_data_split env file m ward geo :
  get_data env file m ward geo
  = (df <- get_data_table env file m ward geo ;; subset_stats df ;;; Ok df).
Proof.
  unfold get_data, get_data_table.
  destruct (match file with Some rows => read_csv rows | None => Raise FileNotFoundError end)
    as [df|]; cbn [bind]; [|reflexivity].
  apply get_data_on_split.
Qed.

Lemma table_on_steps env df m ward geo :
  table_on env df m ward geo
  = (lic <- getitem df "LICENSENUMBER" ;;
     lic <- mapM v_astype_str lic ;;
     unit_no <- getitem df "unitNumber1" ;;
     unit_no <- mapM v_astype_str unit_no ;;
     id <- zipM (v_concat "-") lic unit_no ;;
     let df := setitem df "ID" id in
     df <- add_exempt df false ;;
     df <- add_increases df ;;
     df <- group_bedrooms df ;;
     df <- policy_step m df ;;
     df <- ward_step env ward geo df ;;
     Ok (setitem_scalar df "Count" (VInt 1))).
Proof. reflexivity. Qed.






Lemma mem_app k a b : mem k (a ++ b) = mem k a || mem k b.
Proof. unfold mem. apply existsb_app. Qed.


End EntryPoint.

Section ParsedFile.

Lemma mapM_length {A B} (f : A -> result B) l r :
  mapM f l = Ok r -> List.length r = List.length l.
Proof.
  revert r. induction l as [|a l IH]; intros r H.
  - inversion H. reflexivity.
  - cbn [mapM] in H. apply bind_ok in H. destruct H as (b & _ & H).
    apply bind_ok in H. destruct H as (bs & Ebs & H). inversion H.
    cbn [List.length]. rewrite (IH bs Ebs). reflexivity.
Qed.

Lemma mapM_forall {A B} (f : A -> result B) (P : B -> Prop) l r :
  (forall a b, f a = Ok b -> P b) -> mapM f l = Ok r -> Forall P r.
Proof.
  intros Hf. revert r. induction l as [|a l IH]; intros r H.
  - inversion H. constructor.
  - cbn [mapM] in H. apply bind_ok in H. destruct H as (b & Eb & H).
    apply bind_ok in H. destruct H as (bs & Ebs & H). inversion H.
    constructor; [eapply Hf; eassumption|apply IH; assumption].
Qed.

Lemma numeric_column_ok ns s :
  numeric_column ns = Ok s ->
  s = if existsb is_pyfloat ns
      then map (fun n => VFloat (pynum_float n)) ns
      else map (fun n => match n with PyInt z => VInt z | PyFloat f => VFloat f end)
               ns.
Proof.
  unfold numeric_column. destruct (scan_numbers ns); cbn [bind]; [|discriminate].
  intros H. inversion H. reflexivity.
Qed.

Lemma numeric_column_numbers ns s : numeric_column ns = Ok s -> Forall number s.
Proof.
  intros H. rewrite (numeric_column_ok ns s H).
  destruct (existsb is_pyfloat ns); apply Forall_map;
    apply Forall_forall; intros n _; [reflexivity|destruct n; reflexivity].
Qed.

Lemma numeric_column_length ns s :
  numeric_column ns = Ok s -> List.length s = List.length ns.
Proof.
  intros H. rewrite (numeric_column_ok ns s H).
  destruct (existsb is_pyfloat ns); apply length_map.
Qed.

Lemma numeric_column_ints ns s :
  Forall (fun n => is_pyfloat n = false) ns ->
  numeric_column ns = Ok s -> Forall integer s.
Proof.
  intros H Hs. rewrite (numeric_column_ok ns s Hs).
  replace (existsb is_pyfloat ns) with false.
  - apply Forall_map. eapply Forall_impl; [|exact H].
    intros n Hn. destruct n; [exact I|discriminate].
  - symmetry. apply not_true_is_false. intros E. apply existsb_exists in E.
    destruct E as (n & Hin & Hn). rewrite Forall_forall in H.
    rewrite (H n Hin) in Hn. discriminate.
Qed.

Lemma int0_is_int x n : int0 x = Ok n -> is_pyfloat n = false.
Proof.
  unfold int0. destruct (py_int x) as [z|e]; [|destruct e]; intros H;
    inversion H; reflexivity.
Qed.

(** What each converter makes of a column of text. *)
Lemma convert_column_typed c cells s :
  convert_column c cells = Ok s ->
  List.length s = List.length cells
  /\ match c with
     | conv_str => Forall text_cell s
     | conv_int0 => Forall integer s
     | _ => Forall number s
     end.
Proof.
  destruct c; cbn [convert_column]; intros H.
  - apply bind_ok in H. destruct H as (zs & E & H).
    split; [|eapply numeric_column_numbers; eassumption].
    rewrite (numeric_column_length _ _ H), length_map.
    eapply mapM_length; eassumption.
  - inversion H. split; [apply length_map|].
    apply Forall_map. apply Forall_forall. intros; exact I.
  - apply bind_ok in H. destruct H as (ns & E & H).
    split; [|eapply numeric_column_numbers; eassumption].
    rewrite (numeric_column_length _ _ H). eapply mapM_length; eassumption.
  - apply bind_ok in H. destruct H as (ns & E & H).
    split; [rewrite (numeric_column_length _ _ H); eapply mapM_length; eassumption|].
    eapply numeric_column_ints; [|exact H]. eapply mapM_forall; [|exact E].
    intros a b. apply int0_is_int.
  - apply bind_ok in H. destruct H as (ns & E & H).
    split; [|eapply numeric_column_numbers; eassumption].
    rewrite (numeric_column_length _ _ H). eapply mapM_length; eassumption.
Qed.

Lemma read_lookup (rows : csv) l cols k :
  mapM (fun jc : nat * (string * converter) =>
          s <- convert_column (snd (snd jc))
                 (map (fun r => nth (fst jc) r "") rows) ;;
          Ok (fst (snd jc), s)) l = Ok cols ->
  match find (fun jc : nat * (string * converter) => String.eqb (fst (snd jc)) k) l with
  | Some jc =>
      exists s,
        convert_column (snd (snd jc)) (map (fun r => nth (fst jc) r "") rows) = Ok s
        /\ lookup k cols = Some s
  | None => lookup k cols = None
  end.
Proof.
  revert cols. induction l as [|a l IH]; intros cols H.
  - inversion H. reflexivity.
  - cbn [mapM] in H. apply bind_ok in H. destruct H as (b & Eb & H).
    apply bind_ok in H. destruct H as (bs & Ebs & H). inversion H. subst cols.
    apply bind_ok in Eb. destruct Eb as (s & Es & Eb). inversion Eb. subst b.
    cbn [find lookup]. destruct (String.eqb (fst (snd a)) k).
    + exists s. split; [exact Es|reflexivity].
    + apply IH. exact Ebs.
Qed.

(** Column [k] of a file that was read, for the [j]-th key of [converters]. *)
Lemma read_csv_column rows df k j c :
  read_csv rows = Ok df ->
  find (fun jc : nat * (string * converter) => String.eqb (fst (snd jc)) k)
       (combine (seq 0 (List.length converters)) converters) = Some (j, (k, c)) ->
  exists s,
    lookup k (columns df) = Some s
    /\ List.length s = nrows df
    /\ match c with
       | conv_str => Forall text_cell s
       | conv_int0 => Forall integer s
       | _ => Forall number s
       end.
Proof.
  unfold read_csv. destruct (forallb _ rows); [|discriminate].
  intros H Hf. apply bind_ok in H. destruct H as (cols & E & H).
  inversion H. subst df. cbn [columns nrows].
  pose proof (read_lookup rows _ cols k E) as Hl. rewrite Hf in Hl.
  destruct Hl as (s & Hs & Hl). cbn [fst snd] in Hs.
  destruct (convert_column_typed c _ s Hs) as [Hlen Hty].
  exists s. split; [exact Hl|]. split; [|exact Hty].
  rewrite Hlen. apply length_map.
Qed.

Lemma astype_str_text v : text_cell v -> returns (v_astype_str v) = true.
Proof. destruct v; cbn; intros; try contradiction; reflexivity. Qed.

Lemma astype_str_is_text v : text_cell v -> text_cell (ok_or (VStr "") (v_astype_str v)).
Proof. destruct v; cbn; intros; try contradiction; exact I. Qed.

Lemma concat_text sep a b : text_cell a -> text_cell b -> returns (v_concat sep a b) = true.
Proof. destruct a, b; cbn; intros; try contradiction; reflexivity. Qed.

Lemma replace_inf_integer v : integer v -> integer (v_replace_inf v).
Proof. destruct v; cbn; intros; try contradiction; exact I. Qed.

End ParsedFile.

(** ** The entry point, step by step *)

Section Pipeline.

Lemma read_csv_nrows rows df : read_csv rows = Ok df -> nrows df = List.length rows.
Proof.
  unfold read_csv. destruct (forallb _ rows); [|discriminate].
  intros H. apply bind_ok in H. destruct H as (cols & _ & H).
  inversion H. reflexivity.
Qed.

Lemma zipM_forall {A B C} (f : A -> B -> result C) (P : C -> Prop) l r c :
  (forall a b x, f a b = Ok x -> P x) -> zipM f l r = Ok c -> Forall P c.
Proof.
  intros Hf. revert r c. induction l as [|a l IH]; intros [|b r] c H;
    try (inversion H; constructor).
  cbn [zipM] in H. apply bind_ok in H. destruct H as (x & Ex & H).
  apply bind_ok in H. destruct H as (xs & Exs & H). inversion H.
  constructor; [eapply Hf; eassumption|eapply IH; eassumption].
Qed.

Lemma or_is_boolean a b x : v_or a b = Ok x -> boolean x.
Proof. destruct a, b; cbn; intros H; inversion H; exact I. Qed.

Lemma and_is_boolean a b x : v_and a b = Ok x -> boolean x.
Proof. destruct a, b; cbn; intros H; inversion H; exact I. Qed.

Lemma all_bool_spec s : all_bool s = true <-> Forall boolean s.
Proof.
  unfold all_bool. rewrite forallb_forall, Forall_forall.
  split; intros H v Hv; specialize (H v Hv); destruct v;
    try discriminate; try contradiction; auto; exact I.
Qed.

Lemma bool_column_intro df k s :
  lookup k (columns df) = Some s -> Forall boolean s -> bool_column df k = true.
Proof. intros L H. unfold bool_column. rewrite L. apply all_bool_spec. exact H. Qed.

Lemma lookup_setitem_same df k s : lookup k (columns (setitem df k s)) = Some s.
Proof. cbn [setitem columns]. rewrite lookup_assign, String.eqb_refl. reflexivity. Qed.

(** Every classifier ends by writing a boolean column [outlier]. *)
Lemma add_outlier_2022_writes_outlier df stats out :
  add_outlier_2022 df stats = Ok out -> bool_column out "outlier" = true.
Proof.
  unfold add_outlier_2022. intros H. invert_binds H. inversion H.
  eapply bool_column_intro; [apply lookup_setitem_same|].
  eapply zipM_forall; [|eassumption]. apply or_is_boolean.
Qed.

Lemma add_outlier_2023_writes_outlier df stats out :
  add_outlier_2023 df stats = Ok out -> bool_column out "outlier" = true.
Proof.
  unfold add_outlier_2023. intros H. invert_binds H. inversion H.
  eapply bool_column_intro; [apply lookup_setitem_same|].
  eapply zipM_forall; [|eassumption]. apply or_is_boolean.
Qed.

Lemma number_column_frame w df out k :
  frame w same df out -> mem k w = false ->
  number_column out k = number_column df k.
Proof.
  intros [Hn Hf] Hk. unfold number_column.
  rewrite (Hf k Hk), option_map_same, Hn. reflexivity.
Qed.

Lemma bool_column_frame w df out k :
  frame w same df out -> mem k w = false ->
  bool_column out k = bool_column df k.
Proof.
  intros [Hn Hf] Hk. unfold bool_column.
  rewrite (Hf k Hk), option_map_same. reflexivity.
Qed.

Lemma replace_inf_boolean v : boolean v -> boolean (v_replace_inf v).
Proof. destruct v; cbn; intros; try contradiction; exact I. Qed.

Lemma bool_column_clean w df out k :
  frame w v_replace_inf df out -> mem k w = false ->
  bool_column df k = true -> bool_column out k = true.
Proof.
  intros [Hn Hf] Hk. unfold bool_column. rewrite (Hf k Hk).
  destruct (lookup k (columns df)) as [s|]; [|discriminate].
  cbn [option_map]. rewrite !all_bool_spec. intros H.
  apply Forall_map. eapply Forall_impl; [|exact H]. apply replace_inf_boolean.
Qed.

Lemma not_boolean v : boolean v -> returns (v_not v) = true.
Proof. destruct v; cbn; intros; try contradiction; reflexivity. Qed.

Lemma not_boolean_is_boolean v : boolean v -> boolean (ok_or (VStr "") (v_not v)).
Proof. destruct v; cbn; intros; try contradiction; exact I. Qed.

Lemma invert_bool o :
  all_bool o = true -> exists m, invert o = Ok m /\ all_bool m = true.
Proof.
  intros H. unfold invert. rewrite H. apply all_bool_spec in H.
  rewrite (mapM_ok_forall boolean v_not o H not_boolean).
  eexists. split; [reflexivity|]. apply all_bool_spec.
  eapply Forall_map1; [exact H|]. apply not_boolean_is_boolean.
Qed.

Lemma select_bool df m : all_bool m = true -> select df m = Ok tt.
Proof. intros H. unfold select. rewrite H. reflexivity. Qed.

(** The report returns on the tables that are [reportable]. *)
Lemma subset_stats_returns df :
  reportable df = true -> subset_stats df = Ok tt.
Proof.
  unfold reportable. intros H.
  repeat (apply andb_prop in H; destruct H as [H ?Hc]).
  apply negb_true_iff in Hc1.
  unfold bool_column in H, Hc.
  destruct (lookup "outlier" (columns df)) as [o|] eqn:Lo; [|discriminate].
  destruct (lookup "exempt" (columns df)) as [e|] eqn:Le; [|discriminate].
  destruct (number_column_spec _ _ Hc0) as (inc & Li & Ni & _).
  destruct (invert_bool o H) as (m & Em & Bm).
  unfold subset_stats.
  rewrite (getitem_lookup _ _ _ Lo). cbn [bind].
  rewrite Em. cbn [bind]. rewrite (select_bool df m Bm). cbn [bind].
  rewrite Hc1. cbn [bind].
  rewrite (getitem_lookup _ _ _ Li). cbn [bind].
  rewrite (mapM_ok_forall number (v_cmp n_gt 0) inc) by auto using cmp_number.
  cbn [bind].
  rewrite select_bool by (apply all_bool_spec; apply Forall_cmp; exact Ni).
  cbn [bind].
  rewrite (getitem_lookup _ _ _ Le). cbn [bind].
  rewrite (select_bool df e Hc). reflexivity.
Qed.

Lemma subset_stats_nonempty df : subset_stats df = Ok tt -> nrows df <> 0%nat.
Proof.
  unfold subset_stats. intros H.
  destruct (nrows df =? 0)%nat eqn:Hz; [|apply Nat.eqb_neq; exact Hz].
  destruct (getitem df "outlier") as [o|]; [|discriminate].
  cbn [bind] in H. destruct (invert o) as [m|]; [|discriminate].
  cbn [bind] in H. destruct (select df m) as [[]|]; discriminate.
Qed.

Lemma get_data_table_steps env file m ward geo :
  get_data_table env file m ward geo
  = (df <- match file with
           | Some rows => read_csv rows
           | None => Raise FileNotFoundError
           end ;;
     lic <- getitem df "LICENSENUMBER" ;;
     lic <- mapM v_astype_str lic ;;
     unit_no <- getitem df "unitNumber1" ;;
     unit_no <- mapM v_astype_str unit_no ;;
     id <- zipM (v_concat "-") lic unit_no ;;
     let df := setitem df "ID" id in
     df <- add_exempt df false ;;
     df <- add_increases df ;;
     df <- group_bedrooms df ;;
     df <- policy_step m df ;;
     df <- ward_step env ward geo df ;;
     Ok (setitem_scalar df "Count" (VInt 1))).
Proof. reflexivity. Qed.

Lemma policy_step_rows m df out : policy_step m df = Ok out -> nrows out = nrows df.
Proof.
  unfold policy_step. intros H.
  destruct (String.eqb m "2022").
  - pose proof (add_outlier_2022_frame _ _ _ H) as F.
    destruct (has_column df "Rent_Inc"); apply F.
  - destruct (String.eqb m "2023").
    + pose proof (add_outlier_2023_frame _ _ _ H) as F.
      destruct (has_column df "Rent_Inc"); apply F.
    + inversion H. reflexivity.
Qed.

Lemma ward_step_rows env ward geo df out :
  ward_step env ward geo df = Ok out ->
  nrows out = nrows df /\ (geo = false -> ward = false /\ out = df).
Proof.
  unfold ward_step. intros H. destruct geo.
  - destruct (add_ward_geo_join _ _ _ H) as (parcels & _ & Hj).
    split; [eapply join_ward_rows; eassumption|discriminate].
  - destruct ward.
    + rewrite add_ward_raises in H. discriminate.
    + inversion H. auto.
Qed.

Lemma get_data_table_rows env file m ward geo df :
  get_data_table env file m ward geo = Ok df ->
  exists rows,
    file = Some rows /\ returns (read_csv rows) = true
    /\ nrows df = List.length rows
    /\ (geo = false -> ward = false).
Proof.
  rewrite get_data_table_steps. intros H. invert_binds H.
  destruct file as [rows|]; [|discriminate].
  exists rows. split; [reflexivity|]. split; [rewrite E; reflexivity|].
  inversion H. subst df. cbn [setitem_scalar setitem nrows].
  destruct (ward_step_rows _ _ _ _ _ E9) as [N9 W9].
  rewrite N9, (policy_step_rows _ _ _ E8).
  rewrite (proj1 (group_bedrooms_frame _ _ E7)).
  rewrite (proj1 (add_increases_frame _ _ E6)).
  rewrite (proj1 (add_exempt_frame _ _ _ E5)).
  cbn [setitem nrows]. split; [apply read_csv_nrows; exact E|].
  intros G. apply (W9 G).
Qed.

End Pipeline.

Section Staged.

Lemma dtype_column_spec df k p :
  dtype_column df k p = true ->
  exists s, lookup k (columns df) = Some s /\ p s = true
            /\ List.length s = nrows df.
Proof.
  unfold dtype_column. destruct (lookup k (columns df)) as [s|]; [|discriminate].
  intros H. apply andb_prop in H. destruct H as [Hp Hl].
  apply Nat.eqb_eq in Hl. eauto.
Qed.

Lemma all_str_text s : all_str s = true -> Forall text_cell s.
Proof.
  unfold all_str. rewrite forallb_forall, Forall_forall. intros H v Hv.
  specialize (H v Hv). destruct v; try discriminate; exact I.
Qed.

Lemma all_int64_integer s : all_int64 s = true -> Forall integer s.
Proof.
  unfold all_int64. rewrite forallb_forall, Forall_forall. intros H v Hv.
  specialize (H v Hv). destruct v; try discriminate; exact I.
Qed.

Lemma all_float_number s : all_float s = true -> Forall number s.
Proof.
  unfold all_float. rewrite forallb_forall, Forall_forall. intros H v Hv.
  specialize (H v Hv). destruct v; try discriminate; reflexivity.
Qed.

Lemma numeric_dtype_number s : numeric_dtype s = true -> Forall number s.
Proof.
  unfold numeric_dtype. intros H. apply orb_prop in H. destruct H as [H|H].
  - eapply Forall_impl; [apply integer_number|apply all_int64_integer; exact H].
  - apply all_float_number. exact H.
Qed.

(** What [add_increases] hands over has the columns a classifier reads. *)
Lemma add_increases_rates df out :
  rent_table df = true -> add_increases df = Ok out ->
  rates_table out = true /\ number_column out "Rent_Inc" = true.
Proof.
  intros H A. unfold rent_table in H.
  repeat (apply andb_prop in H; destruct H as [H ?Hc]).
  destruct (number_column_spec _ _ H) as (cur & Lc & Nc & Ec).
  destruct (number_column_spec _ _ Hc1) as (base & Lb & Nb & Eb).
  destruct (number_column_spec _ _ Hc0) as (prev & Lp & Np & Ep).
  destruct (number_column_spec _ _ Hc) as (bed & Ld & Nd & Ed).
  rewrite (add_increases_eq df cur base prev bed) in A by assumption.
  inversion A. subst out. clear A.
  assert (Nib : Forall number (zip2 v_sub cur base))
    by (eapply Forall_zip2; eauto using sub_is_number).
  assert (Ni : Forall number (zip2 v_sub cur prev))
    by (eapply Forall_zip2; eauto using sub_is_number).
  split.
  - unfold rates_table.
    rewrite !number_column_replace_inf; [reflexivity| | | |];
      unfold with_increases; rewrite !number_column_setitem; str_eqb;
      cbn [setitem nrows]; try assumption.
    + apply number_series; [apply Forall_percent; assumption|].
      rewrite length_map1, !length_zip2; rewrite ?length_zip2; congruence.
    + apply number_series; [apply Forall_percent; assumption|].
      rewrite length_map1, !length_zip2; rewrite ?length_zip2; congruence.
  - apply number_column_replace_inf. unfold with_increases.
    rewrite !number_column_setitem. str_eqb. cbn [setitem nrows].
    apply number_series; [exact Ni|].
    rewrite length_zip2 by congruence. exact Ec.
Qed.

(** A table of the reader's kinds always passes the three fixed stages, and
    what they hand to the policy step has the rent changes and the exemption
    flag. *)
Lemma table_on_staged df0 :
  pipeline_input df0 = true ->
  exists S,
    (forall env m ward geo,
        table_on env df0 m ward geo
        = (df <- policy_step m S ;;
           df <- ward_step env ward geo df ;;
           Ok (setitem_scalar df "Count" (VInt 1))))
    /\ nrows S = nrows df0
    /\ has_column S "Rent_Inc" = true
    /\ rates_table S = true
    /\ number_column S "Rent_Inc" = true
    /\ bool_column S "exempt" = true.
Proof.
  unfold pipeline_input. intros H.
  repeat (apply andb_prop in H; destruct H as [H ?Hc]).
  destruct (dtype_column_spec _ _ _ H) as (lic & Llic & Tlic & _).
  destruct (dtype_column_spec _ _ _ Hc4) as (un & Lun & Tun & _).
  destruct (dtype_column_spec _ _ _ Hc3) as (desc & Ldesc & _ & _).
  destruct (dtype_column_spec _ _ _ Hc2) as (base & Lbase & Nbase & Ebase).
  destruct (dtype_column_spec _ _ _ Hc1) as (prev & Lprev & Nprev & Eprev).
  destruct (dtype_column_spec _ _ _ Hc0) as (cur & Lcur & Ncur & Ecur).
  destruct (dtype_column_spec _ _ _ Hc) as (bed & Lbed & Ibed & Ebed).
  apply all_str_text in Tlic. apply all_str_text in Tun.
  apply numeric_dtype_number in Nbase. apply numeric_dtype_number in Nprev.
  apply numeric_dtype_number in Ncur. apply all_int64_integer in Ibed.
  assert (Nbed : Forall number bed)
    by (eapply Forall_impl; [|exact Ibed]; apply integer_number).
  set (idc := zip2 (v_concat "-") (map1 v_astype_str lic) (map1 v_astype_str un)).
  set (ex := zip2 v_and (map (v_ne_str NONE_OF_THE_ABOVE) desc)
                        (map (v_ne_str NOTHING_SELECTED) desc)).
  set (df1 := setitem (setitem df0 "ID" idc) "exempt" ex).
  set (df2 := replace_inf (with_increases df1 cur base prev bed)).
  set (S := with_bedroom_groups df2 (map v_replace_inf bed)).
  assert (A1 : add_exempt (setitem df0 "ID" idc) false = Ok df1).
  { apply add_exempt_eq. rewrite lookup_setitem_other by reflexivity. exact Ldesc. }
  assert (L1 : forall k, String.eqb k "exempt" = false -> String.eqb k "ID" = false ->
                 lookup k (columns df1) = lookup k (columns df0)).
  { intros k K1 K2. unfold df1. rewrite !lookup_setitem_other by assumption.
    reflexivity. }
  assert (A2 : add_increases df1 = Ok df2).
  { apply add_increases_eq; try assumption; rewrite L1 by reflexivity; assumption. }
  assert (A3 : group_bedrooms df2 = Ok S).
  { apply group_bedrooms_eq.
    - unfold df2. rewrite replace_inf_lookup. unfold with_increases.
      rewrite !lookup_setitem_other by reflexivity.
      rewrite L1 by reflexivity. rewrite Lbed. reflexivity.
    - apply Forall_map. eapply Forall_impl; [|exact Ibed].
      intros v. apply replace_inf_integer. }
  pose proof (add_increases_frame _ _ A2) as F2.
  pose proof (group_bedrooms_frame _ _ A3) as F3.
  assert (N1 : forall k s, String.eqb k "exempt" = false -> String.eqb k "ID" = false ->
                 lookup k (columns df0) = Some s -> Forall number s ->
                 List.length s = nrows df0 -> number_column df1 k = true).
  { intros k s K1 K2 L N E. apply (number_column_intro df1 k s); [|exact N|exact E].
    rewrite L1 by assumption. exact L. }
  assert (R1 : rent_table df1 = true).
  { unfold rent_table.
    rewrite (N1 "CurrentRent1" cur eq_refl eq_refl Lcur Ncur Ecur).
    rewrite (N1 "BaseRent1" base eq_refl eq_refl Lbase Nbase Ebase).
    rewrite (N1 "PreviousRent" prev eq_refl eq_refl Lprev Nprev Eprev).
    rewrite (N1 "nbrBedRms1" bed eq_refl eq_refl Lbed Nbed Ebed). reflexivity. }
  destruct (add_increases_rates df1 df2 R1 A2) as [R2 I2].
  assert (B1 : bool_column df1 "exempt" = true).
  { apply (bool_column_intro df1 "exempt" ex); [apply lookup_setitem_same|].
    unfold ex. eapply Forall_zip2; eauto using Forall_ne_str, and_boolean. }
  exists S. split.
  { intros env m ward geo. rewrite table_on_steps.
    rewrite (getitem_lookup _ _ _ Llic). cbn [bind].
    rewrite (mapM_ok_forall text_cell v_astype_str lic Tlic astype_str_text).
    cbn [bind].
    rewrite (getitem_lookup _ _ _ Lun). cbn [bind].
    rewrite (mapM_ok_forall text_cell v_astype_str un Tun astype_str_text).
    cbn [bind].
    rewrite (zipM_ok_forall text_cell text_cell (v_concat "-"))
      by (try (eapply Forall_map1; eauto using astype_str_is_text);
          intros; apply concat_text; assumption).
    cbn [bind]. fold idc. rewrite A1. cbn [bind]. rewrite A2. cbn [bind].
    rewrite A3. reflexivity. }
  split; [reflexivity|].
  split; [rewrite (frame_has_column _ _ _ _ "Rent_Inc" F3 eq_refl);
          apply (add_increases_has_rent_inc _ _ A2)|].
  split.
  { unfold rates_table in *. rewrite !(number_column_frame _ _ _ _ F3) by reflexivity.
    exact R2. }
  split; [rewrite (number_column_frame _ _ _ _ F3) by reflexivity; exact I2|].
  rewrite (bool_column_frame _ _ _ _ F3) by reflexivity.
  apply (bool_column_clean _ _ _ _ F2); [reflexivity|exact B1].
Qed.

Lemma reportable_count df c :
  reportable (setitem_scalar df "Count" c) = reportable df.
Proof.
  unfold reportable, setitem_scalar, bool_column.
  rewrite number_column_setitem. str_eqb.
  rewrite !lookup_setitem_other by reflexivity. reflexivity.
Qed.

Lemma policy_step_reportable m df :
  m = "2022" \/ m = "2023" ->
  has_column df "Rent_Inc" = true -> rates_table df = true ->
  number_column df "Rent_Inc" = true -> bool_column df "exempt" = true ->
  nrows df <> 0%nat ->
  exists out, policy_step m df = Ok out /\ reportable out = true
              /\ nrows out = nrows df.
Proof.
  intros Hm Hh Hr Hi Hb Hn.
  assert (Hin : outlier_input df = true) by (unfold outlier_input; rewrite Hh; exact Hr).
  unfold policy_step. destruct Hm as [-> | ->]; str_eqb.
  - pose proof (add_outlier_2022_returns df true Hin) as Hret.
    destruct (add_outlier_2022 df true) as [o|e] eqn:E; [|discriminate].
    pose proof (add_outlier_2022_frame_prepared df true o Hh E) as F.
    exists o. split; [reflexivity|]. split; [|apply F].
    unfold reportable.
    rewrite (add_outlier_2022_writes_outlier df true o E).
    rewrite (number_column_frame _ _ _ _ F) by reflexivity.
    rewrite (bool_column_frame _ _ _ _ F) by reflexivity.
    rewrite Hi, Hb, (proj1 F). apply Nat.eqb_neq in Hn. rewrite Hn. reflexivity.
  - pose proof (add_outlier_2023_returns df true Hin) as Hret.
    destruct (add_outlier_2023 df true) as [o|e] eqn:E; [|discriminate].
    pose proof (add_outlier_2023_frame_prepared df true o Hh E) as F.
    exists o. split; [reflexivity|]. split; [|apply F].
    unfold reportable.
    rewrite (add_outlier_2023_writes_outlier df true o E).
    rewrite (number_column_frame _ _ _ _ F) by reflexivity.
    rewrite (bool_column_frame _ _ _ _ F) by reflexivity.
    rewrite Hi, Hb, (proj1 F). apply Nat.eqb_neq in Hn. rewrite Hn. reflexivity.
Qed.

Lemma policy_step_returns m df :
  has_column df "Rent_Inc" = true -> rates_table df = true ->
  returns (policy_step m df) = true.
Proof.
  intros Hh Hr.
  assert (Hin : outlier_input df = true) by (unfold outlier_input; rewrite Hh; exact Hr).
  unfold policy_step. destruct (String.eqb m "2022");
    [apply add_outlier_2022_returns; exact Hin|].
  destruct (String.eqb m "2023"); [apply add_outlier_2023_returns; exact Hin|].
  reflexivity.
Qed.


End Staged.




(* ================================================================= *)
(** * More of the code *)

(** ** [int0] *)

Section IntText.

(** [int] on a non-empty run of digits: its value, unless the run is longer
    than the limit. *)
Lemma int_of_ascii_digits t :
  t <> [] -> forallb is_digit t = true ->
  int_of_ascii t
  = if (List.length t <=? max_str_digits)%nat
    then Ok (decimal_value t) else Raise ValueError.
Proof.
  intros Hne H. unfold int_of_ascii. rewrite (strip_digits t H).
  destruct t as [|c t]; [congruence|].
  assert (Hc : is_digit c = true)
    by (cbn [forallb] in H; apply andb_prop in H; tauto).
  rewrite (take_sign_digit c t Hc).
  rewrite (drop_underscores_digits (c :: t) None H eq_refl), H. reflexivity.
Qed.

(** The same behind one sign. *)
Lemma int_of_ascii_signed sg t :
  sg = "-"%char \/ sg = "+"%char ->
  t <> [] -> forallb is_digit t = true ->
  int_of_ascii (sg :: t)
  = if (List.length t <=? max_str_digits)%nat
    then Ok (if Ascii.eqb sg "-" then - decimal_value t else decimal_value t)
    else Raise ValueError.
Proof.
  intros Hsg Hne H. unfold int_of_ascii.
  assert (Hstrip : strip (sg :: t) = sg :: t).
  { unfold strip.
    assert (Hl : lstrip (sg :: t) = sg :: t)
      by (destruct Hsg; subst sg; reflexivity).
    rewrite Hl.
    assert (Hr : lstrip (rev (sg :: t)) = rev (sg :: t)).
    { cbn [rev]. destruct (rev t) as [|d r] eqn:Er.
      - destruct Hsg; subst sg; reflexivity.
      - cbn [app lstrip].
        assert (Hd : is_digit d = true).
        { assert (Hrev : forallb is_digit (rev t) = true)
            by (rewrite forallb_rev; exact H).
          rewrite Er in Hrev. cbn [forallb] in Hrev.
          apply andb_prop in Hrev. tauto. }
        rewrite (digit_not_space d Hd). reflexivity. }
    rewrite Hr. apply rev_involutive. }
  rewrite Hstrip.
  assert (Hts : take_sign (sg :: t) = (Ascii.eqb sg "-", t))
    by (destruct Hsg; subst sg; reflexivity).
  rewrite Hts. rewrite (drop_underscores_digits t None H eq_refl).
  destruct t as [|c t]; [congruence|]. rewrite H. reflexivity.
Qed.

Lemma py_int_ascii t :
  is_ascii t = true -> py_int (string_of_list_ascii t) = int_of_ascii t.
Proof.
  intros H. unfold py_int. rewrite list_ascii_of_string_of_list_ascii, H.
  reflexivity.
Qed.

Lemma sign_ascii sg t :
  sg = "-"%char \/ sg = "+"%char -> is_ascii t = true -> is_ascii (sg :: t) = true.
Proof. intros [->| ->] H; unfold is_ascii in *; cbn [forallb]; rewrite H; reflexivity. Qed.

(** On ASCII text [int] returns or raises [ValueError]. *)
Lemma int_of_ascii_outcome s :
  (exists z, int_of_ascii s = Ok z) \/ int_of_ascii s = Raise ValueError.
Proof.
  unfold int_of_ascii. destruct (take_sign (strip s)) as [neg body].
  destruct (drop_underscores None body) as [[|c ds]|]; auto.
  destruct (forallb is_digit (c :: ds)); auto.
  destruct (List.length (c :: ds) <=? max_str_digits)%nat; eauto.
Qed.

(** What [int0] makes of the outcome of [int]. *)
Lemma int0_outcome x :
  if is_ascii (list_ascii_of_string x)
  then match int_of_ascii (list_ascii_of_string x) with
       | Ok z => int0 x = Ok (PyInt z)
       | Raise _ => int0 x = Ok (PyInt 0)
       end
  else exists what, int0 x = Raise (NotModelled what).
Proof.
  unfold int0, py_int.
  destruct (is_ascii (list_ascii_of_string x)); cbv beta iota zeta; [|eauto].
  destruct (int_of_ascii_outcome (list_ascii_of_string x)) as [[z ->]| ->];
    reflexivity.
Qed.

Lemma in_lstrip c s : In c s -> is_space c = false -> In c (lstrip s).
Proof.
  induction s as [|d s IH]; [tauto|]. cbn [lstrip]. intros Hin Hc.
  destruct (is_space d) eqn:E; [|exact Hin].
  destruct Hin as [->|Hin]; [congruence|]. apply IH; assumption.
Qed.

Lemma in_strip c s : In c s -> is_space c = false -> In c (strip s).
Proof.
  intros Hin Hc. unfold strip. apply -> in_rev.
  apply in_lstrip; [|exact Hc]. apply -> in_rev.
  apply in_lstrip; assumption.
Qed.

Lemma in_take_sign c s :
  In c s -> Ascii.eqb c "-" = false -> Ascii.eqb c "+" = false ->
  In c (snd (take_sign s)).
Proof.
  destruct s as [|d s]; [tauto|]. cbn [take_sign]. intros Hin Hm Hp.
  destruct (Ascii.eqb d "-") eqn:E1.
  - apply Ascii.eqb_eq in E1. subst d. destruct Hin as [<-|Hin]; [|exact Hin].
    rewrite Ascii.eqb_refl in Hm. discriminate.
  - destruct (Ascii.eqb d "+") eqn:E2; [|exact Hin].
    apply Ascii.eqb_eq in E2. subst d. destruct Hin as [<-|Hin]; [|exact Hin].
    rewrite Ascii.eqb_refl in Hp. discriminate.
Qed.

Lemma in_drop_underscores c prev s r :
  drop_underscores prev s = Some r -> In c s -> Ascii.eqb c "_" = false -> In c r.
Proof.
  revert prev r. induction s as [|d s IH]; intros prev r H Hin Hc; [contradiction|].
  cbn [drop_underscores] in H. destruct (Ascii.eqb d "_") eqn:E.
  - apply Ascii.eqb_eq in E. subst d.
    destruct Hin as [<-|Hin]; [rewrite Ascii.eqb_refl in Hc; discriminate|].
    destruct prev as [p|]; [|discriminate].
    destruct (is_digit p); [|discriminate]. eapply IH; eassumption.
  - destruct (is_underscore prev && negb (is_digit d)); [discriminate|].
    destruct (drop_underscores (Some d) s) as [r'|] eqn:Er; [|discriminate].
    inversion H. subst r. destruct Hin as [<-|Hin]; [left; reflexivity|].
    right. eapply IH; eassumption.
Qed.

Lemma forallb_in_false {A} (p : A -> bool) l a :
  In a l -> p a = false -> forallb p l = false.
Proof.
  intros Hin Hp. destruct (forallb p l) eqn:E; [|reflexivity].
  rewrite forallb_forall in E. rewrite (E a Hin) in Hp. discriminate.
Qed.

Lemma int_of_ascii_foreign s c :
  In c s -> foreign_char c = true -> int_of_ascii s = Raise ValueError.
Proof.
  unfold foreign_char. intros Hin Hf.
  apply andb_prop in Hf. destruct Hf as [_ Hf]. apply negb_true_iff in Hf.
  repeat (apply orb_false_elim in Hf; destruct Hf as [Hf ?Hc]).
  unfold int_of_ascii.
  pose proof (in_strip c _ Hin Hc2) as Hs.
  pose proof (in_take_sign c _ Hs Hc0 Hc) as Ht.
  destruct (take_sign (strip s)) as [neg body].
  cbn [snd] in Ht.
  destruct (drop_underscores None body) as [[|d ds]|] eqn:Ed; try reflexivity.
  rewrite (forallb_in_false is_digit (d :: ds) c); [reflexivity| |exact Hf].
  eapply in_drop_underscores; eassumption.
Qed.

End IntText.

(** X1.  [int0] never raises: on ASCII text it returns an int, and text
    with a character that is not ASCII is the one case the model of [int]
    leaves open.  The int is the value of a text of digits, with its sign if
    it has one, as long as the digits are no more than [int] reads (4300);
    it is 0 for a longer run of digits and for every ASCII text that holds a
    printable character [int] has no use for, such as the point of "2.0" or
    the comma of "1,000". *)
Theorem int0_reads_digits_or_zero :
  (forall x, is_ascii (list_ascii_of_string x) = true ->
     exists z, int0 x = Ok (PyInt z))
  /\ (forall x e, int0 x = Raise e ->
        is_ascii (list_ascii_of_string x) = false
        /\ exists what, e = NotModelled what)
  /\ (forall t, t <> [] -> forallb is_digit t = true ->
        (List.length t <= max_str_digits)%nat ->
        int0 (string_of_list_ascii t) = Ok (PyInt (decimal_value t))
        /\ int0 (String "-" (string_of_list_ascii t)) = Ok (PyInt (- decimal_value t))
        /\ int0 (String "+" (string_of_list_ascii t)) = Ok (PyInt (decimal_value t)))
  /\ (forall t, forallb is_digit t = true ->
        (max_str_digits < List.length t)%nat ->
        int0 (string_of_list_ascii t) = Ok (PyInt 0))
  /\ (forall x c, is_ascii (list_ascii_of_string x) = true ->
        In c (list_ascii_of_string x) -> foreign_char c = true ->
        int0 x = Ok (PyInt 0)).
Proof.
  split; [|split; [|split; [|split]]].
  - intros x Ha. pose proof (int0_outcome x) as H. rewrite Ha in H.
    destruct (int_of_ascii (list_ascii_of_string x)); eauto.
  - intros x e He. pose proof (int0_outcome x) as H.
    destruct (is_ascii (list_ascii_of_string x)).
    + destruct (int_of_ascii (list_ascii_of_string x)); congruence.
    + split; [reflexivity|]. destruct H as [what H]. exists what. congruence.
  - intros t Hne H Hlen. apply Nat.leb_le in Hlen.
    assert (Ha : is_ascii t = true) by (apply digits_ascii; exact H).
    assert (Hplain : int0 (string_of_list_ascii t) = Ok (PyInt (decimal_value t))).
    { unfold int0. rewrite (py_int_ascii t Ha), (int_of_ascii_digits t Hne H), Hlen.
      reflexivity. }
    assert (Hsigned : forall sg, (sg = "-"%char \/ sg = "+"%char) ->
              int0 (String sg (string_of_list_ascii t))
              = Ok (PyInt (if Ascii.eqb sg "-" then - decimal_value t
                           else decimal_value t))).
    { intros sg Hsg. unfold int0.
      change (String sg (string_of_list_ascii t))
        with (string_of_list_ascii (sg :: t)).
      rewrite (py_int_ascii (sg :: t) (sign_ascii sg t Hsg Ha)).
      rewrite (int_of_ascii_signed sg t Hsg Hne H), Hlen. reflexivity. }
    split; [exact Hplain|]. split.
    + apply (Hsigned "-"%char). left. reflexivity.
    + apply (Hsigned "+"%char). right. reflexivity.
  - intros t H Hlen.
    assert (Hne : t <> []) by (intros ->; cbn in Hlen; lia).
    assert (Hlong : (List.length t <=? max_str_digits)%nat = false)
      by (apply Nat.leb_gt; exact Hlen).
    unfold int0.
    rewrite (py_int_ascii t (digits_ascii t H)), (int_of_ascii_digits t Hne H), Hlong.
    reflexivity.
  - intros x c Ha Hin Hf. pose proof (int0_outcome x) as H. rewrite Ha in H.
    rewrite (int_of_ascii_foreign _ c Hin Hf) in H. exact H.
Qed.

Lemma int0_reads_digits_or_zero_witness :
  int0 "12" = Ok (PyInt 12) /\ int0 "-3" = Ok (PyInt (-3))
  /\ int0 "2.0" = Ok (PyInt 0) /\ int0 "1,000" = Ok (PyInt 0).
Proof.
  destruct int0_reads_digits_or_zero as (_ & _ & Hd & _ & Hf).
  destruct (Hd (list_ascii_of_string "12")) as (H12 & _);
    [discriminate|reflexivity|cbn; unfold max_str_digits; lia|].
  destruct (Hd (list_ascii_of_string "3")) as (_ & H3 & _);
    [discriminate|reflexivity|cbn; unfold max_str_digits; lia|].
  split; [exact H12|]. split; [exact H3|]. split.
  - apply (Hf "2.0" "."%char); [reflexivity|cbn; tauto|reflexivity].
  - apply (Hf "1,000" ","%char); [reflexivity|cbn; tauto|reflexivity].
Defined.

(** X2.  A call of [get_data] that returns was given a file that parses and
    has at least one filing, and returns one row per filing; without the
    geometry option it was not asked for the ward. *)
Theorem get_data_returns_one_row_per_filing (env : environment)
    (file : option csv) (outlier_method : string) (ward geo : bool)
    (out : DataFrame) :
  get_data env file outlier_method ward geo = Ok out ->
  exists rows,
    file = Some rows
    /\ rows <> []
    /\ returns (read_csv rows) = true
    /\ nrows out = List.length rows
    /\ (geo = false -> ward = false).
Proof.
  rewrite get_data_split. intros H.
  apply bind_ok in H. destruct H as (df & Hdf & H).
  apply bind_ok in H. destruct H as ([] & Hs & H). inversion H. subst out.
  destruct (get_data_table_rows _ _ _ _ _ _ Hdf) as (rows & Hf & Hr & Hn & Hw).
  exists rows. repeat split; try assumption.
  intros ->. apply (subset_stats_nonempty df Hs). rewrite Hn. reflexivity.
Qed.

Lemma get_data_returns_one_row_per_filing_witness :
  exists out,
    get_data two_wards_env (Some sample_csv) "2023" false false = Ok out
    /\ nrows out = 1%nat.
Proof.
  destruct (get_data two_wards_env (Some sample_csv) "2023" false false)
    as [out|e] eqn:E; [|vm_compute in E; discriminate E].
  exists out. split; [reflexivity|].
  destruct (get_data_returns_one_row_per_filing _ _ _ _ _ _ E)
    as (rows & Hf & _ & _ & Hn & _).
  inversion Hf. subst rows. exact Hn.
Defined.

(** X3.  With the ward options off and one of the two policy names, the lines
    of [get_data] that follow the reading return for every table that has
    at least one row and the columns and kinds of cells the reader gives
    the data files: text in LICENSENUMBER, unitNumber1 and unitDesc2, int64
    or float cells in the three rent columns and int64 cells in nbrBedRms1.
    The table returned has a row per row read and the aggregate column. *)
Theorem get_data_returns_on_typed_table (env : environment) (df0 : DataFrame)
    (outlier_method : string) :
  pipeline_input df0 = true -> nrows df0 <> 0%nat ->
  outlier_method = "2022" \/ outlier_method = "2023" ->
  exists out,
    get_data_on env df0 outlier_method false false = Ok out
    /\ nrows out = nrows df0
    /\ bool_column out "outlier" = true.
Proof.
  intros Hin Hne Hm.
  destruct (table_on_staged df0 Hin) as (S & Heq & Hn & Hh & Hr & Hi & Hb).
  destruct (policy_step_reportable outlier_method S Hm Hh Hr Hi Hb)
    as (o & Hp & Hrep & Hno).
  { rewrite Hn. exact Hne. }
  exists (setitem_scalar o "Count" (VInt 1)).
  split; [|split].
  - rewrite get_data_on_split, Heq, Hp. cbn [bind ward_step].
    rewrite subset_stats_returns by (rewrite reportable_count; exact Hrep).
    reflexivity.
  - cbn [setitem_scalar setitem nrows]. congruence.
  - unfold reportable in Hrep.
    repeat (apply andb_prop in Hrep; destruct Hrep as [Hrep ?Hc]).
    unfold bool_column, setitem_scalar.
    rewrite lookup_setitem_other by reflexivity. exact Hrep.
Qed.

Lemma get_data_returns_on_typed_table_witness :
  pipeline_input filed_table = true
  /\ nrows filed_table <> 0%nat
  /\ exists out,
       get_data_on two_wards_env filed_table "2022" false false = Ok out
       /\ nrows out = 2%nat.
Proof.
  assert (Hin : pipeline_input filed_table = true) by (vm_compute; reflexivity).
  assert (Hne : nrows filed_table <> 0%nat) by discriminate.
  split; [exact Hin|]. split; [exact Hne|].
  destruct (get_data_returns_on_typed_table two_wards_env filed_table "2022"
              Hin Hne (or_introl eq_refl)) as (out & Hout & Hn & _).
  exists out. split; [exact Hout|exact Hn].
Defined.

(** X4.  Asking [get_data] for the ward without the geometry option never
    returns, whatever the file and the policy: [add_ward] reads its lookup
    with [pd.read_file], which pandas does not have. The same holds with the
    geometry option when geopandas is missing, since [add_ward_geo] then falls
    back on [add_ward]. On a table that has the columns and kinds of cells
    the reader gives the data files the call stops there, with that
    [AttributeError]. *)
Theorem get_data_ward_needs_geopandas (env : environment) (file : option csv)
    (outlier_method : string) :
  returns (get_data env file outlier_method true false) = false
  /\ (geopandas_installed env = false ->
      forall ward, returns (get_data env file outlier_method ward true) = false)
  /\ (forall df0, pipeline_input df0 = true ->
        get_data_on env df0 outlier_method true false
        = Raise (AttributeError "read_file")
        /\ (geopandas_installed env = false ->
            forall ward, get_data_on env df0 outlier_method ward true
                         = Raise (AttributeError "read_file"))).
Proof.
  assert (Hw : forall df, ward_step env true false df = Raise (AttributeError "read_file"))
    by reflexivity.
  assert (Hg : geopandas_installed env = false -> forall ward df,
            ward_step env ward true df = Raise (AttributeError "read_file")).
  { intros G ward df. unfold ward_step, add_ward_geo. rewrite G. reflexivity. }
  assert (Hnever : forall ward geo,
            (forall df, returns (ward_step env ward geo df) = false) ->
            returns (get_data env file outlier_method ward geo) = false).
  { intros ward geo Hs. rewrite get_data_split.
    destruct (get_data_table env file outlier_method ward geo) as [df|e] eqn:E;
      [|reflexivity].
    rewrite get_data_table_steps in E. invert_binds E.
    match goal with
    | Hstep : ward_step _ _ _ ?d = Ok _ |- _ =>
        specialize (Hs d); rewrite Hstep in Hs; discriminate
    end. }
  assert (Hstops : forall df0 ward geo, pipeline_input df0 = true ->
            (forall df, ward_step env ward geo df = Raise (AttributeError "read_file")) ->
            get_data_on env df0 outlier_method ward geo
            = Raise (AttributeError "read_file")).
  { intros df0 ward geo Hin Hs.
    destruct (table_on_staged df0 Hin) as (S & Heq & _ & Hh & Hr & _).
    rewrite get_data_on_split, Heq.
    pose proof (policy_step_returns outlier_method S Hh Hr) as Hp.
    destruct (policy_step outlier_method S) as [o|e]; [|discriminate].
    cbn [bind]. rewrite Hs. reflexivity. }
  split; [apply Hnever; intros df; rewrite Hw; reflexivity|].
  split.
  { intros G ward. apply Hnever. intros df. rewrite (Hg G). reflexivity. }
  intros df0 Hin. split; [apply (Hstops df0 true false Hin Hw)|].
  intros G ward. apply (Hstops df0 ward true Hin). intros df. apply (Hg G).
Qed.

Lemma get_data_ward_needs_geopandas_witness :
  pipeline_input filed_table = true
  /\ get_data_on two_wards_env filed_table "2023" true false
     = Raise (AttributeError "read_file").
Proof.
  assert (Hin : pipeline_input filed_table = true) by (vm_compute; reflexivity).
  split; [exact Hin|].
  exact (proj1 (proj2 (proj2 (get_data_ward_needs_geopandas two_wards_env None "2023"))
                  filed_table Hin)).
Defined.

(** ** Running a stage twice *)

Section Twice.

Lemma assign_twice k a b cols : assign k b (assign k a cols) = assign k b cols.
Proof.
  induction cols as [|[k0 s0] cols IH]; cbn [assign].
  - rewrite String.eqb_refl. reflexivity.
  - destruct (String.eqb k0 k) eqn:E; cbn [assign].
    + rewrite String.eqb_refl. reflexivity.
    + rewrite E, IH. reflexivity.
Qed.

Lemma assign_same k s cols : lookup k cols = Some s -> assign k s cols = cols.
Proof.
  induction cols as [|[k0 s0] cols IH]; cbn [lookup assign]; [discriminate|].
  destruct (String.eqb k0 k) eqn:E.
  - intros H. inversion H. apply String.eqb_eq in E. subst. reflexivity.
  - intros H. rewrite (IH H). reflexivity.
Qed.

Lemma setitem_twice df k a b : setitem (setitem df k a) k b = setitem df k b.
Proof. unfold setitem. cbn [nrows columns]. rewrite assign_twice. reflexivity. Qed.

Lemma setitem_same df k s : lookup k (columns df) = Some s -> setitem df k s = df.
Proof.
  intros H. destruct df as [n cols]. unfold setitem. cbn [nrows columns] in *.
  rewrite (assign_same k s cols H). reflexivity.
Qed.

(** Finds a column of a table built by a run of [setitem]. *)
Ltac find_column :=
  repeat first
    [ rewrite lookup_setitem_same
    | rewrite lookup_setitem_other by reflexivity ].

Lemma with_outliers_2022_twice df cur base pb pp :
  let out := with_outliers_2022 df cur base pb pp in
  with_outliers_2022 out cur base pb pp = out.
Proof.
  intros out. unfold with_outliers_2022 at 1.
  repeat (rewrite (setitem_same out);
          [|unfold out, with_outliers_2022; find_column; reflexivity]).
  reflexivity.
Qed.

Lemma with_outliers_2023_twice df cur pp :
  let out := with_outliers_2023 df cur pp in
  with_outliers_2023 out cur pp = out.
Proof.
  intros out. unfold with_outliers_2023 at 1.
  repeat (rewrite (setitem_same out);
          [|unfold out, with_outliers_2023; find_column; reflexivity]).
  reflexivity.
Qed.

Lemma with_bedroom_groups_twice df bed :
  let out := with_bedroom_groups df bed in
  with_bedroom_groups out bed = out.
Proof.
  intros out. unfold with_bedroom_groups at 1.
  rewrite (setitem_same out "nbrBedRms_studio")
    by (unfold out, with_bedroom_groups; find_column; reflexivity).
  rewrite !setitem_twice.
  apply setitem_same. unfold out, with_bedroom_groups. find_column. reflexivity.
Qed.

Lemma has_column_lookup df k s : lookup k (columns df) = Some s -> has_column df k = true.
Proof. unfold has_column. intros ->. reflexivity. Qed.

End Twice.

(** X5.  Running the exemption stage or the bedroom stage on its own result
    returns that result again: both read columns they do not write. *)
Theorem flag_stages_idempotent (df : DataFrame) (stats stats' : bool) :
  (has_column df "unitDesc2" = true ->
   exists out, add_exempt df stats = Ok out /\ add_exempt out stats' = Ok out)
  /\ (int_column df "nbrBedRms1" = true ->
      exists out, group_bedrooms df = Ok out /\ group_bedrooms out = Ok out).
Proof.
  split.
  - unfold has_column.
    destruct (lookup "unitDesc2" (columns df)) as [d|] eqn:L; [intros _|discriminate].
    eexists. split; [apply (add_exempt_eq df stats d L)|].
    rewrite (add_exempt_eq _ stats' d)
      by (rewrite lookup_setitem_other by reflexivity; exact L).
    rewrite setitem_twice. reflexivity.
  - intros H. destruct (int_column_spec _ _ H) as (bed & L & Hb).
    exists (with_bedroom_groups df bed).
    split; [apply group_bedrooms_eq; assumption|].
    rewrite (group_bedrooms_eq _ bed).
    + rewrite with_bedroom_groups_twice. reflexivity.
    + unfold with_bedroom_groups. rewrite !lookup_setitem_other by reflexivity.
      exact L.
    + exact Hb.
Qed.

Lemma flag_stages_idempotent_witness :
  has_column sample_table "unitDesc2" = true
  /\ int_column sample_table "nbrBedRms1" = true
  /\ (exists out, add_exempt sample_table false = Ok out
                  /\ add_exempt out true = Ok out)
  /\ (exists out, group_bedrooms sample_table = Ok out
                  /\ group_bedrooms out = Ok out).
Proof.
  split; [reflexivity|]. split; [reflexivity|].
  destruct (flag_stages_idempotent sample_table false true) as [He Hg].
  split; [apply He; reflexivity|apply Hg; reflexivity].
Defined.

(** X6.  Running a classifier on its own result returns that result again: the
    rent changes are found in place and the flags are recomputed from
    columns the classifier does not write. *)
Theorem classifiers_idempotent (df : DataFrame) (stats stats' : bool) :
  outlier_input df = true ->
  (exists out, add_outlier_2022 df stats = Ok out
               /\ add_outlier_2022 out stats' = Ok out)
  /\ (exists out, add_outlier_2023 df stats = Ok out
                  /\ add_outlier_2023 out stats' = Ok out).
Proof.
  intros H. destruct (outlier_prepare df H) as (df1 & Hprep & Hh & Hr & Hn).
  unfold rates_table in Hr.
  repeat (apply andb_prop in Hr; destruct Hr as [Hr ?Hc]).
  destruct (number_column_spec _ _ Hr) as (cur & Lc & Nc & _).
  destruct (number_column_spec _ _ Hc1) as (base & Lb & Nb & _).
  destruct (number_column_spec _ _ Hc0) as (pb & Lpb & Npb & _).
  destruct (number_column_spec _ _ Hc) as (pp & Lpp & Npp & _).
  unfold has_column in Hh.
  destruct (lookup "Rent_Inc" (columns df1)) as [inc|] eqn:Li; [|discriminate].
  split.
  - exists (with_outliers_2022 df1 cur base pb pp). split.
    + rewrite (add_outlier_2022_prepared df df1 stats Hprep)
        by (apply (has_column_lookup _ _ _ Li)).
      apply add_outlier_2022_eq; try assumption.
      apply (has_column_lookup _ _ _ Li).
    + rewrite (add_outlier_2022_eq _ stats' cur base pb pp); try assumption;
        try (unfold with_outliers_2022; rewrite !lookup_setitem_other by reflexivity;
             assumption).
      * rewrite with_outliers_2022_twice. reflexivity.
      * apply (has_column_lookup _ _ inc). unfold with_outliers_2022.
        rewrite !lookup_setitem_other by reflexivity. exact Li.
  - exists (with_outliers_2023 df1 cur pp). split.
    + rewrite (add_outlier_2023_prepared df df1 stats Hprep)
        by (apply (has_column_lookup _ _ _ Li)).
      apply add_outlier_2023_eq; try assumption.
      apply (has_column_lookup _ _ _ Li).
    + rewrite (add_outlier_2023_eq _ stats' cur pp); try assumption;
        try (unfold with_outliers_2023; rewrite !lookup_setitem_other by reflexivity;
             assumption).
      * rewrite with_outliers_2023_twice. reflexivity.
      * apply (has_column_lookup _ _ inc). unfold with_outliers_2023.
        rewrite !lookup_setitem_other by reflexivity. exact Li.
Qed.

Lemma classifiers_idempotent_witness :
  outlier_input sample_table = true
  /\ exists out, add_outlier_2023 sample_table true = Ok out
                 /\ add_outlier_2023 out false = Ok out.
Proof.
  split; [reflexivity|].
  apply (proj2 (classifiers_idempotent sample_table true false eq_refl)).
Defined.

(** ** The two policies on one table *)

Section Policies.

Ltac float_order f :=
  let s := fresh "s" in let m := fresh "m" in let ex := fresh "ex" in
  let H := fresh "H" in
  destruct f as [s|s| |s m ex]; try (destruct s);
  cbv [SFleb SFltb SFcompare];
  try (intros H; discriminate H); try (intros; exact eq_refl);
  repeat match goal with
  | |- context [Z.compare ?a ?b] => destruct (Z.compare_spec a b)
  end;
  try (intros H; discriminate H); try (intros; exact eq_refl); try lia;
  repeat match goal with
  | |- context [PosDef.Pos.compare_cont Eq ?a ?b] =>
      change (PosDef.Pos.compare_cont Eq a b) with (Pos.compare a b);
      destruct (Pos.compare_spec a b)
  end; cbn [CompOpp];
  try (intros H; discriminate H); try (intros; exact eq_refl); try lia.

Lemma leb_below_negative f m1 m2 e0 :
  (m2 <= m1)%positive ->
  SFleb f (S754_finite true m1 e0) = true -> SFleb f (S754_finite true m2 e0) = true.
Proof. intros Hm. float_order f. Qed.

Lemma leb_above_positive f m1 m2 e1 e2 :
  e2 < e1 ->
  SFleb (S754_finite false m1 e1) f = true -> SFleb (S754_finite false m2 e2) f = true.
Proof. intros Hm. float_order f. Qed.

Lemma leb_below_positive f m1 m2 e1 e2 :
  e1 < e2 ->
  SFleb f (S754_finite false m1 e1) = true -> SFleb f (S754_finite false m2 e2) = true.
Proof. intros Hm. float_order f. Qed.

(** A change of at most -15 percent is a change of at most -10 percent. *)
Lemma holds_le_m15_m10 v : holds n_le (-15) v = true -> holds n_le (-10) v = true.
Proof.
  unfold holds. destruct (num_of v) as [[z|f]|]; cbn [n_le]; [lia| |auto].
  unfold F64.leb. apply leb_below_negative.
  intros H. vm_compute in H. discriminate H.
Qed.

Lemma holds_ge_65_40 v : holds n_ge 65 v = true -> holds n_ge 40 v = true.
Proof.
  unfold holds. destruct (num_of v) as [[z|f]|]; cbn [n_ge]; [lia| |auto].
  unfold F64.leb. apply leb_above_positive. reflexivity.
Qed.

Lemma holds_ge_6500_4000 v : holds n_ge 6500 v = true -> holds n_ge 4000 v = true.
Proof.
  unfold holds. destruct (num_of v) as [[z|f]|]; cbn [n_ge]; [lia| |auto].
  unfold F64.leb. apply leb_above_positive. reflexivity.
Qed.

Lemma holds_le_100_250 v : holds n_le 100 v = true -> holds n_le 250 v = true.
Proof.
  unfold holds. destruct (num_of v) as [[z|f]|]; cbn [n_le]; [lia| |auto].
  unfold F64.leb. apply leb_below_positive. reflexivity.
Qed.

(** A rent of at most 100 is positive, or at most 0: it is not NaN. *)
Lemma holds_low_cases v :
  holds n_le 100 v = true -> holds n_gt 0 v = true \/ holds n_le 0 v = true.
Proof.
  unfold holds. destruct (num_of v) as [[z|f]|]; cbn [n_le n_gt]; [lia| |auto].
  unfold F64.leb, F64.ltb. change (F64.of_Z 0) with (S754_zero false).
  destruct f as [s|s| |s m e]; try (destruct s); cbv [SFleb SFltb SFcompare]; auto.
Qed.

(** Both classifiers work on the same table once the rent changes are there. *)
Lemma classifier_rows df s s' :
  outlier_input df = true ->
  exists df1 cur base pb pp,
    (if negb (has_column df "Rent_Inc") then add_increases df else Ok df) = Ok df1
    /\ nrows df1 = nrows df
    /\ (lookup "CurrentRent1" (columns df1) = Some cur
        /\ lookup "BaseRent1" (columns df1) = Some base
        /\ lookup "Rent_Inc_base_percent" (columns df1) = Some pb
        /\ lookup "Rent_Inc_percent" (columns df1) = Some pp)
    /\ (Forall number cur /\ Forall number pb /\ Forall number pp)
    /\ (List.length cur = nrows df1 /\ List.length base = nrows df1
        /\ List.length pb = nrows df1 /\ List.length pp = nrows df1)
    /\ add_outlier_2022 df s = Ok (with_outliers_2022 df1 cur base pb pp)
    /\ add_outlier_2023 df s' = Ok (with_outliers_2023 df1 cur pp).
Proof.
  intros H. destruct (outlier_prepare df H) as (df1 & Hprep & Hh & Hr & Hn).
  unfold rates_table in Hr.
  repeat (apply andb_prop in Hr; destruct Hr as [Hr ?Hc]).
  destruct (number_column_spec _ _ Hr) as (cur & Lc & Nc & Ec).
  destruct (number_column_spec _ _ Hc1) as (base & Lb & Nb & Eb).
  destruct (number_column_spec _ _ Hc0) as (pb & Lpb & Npb & Epb).
  destruct (number_column_spec _ _ Hc) as (pp & Lpp & Npp & Epp).
  exists df1, cur, base, pb, pp.
  repeat split; try assumption.
  - rewrite (add_outlier_2022_prepared df df1 s Hprep Hh).
    apply add_outlier_2022_eq; assumption.
  - rewrite (add_outlier_2023_prepared df df1 s' Hprep Hh).
    apply add_outlier_2023_eq; assumption.
Qed.

(** The percentages [add_increases] leaves where the denominator is zero. *)
Lemma add_increases_zero_denominator df out :
  rent_table df = true -> add_increases df = Ok out ->
  (forall i base, cell df "BaseRent1" i = Some base -> eq_int 0 base = true ->
     cell out "Rent_Inc_base_percent" i = Some (VFloat F64.nan))
  /\ (forall i prev, cell df "PreviousRent" i = Some prev -> eq_int 0 prev = true ->
        cell out "Rent_Inc_percent" i = Some (VFloat F64.nan)).
Proof.
  intros H Hout. unfold rent_table in H.
  repeat (apply andb_prop in H; destruct H as [H ?Hc]).
  destruct (number_column_spec _ _ H) as (cur & Lc & Nc & Ec).
  destruct (number_column_spec _ _ Hc1) as (base & Lb & Nb & Eb).
  destruct (number_column_spec _ _ Hc0) as (prev & Lp & Np & Ep).
  destruct (number_column_spec _ _ Hc) as (bed & Ld & Nd & Ed).
  rewrite (add_increases_eq df cur base prev bed) in Hout by assumption.
  apply (f_equal (ok_or df)) in Hout. cbn [ok_or] in Hout. subst out.
  split.
  - intros i b Hb Hz. rewrite (cell_lookup _ _ _ i Lb) in Hb.
    destruct (nth_error_same_length base cur i b) as [c Hcur];
      [congruence|assumption|].
    rewrite cell_replace_inf. unfold with_increases.
    rewrite !cell_setitem. str_eqb.
    rewrite nth_error_map1, !nth_error_zip2, Hcur, Hb. cbn [option_map].
    f_equal. apply percent_of_zero; eauto using nth_error_number.
  - intros i p Hp Hz. rewrite (cell_lookup _ _ _ i Lp) in Hp.
    destruct (nth_error_same_length prev cur i p) as [c Hcur];
      [congruence|assumption|].
    rewrite cell_replace_inf. unfold with_increases.
    rewrite !cell_setitem. str_eqb.
    rewrite nth_error_map1, !nth_error_zip2, Hcur, Hp. cbn [option_map].
    f_equal. apply percent_of_zero; eauto using nth_error_number.
Qed.

End Policies.

(** X7.  On one table the two policies classify each row on the same
    rent and percentage, those of the row in the table given (computed by
    [add_increases] when the rent changes are absent), and agree on the
    zero-rent flag; a row Policy B flags for its increase over the previous
    rent is flagged by Policy A too; a zero rent is a rent outlier under
    Policy A and never under Policy B; and a rent outlier of Policy A is one
    of Policy B unless the rent is zero or negative. *)
Theorem policies_compared (df : DataFrame) (stats stats' : bool) :
  outlier_input df = true ->
  exists a b,
    add_outlier_2022 df stats = Ok a
    /\ add_outlier_2023 df stats' = Ok b
    /\ forall i, (i < nrows df)%nat ->
       (exists cur base pct_base pct,
         classified df i cur base pct_base pct
         /\ (cell a "CurrentRent1" i = Some cur /\ cell b "CurrentRent1" i = Some cur)
         /\ let z := eq_int 0 cur in
            let ra := holds n_le 100 cur || holds n_ge 6500 cur in
            let rb := (holds n_gt 0 cur && holds n_le 250 cur)
                      || holds n_ge 4000 cur in
            let pa := holds n_le (-10) pct || holds n_ge 40 pct in
            let pb := holds n_le (-15) pct || holds n_ge 65 pct in
            (cell a "outlier_0_rent" i = Some (VBool z)
             /\ cell b "outlier_0_rent" i = Some (VBool z))
            /\ (cell a "outlier_rent" i = Some (VBool ra)
                /\ cell b "outlier_rent" i = Some (VBool rb))
            /\ (cell a "outlier_inc_prev" i = Some (VBool pa)
                /\ cell b "outlier_inc_prev" i = Some (VBool pb))
            /\ (pb = true -> pa = true)
            /\ (z = true -> ra = true /\ rb = false)
            /\ (ra = true -> rb = true \/ holds n_le 0 cur = true))
       /\ (forall rent,
             cell df "CurrentRent1" i = Some rent -> eq_int 0 rent = true ->
             (cell a "outlier_0_rent" i = Some (VBool true)
              /\ cell b "outlier_0_rent" i = Some (VBool true))
             /\ cell a "outlier_rent" i = Some (VBool true)
             /\ cell b "outlier_rent" i = Some (VBool false)).
Proof.
  intros H.
  destruct (classifier_rows df stats stats' H)
    as (df1 & cur & base & pb & pp & Hprep & Hn & (Lc & Lb & Lpb & Lpp)
        & (Nc & Npb & Npp) & (Ec & Eb & Epb & Epp) & Ha & Hb).
  exists (with_outliers_2022 df1 cur base pb pp), (with_outliers_2023 df1 cur pp).
  split; [exact Ha|]. split; [exact Hb|].
  intros i Hi.
  destruct (nth_error_in_range cur i) as [c Hc']; [congruence|].
  destruct (nth_error_in_range base i) as [ba Hba]; [congruence|].
  destruct (nth_error_in_range pb i) as [b' Hpb]; [congruence|].
  destruct (nth_error_in_range pp i) as [p' Hpp]; [congruence|].
  assert (Cn : number c) by eauto using nth_error_number.
  assert (PPn : number p') by eauto using nth_error_number.
  assert (Hcl : classified df i c ba b' p').
  { apply (prepared_cells df df1 i c ba b' p' H Hprep);
      [rewrite (cell_lookup _ _ _ i Lc)|rewrite (cell_lookup _ _ _ i Lb)
      |rewrite (cell_lookup _ _ _ i Lpb)|rewrite (cell_lookup _ _ _ i Lpp)];
      assumption. }
  split.
  - exists c, ba, b', p'. split; [exact Hcl|].
    unfold with_outliers_2022, with_outliers_2023. eval_cells.
    rewrite !(cell_lookup _ _ _ i Lc).
    rewrite Hc', Hpp. cbn [option_map].
    rewrite !cmp_holds by assumption. cbn [ok_or v_or v_and v_ne v_eq].
    repeat split; try reflexivity.
    + intros Hf. apply orb_true_intro. apply orb_prop in Hf. destruct Hf.
      * left. apply holds_le_m15_m10. assumption.
      * right. apply holds_ge_65_40. assumption.
    + apply orb_true_intro. left. apply zero_rent_is_low. assumption.
    + match goal with Hz : eq_int 0 c = true |- _ =>
        destruct (holds_zero c Hz) as [-> ->] end.
      reflexivity.
    + intros Hf. apply orb_prop in Hf. destruct Hf as [Hf|Hf].
      * destruct (holds_low_cases c Hf) as [Hp|Hp]; [left|right; exact Hp].
        rewrite Hp, (holds_le_100_250 c Hf). reflexivity.
      * left. rewrite (holds_ge_6500_4000 c Hf). apply orb_true_r.
  - intros rent Hrent Hz.
    pose proof (classified_zero df i c ba b' p' rent Hcl Hrent Hz) as Hz'.
    destruct (holds_zero c Hz') as [Hg Hh4].
    unfold with_outliers_2022, with_outliers_2023. eval_cells.
    rewrite Hc'. cbn [option_map].
    rewrite !cmp_holds by assumption. cbn [ok_or v_or v_and v_ne v_eq].
    unfold v_eq. rewrite Hz', Hg, Hh4, (zero_rent_is_low c Hz').
    repeat split; reflexivity.
Qed.

(** The second record of the sample was filed with a current rent of 0. *)
Lemma policies_compared_witness :
  outlier_input sample_table = true
  /\ cell sample_table "CurrentRent1" 1%nat = Some (VFloat (F64.of_Z 0))
  /\ exists a b, add_outlier_2022 sample_table false = Ok a
                 /\ add_outlier_2023 sample_table false = Ok b
                 /\ cell a "outlier_rent" 1%nat = Some (VBool true)
                 /\ cell b "outlier_rent" 1%nat = Some (VBool false).
Proof.
  split; [reflexivity|]. split; [reflexivity|].
  destruct (policies_compared sample_table false false eq_refl)
    as (a & b & Ha & Hb & Hrows).
  exists a, b. split; [exact Ha|]. split; [exact Hb|].
  exact (proj2 (proj2 (Hrows 1%nat (Nat.lt_succ_diag_r 1)) (VFloat (F64.of_Z 0))
                  eq_refl eq_refl)).
Defined.

(** X8.  A classifier that computes the rent changes itself never flags a row
    for an increase measured against a zero rent: the percentage over a zero
    previous rent is NaN after the cleanup, and no comparison holds of NaN;
    the same goes for Policy A's increase over a zero base rent. *)
Theorem zero_denominator_never_flagged (df : DataFrame) (stats stats' : bool) :
  rent_table df = true ->
  has_column df "Rent_Inc" = false ->
  exists a b,
    add_outlier_2022 df stats = Ok a
    /\ add_outlier_2023 df stats' = Ok b
    /\ (forall i prev,
          cell df "PreviousRent" i = Some prev -> eq_int 0 prev = true ->
          cell a "outlier_inc_prev" i = Some (VBool false)
          /\ cell b "outlier_inc_prev" i = Some (VBool false))
    /\ (forall i base,
          cell df "BaseRent1" i = Some base -> eq_int 0 base = true ->
          cell a "outlier_inc_base" i = Some (VBool false)).
Proof.
  intros Ht Hh.
  assert (H : outlier_input df = true) by (unfold outlier_input; rewrite Hh; exact Ht).
  destruct (classifier_rows df stats stats' H)
    as (df1 & cur & base & pb & pp & Hprep & Hn & (Lc & Lb & Lpb & Lpp)
        & (Nc & Npb & Npp) & (Ec & Eb & Epb & Epp) & Ha & Hb).
  rewrite Hh in Hprep. cbn [negb] in Hprep.
  destruct (add_increases_zero_denominator df df1 Ht Hprep) as [Zb Zp].
  exists (with_outliers_2022 df1 cur base pb pp), (with_outliers_2023 df1 cur pp).
  split; [exact Ha|]. split; [exact Hb|].
  split.
  - intros i prev Hp Hz. pose proof (Zp i prev Hp Hz) as Hnan.
    rewrite (cell_lookup _ _ _ i Lpp) in Hnan.
    unfold with_outliers_2022, with_outliers_2023. eval_cells.
    rewrite Hnan. cbn [option_map]. split; reflexivity.
  - intros i b0 Hb0 Hz. pose proof (Zb i b0 Hb0 Hz) as Hnan.
    rewrite (cell_lookup _ _ _ i Lpb) in Hnan.
    destruct (nth_error_same_length pb base i (VFloat F64.nan)) as [ba Hba];
      [congruence|exact Hnan|].
    unfold with_outliers_2022. eval_cells.
    rewrite Hnan, Hba. cbn [option_map]. reflexivity.
Qed.

Lemma zero_denominator_never_flagged_witness :
  rent_table sample_table = true
  /\ has_column sample_table "Rent_Inc" = false
  /\ cell sample_table "PreviousRent" 1%nat = Some (VFloat (F64.of_Z 0))
  /\ exists a, add_outlier_2022 sample_table false = Ok a
               /\ cell a "outlier_inc_prev" 1%nat = Some (VBool false).
Proof.
  split; [reflexivity|]. split; [reflexivity|]. split; [reflexivity|].
  destruct (zero_denominator_never_flagged sample_table false false eq_refl eq_refl)
    as (a & b & Ha & _ & Hp & _).
  exists a. split; [exact Ha|].
  exact (proj1 (Hp 1%nat (VFloat (F64.of_Z 0)) eq_refl eq_refl)).
Defined.

(** ** The ward a record is given *)

Section WardText.

(** [f"{x:.0f}"] of an int below 2^53 taken to float is the int's text. *)
Lemma format_0f_of_Z z : 0 <= z < 2 ^ 53 -> format_0f (F64.of_Z z) = str_of_Z z.
Proof.
  intros [H0 H1]. destruct z as [|p|p]; try lia; [reflexivity|].
  destruct (of_Z_small p H1) as (m & e & -> & He & Hm).
  unfold format_0f. cbn [F64.round_half_even F64.sign_bit].
  destruct e as [|q|q]; try lia.
  - change (- 0) with 0 in Hm. rewrite Z.pow_0_r, !Z.mul_1_r in *.
    rewrite Hm. reflexivity.
  - change (- Zneg q) with (Zpos q) in Hm.
    change (Z.pow_pos 2 q) with (2 ^ Zpos q).
    assert (Hd : 0 < 2 ^ Zpos q) by (apply Z.pow_pos_nonneg; lia).
    rewrite Hm. rewrite Z.mod_mul, Z.div_mul by lia.
    change (2 * 0) with 0.
    destruct (Z.compare_spec 0 (2 ^ Zpos q)); try lia. reflexivity.
Qed.

Lemma wards_cell df ms i m :
  nth_error ms i = Some m ->
  exists w,
    getitem (rename "Ward_GIS" "WARD"
               {| nrows := nrows df; columns := left_columns ms ++ columns df |})
            "WARD" = Ok w
    /\ exists c, nth_error w i = Some c
       /\ fl c = match m with Some p => F64.of_Z (Ward_GIS p) | None => F64.nan end
       /\ number c.
Proof.
  intros Hn. unfold getitem, rename, left_columns.
  cbn [columns map app fst snd]. str_eqb. cbn [lookup]. str_eqb.
  eexists. split; [reflexivity|].
  destruct (forallb is_some ms); rewrite nth_error_map, Hn; cbn [option_map];
    eexists; (split; [reflexivity|]); destruct m; split; reflexivity.
Qed.

Lemma getitem_cell df k s i : getitem df k = Ok s -> cell df k i = nth_error s i.
Proof.
  unfold getitem, cell. destruct (lookup k (columns df)); [|discriminate].
  intros H. inversion H. reflexivity.
Qed.

Lemma format_0f_number c :
  number c -> v_format_0f c = Ok (VStr (format_0f (fl c))).
Proof. unfold number. destruct c; intros; try discriminate; reflexivity. Qed.

(** The row kept for a parcel is a row of the lookup with the lowest ward. *)
Lemma kept_is_lowest parcels k p :
  find_parcel k (drop_duplicates (sort_values parcels)) = Some p ->
  In p parcels /\ IAS_PARCEL_ID p = k
  /\ forall q, In q parcels -> IAS_PARCEL_ID q = k -> Ward_GIS p <= Ward_GIS q.
Proof.
  intros Hf. apply find_parcel_in in Hf. destruct Hf as [Hin Hid].
  unfold drop_duplicates in Hin.
  split; [apply in_sort_values; apply (drop_dup_in p [] _ Hin)|].
  split; [exact Hid|].
  intros q Hq Hk.
  apply (drop_dup_first p [] (sort_values parcels)
           (sort_values_sorted parcels) Hin q); [|congruence].
  apply in_sort_values. exact Hq.
Qed.

End WardText.

(** X9.  In the geometry variant of the join, a record whose parcel is in the
    lookup is given the lowest ward listed for the parcel: the cell of [WARD]
    stands for that ward and [WARD_str] is its decimal text (for a ward from 0
    up to 2^53). A record without
    a match has the text [nan]. *)
Theorem ward_of_record (env : environment) (df out : DataFrame) :
  no_lookup_names df = true ->
  add_ward_geo env df = Ok out ->
  exists parcels,
    street_list_geojson env = Some parcels
    /\ forall i k, cell df "PARCELNUMBER" i = Some (VStr k) ->
       match find_parcel k (drop_duplicates (sort_values parcels)) with
       | Some p =>
           In p parcels /\ IAS_PARCEL_ID p = k
           /\ (forall q, In q parcels -> IAS_PARCEL_ID q = k ->
                 Ward_GIS p <= Ward_GIS q)
           /\ (exists w, cell out "WARD" i = Some w
                         /\ fl w = F64.of_Z (Ward_GIS p))
           /\ cell out "WARD_str" i
              = Some (VStr (format_0f (F64.of_Z (Ward_GIS p))))
           /\ (0 <= Ward_GIS p < 2 ^ 53 ->
               cell out "WARD_str" i = Some (VStr (str_of_Z (Ward_GIS p))))
       | None => cell out "WARD_str" i = Some (VStr "nan")
       end.
Proof.
  intros Hn H. destruct (add_ward_geo_join env df out H) as (parcels & Hp & Hj).
  exists parcels. split; [exact Hp|]. clear H Hp.
  intros i k Hk.
  destruct (join_ward_steps _ _ _ Hj) as (_ & merged & x0 & x1 & E & E0 & E1 & ->).
  destruct (merge_right_plain _ _ _ Hn E) as (ms & (keys & Gk & Em) & ->).
  unfold cell in Hk. unfold getitem in Gk.
  destruct (lookup "PARCELNUMBER" (columns df)) as [keys'|]; [|discriminate].
  inversion Gk. subst keys'.
  destruct (mapM_nth _ _ _ i _ Em Hk) as (m & Hm & Hnth).
  cbn [match_key] in Hm. inversion Hm as [Hm']. clear Hm.
  destruct (wards_cell df ms i m Hnth) as (w & Gw & c & Hc & Hfl & Hnum).
  rewrite Gw in E0. inversion E0. subst x0.
  destruct (count_named "WARD" _ =? 1)%nat; [|discriminate].
  destruct (mapM_nth _ _ _ i _ E1 Hc) as (t & Ht & Hx).
  rewrite (format_0f_number c Hnum) in Ht. inversion Ht. subst t.
  assert (Hs : cell (setitem (rename "Ward_GIS" "WARD"
                       {| nrows := nrows df;
                          columns := left_columns ms ++ columns df |})
                       "WARD_str" x1) "WARD_str" i
               = Some (VStr (format_0f (fl c)))).
  { rewrite cell_setitem. str_eqb. exact Hx. }
  rewrite Hm'. destruct m as [p|].
  - destruct (kept_is_lowest parcels k p Hm') as (Hin & Hid & Hlow).
    split; [exact Hin|]. split; [exact Hid|]. split; [exact Hlow|].
    split.
    { exists c. split; [|exact Hfl].
      rewrite cell_setitem. str_eqb. rewrite (getitem_cell _ _ _ i Gw). exact Hc. }
    rewrite Hs, Hfl. split; [reflexivity|].
    intros Hr. rewrite (format_0f_of_Z _ Hr). reflexivity.
  - rewrite Hs, Hfl. reflexivity.
Qed.

(** Parcel P1 is listed with wards 3 and 7: its record is given ward 3. *)
Lemma ward_of_record_witness :
  no_lookup_names sample_table = true
  /\ exists out,
       add_ward_geo two_wards_env sample_table = Ok out
       /\ cell out "WARD_str" 0%nat = Some (VStr "3")
       /\ cell out "WARD_str" 1%nat = Some (VStr "nan").
Proof.
  split; [reflexivity|].
  destruct (add_ward_geo two_wards_env sample_table) as [out|e] eqn:E;
    [|vm_compute in E; discriminate E].
  destruct (ward_of_record two_wards_env sample_table out eq_refl E)
    as (parcels & Hp & Hrows).
  inversion Hp. subst parcels.
  exists out. split; [reflexivity|]. split.
  - pose proof (Hrows 0%nat "P1" eq_refl) as H0.
    change (find_parcel "P1" (drop_duplicates (sort_values two_wards)))
      with (Some {| IAS_PARCEL_ID := "P1"; Ward_GIS := 3; geometry := "POINT (0 0)" |}) in H0.
    destruct H0 as (_ & _ & _ & _ & _ & H0).
    apply H0. cbn [Ward_GIS]. lia.
  - exact (Hrows 1%nat "P2" eq_refl).
Defined.

(** ** Running the rent-change stage twice *)

Section IncreasesTwice.

Lemma sub_wild_l x y : wild x -> wild (F64.sub x y).
Proof.
  unfold wild. intros [->|[s ->]]; [left; destruct y; reflexivity|].
  destruct y as [t|t| |t m e]; try destruct s; try destruct t; cbn; eauto.
Qed.

Lemma sub_wild_r x y : wild y -> wild (F64.sub x y).
Proof.
  unfold wild. intros [->|[s ->]]; [left; destruct x; reflexivity|].
  destruct x as [t|t| |t m e]; try destruct s; try destruct t; cbn; eauto.
Qed.

Lemma div_wild_l x y : wild x -> wild (F64.div x y).
Proof.
  unfold wild. intros [->|[s ->]]; [left; destruct y; reflexivity|].
  destruct y as [t|t| |t m e]; try destruct s; try destruct t; cbn; eauto.
Qed.

Lemma mul_wild_l x y : wild x -> y = F64.of_Z 100 -> wild (F64.mul x y).
Proof.
  unfold wild. intros [->|[s ->]] ->; [left; reflexivity|].
  right. cbn. eauto.
Qed.

Lemma clean_spoiled v : spoiled v -> v_replace_inf v = VFloat F64.nan.
Proof.
  intros (f & -> & [->|[s ->]]); [reflexivity|destruct s; reflexivity].
Qed.

Lemma clean_cases v :
  v_replace_inf v = v \/ (spoiled v /\ spoiled (v_replace_inf v)).
Proof.
  destruct v as [z|f|s|b|w|]; cbn [v_replace_inf]; auto.
  destruct (is_infinite f) eqn:E; [right|auto].
  apply is_infinite_spec in E. destruct E as [s ->].
  split; eexists; (split; [reflexivity|]); unfold wild; eauto.
Qed.

Lemma v_sub_spoiled_l c b :
  spoiled c -> number b -> spoiled (ok_or (VStr "") (v_sub c b)).
Proof.
  intros (f & -> & Hf) Nb. unfold number in Nb.
  destruct b; try discriminate; cbn; eexists; (split; [reflexivity|]);
    apply sub_wild_l; exact Hf.
Qed.

Lemma v_sub_spoiled_r c b :
  number c -> spoiled b -> spoiled (ok_or (VStr "") (v_sub c b)).
Proof.
  intros Nc (f & -> & Hf). unfold number in Nc.
  destruct c; try discriminate; cbn; eexists; (split; [reflexivity|]);
    apply sub_wild_r; exact Hf.
Qed.

Lemma v_div_spoiled_l c b :
  spoiled c -> number b -> spoiled (ok_or (VStr "") (v_div c b)).
Proof.
  intros (f & -> & Hf) Nb. unfold number in Nb.
  destruct b; try discriminate; cbn; eexists; (split; [reflexivity|]);
    apply div_wild_l; exact Hf.
Qed.

Lemma v_mul_spoiled c : spoiled c -> spoiled (ok_or (VStr "") (v_mul 100 c)).
Proof.
  intros (f & -> & Hf). cbn [v_mul num_of ok_or].
  eexists. split; [reflexivity|]. apply mul_wild_l; [exact Hf|reflexivity].
Qed.

Lemma spoiled_number v : spoiled v -> number v.
Proof. intros (f & -> & _). reflexivity. Qed.

(** The difference of two cells cleans to the same whether or not the two
    cells were cleaned first. *)
Lemma clean_sub c b :
  number c -> number b ->
  v_replace_inf (ok_or (VStr "") (v_sub (v_replace_inf c) (v_replace_inf b)))
  = v_replace_inf (ok_or (VStr "") (v_sub c b)).
Proof.
  intros Nc Nb.
  destruct (clean_cases c) as [->|[Sc Sc']].
  - destruct (clean_cases b) as [->|[Sb Sb']]; [reflexivity|].
    rewrite !clean_spoiled; auto using v_sub_spoiled_r.
  - rewrite !clean_spoiled; auto using v_sub_spoiled_l, replace_inf_number.
Qed.

Lemma clean_percent c b :
  number c -> number b ->
  v_replace_inf
    (ok_or (VStr "")
       (v_mul 100
          (ok_or (VStr "")
             (v_div (ok_or (VStr "") (v_sub (v_replace_inf c) (v_replace_inf b)))
                    (v_replace_inf b)))))
  = v_replace_inf
      (ok_or (VStr "")
         (v_mul 100 (ok_or (VStr "") (v_div (ok_or (VStr "") (v_sub c b)) b)))).
Proof.
  intros Nc Nb.
  destruct (clean_cases c) as [->|[Sc Sc']].
  - destruct (clean_cases b) as [->|[Sb Sb']]; [reflexivity|].
    rewrite !clean_spoiled;
      auto using v_mul_spoiled, v_div_spoiled_l, v_sub_spoiled_r, spoiled_number.
  - rewrite !clean_spoiled;
      auto using v_mul_spoiled, v_div_spoiled_l, v_sub_spoiled_l, replace_inf_number.
Qed.

Lemma clean_per_bedroom c p d :
  number c -> number p -> number d ->
  v_replace_inf
    (ok_or (VStr "")
       (v_div (ok_or (VStr "") (v_sub (v_replace_inf c) (v_replace_inf p))) d))
  = v_replace_inf (ok_or (VStr "") (v_div (ok_or (VStr "") (v_sub c p)) d)).
Proof.
  intros Nc Np Nd.
  destruct (clean_cases c) as [->|[Sc Sc']].
  - destruct (clean_cases p) as [->|[Sp Sp']]; [reflexivity|].
    rewrite !clean_spoiled; auto using v_div_spoiled_l, v_sub_spoiled_r.
  - rewrite !clean_spoiled;
      auto using v_div_spoiled_l, v_sub_spoiled_l, replace_inf_number.
Qed.

Lemma clean_rent_per_bedroom c d :
  number d ->
  v_replace_inf (ok_or (VStr "") (v_div (v_replace_inf c) d))
  = v_replace_inf (ok_or (VStr "") (v_div c d)).
Proof.
  intros Nd. destruct (clean_cases c) as [->|[Sc Sc']]; [reflexivity|].
  rewrite !clean_spoiled; auto using v_div_spoiled_l.
Qed.

Lemma clean_twice v : v_replace_inf (v_replace_inf v) = v_replace_inf v.
Proof.
  destruct v as [z|f|t|b|w|]; cbn [v_replace_inf]; try reflexivity.
  destruct (is_infinite f) eqn:E; cbn [v_replace_inf]; [reflexivity|].
  rewrite E. reflexivity.
Qed.

Lemma clean_integer v : integer v -> v_replace_inf v = v.
Proof. destruct v; cbn; intros; try contradiction; reflexivity. Qed.

Lemma map_clean_integers s : Forall integer s -> map v_replace_inf s = s.
Proof.
  induction 1 as [|v s Hv _ IH]; [reflexivity|].
  cbn [map]. rewrite (clean_integer v Hv), IH. reflexivity.
Qed.

Lemma replace_inf_setitem df k s :
  replace_inf (setitem df k s) = setitem (replace_inf df) k (map v_replace_inf s).
Proof.
  unfold replace_inf, setitem. cbn [nrows columns]. f_equal.
  induction (columns df) as [|[k0 s0] cols IH]; [reflexivity|].
  cbn [assign map fst snd]. destruct (String.eqb k0 k); cbn [map fst snd];
    [reflexivity|]. rewrite IH. reflexivity.
Qed.

Lemma replace_inf_twice df : replace_inf (replace_inf df) = replace_inf df.
Proof.
  unfold replace_inf. cbn [nrows columns]. f_equal. rewrite map_map.
  apply map_ext. intros [k s]. cbn [fst snd]. f_equal. rewrite map_map.
  apply map_ext. apply clean_twice.
Qed.

Lemma nth_number s i : Forall number s ->
  match nth_error s i with Some v => number v | None => True end.
Proof.
  intros H. destruct (nth_error s i) eqn:E; [|exact I].
  eapply nth_error_number; eassumption.
Qed.

(** Compares two series cell by cell. *)
Ltac by_cells i :=
  apply nth_error_ext; intros i;
  repeat (rewrite ?nth_error_map, ?nth_error_map1, ?nth_error_zip2).

Section Series.

Variables cur base prev den : Series.
Hypothesis Nc : Forall number cur.
Hypothesis Nb : Forall number base.
Hypothesis Np : Forall number prev.
Hypothesis Nd : Forall number den.

Lemma series_sub a b :
  Forall number a -> Forall number b ->
  map v_replace_inf (zip2 v_sub (map v_replace_inf a) (map v_replace_inf b)) = map v_replace_inf (zip2 v_sub a b).
Proof.
  intros Na Nb'. by_cells i.
  pose proof (nth_number a i Na). pose proof (nth_number b i Nb').
  destruct (nth_error a i), (nth_error b i); cbn [option_map]; try reflexivity.
  f_equal. apply clean_sub; assumption.
Qed.

Lemma series_percent a b :
  Forall number a -> Forall number b ->
  map v_replace_inf (map1 (v_mul 100)
               (zip2 v_div (zip2 v_sub (map v_replace_inf a) (map v_replace_inf b)) (map v_replace_inf b)))
  = map v_replace_inf (map1 (v_mul 100) (zip2 v_div (zip2 v_sub a b) b)).
Proof.
  intros Na Nb'. by_cells i.
  pose proof (nth_number a i Na). pose proof (nth_number b i Nb').
  destruct (nth_error a i), (nth_error b i); cbn [option_map]; try reflexivity.
  f_equal. apply clean_percent; assumption.
Qed.

Lemma series_per_bedroom :
  map v_replace_inf (zip2 v_div (zip2 v_sub (map v_replace_inf cur) (map v_replace_inf prev)) den)
  = map v_replace_inf (zip2 v_div (zip2 v_sub cur prev) den).
Proof.
  by_cells i.
  pose proof (nth_number cur i Nc). pose proof (nth_number prev i Np).
  pose proof (nth_number den i Nd).
  destruct (nth_error cur i), (nth_error prev i), (nth_error den i);
    cbn [option_map]; try reflexivity.
  f_equal. apply clean_per_bedroom; assumption.
Qed.

Lemma series_rent_per_bedroom :
  map v_replace_inf (zip2 v_div (map v_replace_inf cur) den) = map v_replace_inf (zip2 v_div cur den).
Proof.
  by_cells i. pose proof (nth_number den i Nd).
  destruct (nth_error cur i), (nth_error den i); cbn [option_map]; try reflexivity.
  f_equal. apply clean_rent_per_bedroom; assumption.
Qed.

End Series.

Lemma Forall_clean s : Forall number s -> Forall number (map v_replace_inf s).
Proof.
  intros H. apply Forall_map. eapply Forall_impl; [|exact H].
  intros a. apply replace_inf_number.
Qed.

Lemma lookup_cleaned_increases df cur base prev bed k s :
  mem k increase_columns = false ->
  lookup k (columns df) = Some s ->
  lookup k (columns (replace_inf (with_increases df cur base prev bed)))
  = Some (map v_replace_inf s).
Proof.
  intros Hk L. unfold mem, increase_columns in Hk. cbn [existsb] in Hk.
  repeat (apply orb_false_elim in Hk; destruct Hk as [?E Hk]).
  unfold replace_inf. cbn [columns]. rewrite lookup_map_snd.
  unfold with_increases.
  rewrite !lookup_setitem_other by assumption.
  rewrite L. reflexivity.
Qed.

Ltac find_column :=
  repeat first
    [ rewrite lookup_setitem_same
    | rewrite lookup_setitem_other by reflexivity ].

(** The table the stage returns is one the stage maps to itself. *)
Lemma with_increases_twice df cur base prev bed :
  Forall number cur -> Forall number base -> Forall number prev ->
  Forall integer bed ->
  let out := replace_inf (with_increases df cur base prev bed) in
  replace_inf
    (with_increases out (map v_replace_inf cur) (map v_replace_inf base)
       (map v_replace_inf prev) bed)
  = out.
Proof.
  intros Nc Nb Np Id out.
  assert (Nd : Forall number (map (v_replace_int 0 1) bed)).
  { apply Forall_map. eapply Forall_impl; [|exact Id].
    intros a Ha. destruct a; try contradiction. cbn [v_replace_int].
    destruct (z =? 0); reflexivity. }
  unfold with_increases at 1. rewrite !replace_inf_setitem.
  unfold out at 1. rewrite replace_inf_twice. fold out.
  rewrite (series_sub cur base Nc Nb), (series_percent cur base Nc Nb),
    (series_sub cur prev Nc Np), (series_percent cur prev Nc Np),
    (series_per_bedroom cur prev _ Nc Np Nd),
    (series_rent_per_bedroom cur _ Nd).
  repeat (rewrite (setitem_same out);
          [|unfold out, with_increases; rewrite !replace_inf_setitem;
            find_column; reflexivity]).
  reflexivity.
Qed.

End IncreasesTwice.

(** X11.  Running the rent-change stage on its own result returns that result
    again when the bedroom counts are ints, as the converter [int0] makes
    them: a cell the cleanup turned into NaN gives the NaN it gave as an
    infinity. *)
Theorem add_increases_idempotent (df : DataFrame) :
  rent_table df = true ->
  int_column df "nbrBedRms1" = true ->
  exists out, add_increases df = Ok out /\ add_increases out = Ok out.
Proof.
  intros H Hi. unfold rent_table in H.
  repeat (apply andb_prop in H; destruct H as [H ?Hc]).
  destruct (number_column_spec _ _ H) as (cur & Lc & Nc & Ec).
  destruct (number_column_spec _ _ Hc1) as (base & Lb & Nb & Eb).
  destruct (number_column_spec _ _ Hc0) as (prev & Lp & Np & Ep).
  destruct (number_column_spec _ _ Hc) as (bed & Ld & Nd & Ed).
  destruct (int_column_spec _ _ Hi) as (bed' & Ld' & Id).
  assert (bed' = bed) by congruence. subst bed'.
  exists (replace_inf (with_increases df cur base prev bed)).
  split; [apply add_increases_eq; assumption|].
  rewrite (add_increases_eq _ (map v_replace_inf cur) (map v_replace_inf base)
             (map v_replace_inf prev) bed);
    auto using Forall_clean.
  - rewrite with_increases_twice by assumption. reflexivity.
  - apply lookup_cleaned_increases; [reflexivity|exact Lc].
  - apply lookup_cleaned_increases; [reflexivity|exact Lb].
  - apply lookup_cleaned_increases; [reflexivity|exact Lp].
  - rewrite <- (map_clean_integers bed Id) at 2.
    apply lookup_cleaned_increases; [reflexivity|exact Ld].
Qed.

Lemma add_increases_idempotent_witness :
  rent_table sample_table = true
  /\ int_column sample_table "nbrBedRms1" = true
  /\ exists out, add_increases sample_table = Ok out
                 /\ add_increases out = Ok out.
Proof.
  split; [reflexivity|]. split; [reflexivity|].
  apply (add_increases_idempotent sample_table eq_refl eq_refl).
Defined.

(** ** The filings in the table of [get_data] *)

Section Filings.

Lemma frame_text w f df out k i t :
  frame w f df out -> f (VStr t) = VStr t -> mem k w = false ->
  cell df k i = Some (VStr t) -> cell out k i = Some (VStr t).
Proof.
  intros F Hf Hk Hc. rewrite (frame_cell _ _ _ _ k i F Hk), Hc.
  cbn [option_map]. rewrite Hf. reflexivity.
Qed.

Lemma mem_2023_in_2022 k :
  mem k outlier_columns_2022 = false -> mem k outlier_columns_2023 = false.
Proof.
  intros H. unfold outlier_columns_2022 in H. split_mem H.
  unfold mem, outlier_columns_2023. cbn [existsb].
  rewrite Ek, Ek0, Ek2, Ek3. reflexivity.
Qed.

Lemma policy_step_keeps_text m df out k i t :
  policy_step m df = Ok out ->
  mem k (increase_columns ++ outlier_columns_2022) = false ->
  cell df k i = Some (VStr t) -> cell out k i = Some (VStr t).
Proof.
  unfold policy_step. intros H Hk Hc.
  pose proof Hk as Hk'. rewrite mem_app in Hk'.
  apply orb_false_elim in Hk'. destruct Hk' as [Ki Ko].
  destruct (String.eqb m "2022").
  - pose proof (add_outlier_2022_frame _ _ _ H) as F.
    destruct (has_column df "Rent_Inc");
      eapply frame_text; try exact F; try exact Hc; try reflexivity; assumption.
  - destruct (String.eqb m "2023").
    + pose proof (add_outlier_2023_frame _ _ _ H) as F.
      destruct (has_column df "Rent_Inc");
        eapply frame_text; try exact F; try exact Hc; try reflexivity.
      * apply mem_2023_in_2022. exact Ko.
      * rewrite mem_app, Ki, (mem_2023_in_2022 k Ko). reflexivity.
    + inversion H. subst out. exact Hc.
Qed.

Lemma zipM_nth {A B C} (f : A -> B -> result C) l r c i a b :
  zipM f l r = Ok c -> nth_error l i = Some a -> nth_error r i = Some b ->
  exists x, f a b = Ok x /\ nth_error c i = Some x.
Proof.
  revert r c i. induction l as [|a0 l IH]; intros [|b0 r] c i H Ha Hb;
    try (destruct i; discriminate).
  cbn [zipM] in H. apply bind_ok in H. destruct H as (x & Ex & H).
  apply bind_ok in H. destruct H as (xs & Exs & H). inversion H. subst c.
  destruct i as [|i]; cbn [nth_error] in *.
  - inversion Ha. inversion Hb. subst. eauto.
  - apply (IH r xs i Exs Ha Hb).
Qed.

(** A column read with [str] holds the text of the file, row by row. *)
Lemma read_csv_text rows df j k i r :
  read_csv rows = Ok df ->
  find (fun jc : nat * (string * converter) => String.eqb (fst (snd jc)) k)
       (combine (seq 0 (List.length converters)) converters)
  = Some (j, (k, conv_str)) ->
  nth_error rows i = Some r ->
  cell df k i = Some (VStr (nth j r "")).
Proof.
  intros R Hf Hr. unfold read_csv in R.
  destruct (forallb _ rows); [|discriminate].
  apply bind_ok in R. destruct R as (cols & E & R). inversion R. subst df.
  pose proof (read_lookup rows _ cols k E) as L. rewrite Hf in L.
  destruct L as (s & Hs & L). cbn [fst snd convert_column] in Hs.
  inversion Hs. subst s.
  unfold cell. cbn [columns]. rewrite L.
  rewrite !nth_error_map, Hr. reflexivity.
Qed.

(** The steps after the identifier leave a text cell of another column
    alone. *)
Lemma steps_keep_text env m ward d0 out k i t :
  (d1 <- add_exempt d0 false ;;
   d2 <- add_increases d1 ;;
   d3 <- group_bedrooms d2 ;;
   d4 <- policy_step m d3 ;;
   d5 <- ward_step env ward false d4 ;;
   Ok (setitem_scalar d5 "Count" (VInt 1))) = Ok out ->
  mem k pipeline_columns = false ->
  cell d0 k i = Some (VStr t) ->
  cell out k i = Some (VStr t)
  /\ (i < nrows d0 -> cell out "Count" i = Some (VInt 1))%nat.
Proof.
  intros H Hk Hc. invert_binds H. inversion H. subst out. clear H.
  unfold pipeline_columns in Hk. rewrite !mem_app in Hk.
  apply orb_false_elim in Hk. destruct Hk as [Ke Hk].
  apply orb_false_elim in Hk. destruct Hk as [Ki Hk].
  apply orb_false_elim in Hk. destruct Hk as [Kb Hk].
  apply orb_false_elim in Hk. destruct Hk as [Ko Hk].
  match goal with
  | Hw : ward_step _ _ _ _ = Ok _ |- _ =>
      destruct (ward_step_rows _ _ _ _ _ Hw) as [_ Hw'];
      destruct (Hw' eq_refl) as [_ ->]; clear Hw Hw'
  end.
  pose proof (add_exempt_frame _ _ _ E) as F1.
  pose proof (add_increases_frame _ _ E0) as F2.
  pose proof (group_bedrooms_frame _ _ E1) as F3.
  assert (C1 : cell x k i = Some (VStr t))
    by (eapply frame_text; try exact F1; try exact Hc; try reflexivity; assumption).
  assert (C2 : cell x0 k i = Some (VStr t))
    by (eapply frame_text; try exact F2; try exact C1; try reflexivity; assumption).
  assert (C3 : cell x1 k i = Some (VStr t))
    by (eapply frame_text; try exact F3; try exact C2; try reflexivity; assumption).
  assert (C4 : cell x2 k i = Some (VStr t)).
  { eapply policy_step_keeps_text; try eassumption.
    rewrite mem_app. rewrite Ki, Ko. reflexivity. }
  split.
  - unfold setitem_scalar. rewrite cell_setitem.
    split_mem Hk. rewrite String.eqb_sym, Ek. exact C4.
  - intros Hi. unfold setitem_scalar. rewrite cell_setitem. str_eqb.
    rewrite (policy_step_rows _ _ _ E2), (proj1 F3), (proj1 F2), (proj1 F1).
    apply nth_error_repeat. exact Hi.
Qed.

End Filings.

(** X12.  The table [get_data] returns holds the filings of the file in the
    order of the file: in row [i] each column read as text holds the cell of
    the file's row [i], the identifier is the license number, a hyphen and the
    unit number of that row, and the count is 1. *)
Theorem get_data_keeps_filings (env : environment) (rows : csv)
    (outlier_method : string) (ward : bool) (out : DataFrame) :
  get_data env (Some rows) outlier_method ward false = Ok out ->
  forall i r, nth_error rows i = Some r ->
    cell out "ID" i = Some (VStr (nth 1 r "" ++ "-" ++ nth 12 r ""))
    /\ cell out "Count" i = Some (VInt 1)
    /\ forall j k, nth_error converters j = Some (k, conv_str) ->
         cell out k i = Some (VStr (nth j r "")).
Proof.
  intros H i r Hr. rewrite get_data_split in H.
  apply bind_ok in H. destruct H as (tbl & T & H).
  apply bind_ok in H. destruct H as (u & _ & H). inversion H. subst tbl. clear H.
  rewrite get_data_table_steps in T.
  apply bind_ok in T. destruct T as (df0 & R & T).
  apply bind_ok in T. destruct T as (lic & Glic & T).
  apply bind_ok in T. destruct T as (lic' & Mlic & T).
  apply bind_ok in T. destruct T as (un & Gun & T).
  apply bind_ok in T. destruct T as (un' & Mun & T).
  apply bind_ok in T. destruct T as (id & Zid & T).
  cbv beta zeta in T.
  pose proof (read_csv_text rows df0 1 "LICENSENUMBER" i r R eq_refl Hr) as Clic.
  pose proof (read_csv_text rows df0 12 "unitNumber1" i r R eq_refl Hr) as Cun.
  rewrite (getitem_cell _ _ _ i Glic) in Clic.
  rewrite (getitem_cell _ _ _ i Gun) in Cun.
  destruct (mapM_nth _ _ _ i _ Mlic Clic) as (a & Ha & Na).
  destruct (mapM_nth _ _ _ i _ Mun Cun) as (b & Hb & Nb).
  cbn [v_astype_str] in Ha, Hb. inversion Ha. inversion Hb. subst a b.
  destruct (zipM_nth _ _ _ _ i _ _ Zid Na Nb) as (c & Hc & Nc).
  cbn [v_concat] in Hc. inversion Hc. subst c.
  assert (Hi : (i < nrows (setitem df0 "ID" id))%nat).
  { cbn [setitem nrows]. rewrite (read_csv_nrows rows df0 R).
    apply nth_error_Some. congruence. }
  assert (Cid : cell (setitem df0 "ID" id) "ID" i
                = Some (VStr (nth 1 r "" ++ "-" ++ nth 12 r ""))).
  { rewrite cell_setitem. str_eqb. exact Nc. }
  destruct (steps_keep_text env outlier_method ward _ out "ID" i _ T eq_refl Cid)
    as [Hid Hcount].
  split; [exact Hid|]. split; [exact (Hcount Hi)|].
  intros j k Hj.
  assert (Hfind : find (fun jc : nat * (string * converter) =>
                          String.eqb (fst (snd jc)) k)
                    (combine (seq 0 (List.length converters)) converters)
                  = Some (j, (k, conv_str))
                  /\ mem k pipeline_columns = false
                  /\ String.eqb "ID" k = false).
  { do 23 (destruct j as [|j];
           [cbn [nth_error converters] in Hj; inversion Hj;
            repeat split; reflexivity
           |cbn [nth_error converters] in Hj]).
    destruct j; discriminate Hj. }
  destruct Hfind as (Hfind & Hmem & Hne).
  pose proof (read_csv_text rows df0 j k i r R Hfind Hr) as Ck.
  assert (Ck' : cell (setitem df0 "ID" id) k i = Some (VStr (nth j r ""))).
  { rewrite cell_setitem, Hne. exact Ck. }
  exact (proj1 (steps_keep_text env outlier_method ward _ out k i _ T Hmem Ck')).
Qed.

Lemma get_data_keeps_filings_witness :
  exists out,
    get_data two_wards_env (Some sample_csv) "2023" false false = Ok out
    /\ cell out "ID" 0%nat = Some (VStr "L1-A")
    /\ cell out "Count" 0%nat = Some (VInt 1).
Proof.
  destruct (get_data two_wards_env (Some sample_csv) "2023" false false)
    as [out|e] eqn:E; [|vm_compute in E; discriminate E].
  exists out. split; [reflexivity|].
  destruct (get_data_keeps_filings two_wards_env sample_csv "2023" false out E
              0%nat _ eq_refl) as (Hid & Hcount & _).
  split; [exact Hid|exact Hcount].
Defined.
